(** * Windowed history browsing and bounded live buffers of the edge dashboard

    A shallow embedding of the client-side state logic of the dashboard:
    - [History]: the window cursor of [static/js/history.js]
      ([changeWindowSize], [navigateData], [sliderNavigation]) and the time
      bounds computed by [renderHistoricalChart];
    - [Notifications]: the [NotificationManager] class of
      [static/js/notifications.js];
    - [Anomalies]: the metric rows of [createAnomalyCard];
    - [Realtime]: the temperature history of the realtime dashboard
      ([updateChart], [updateStatistics]).

    Integer-valued JavaScript numbers (positions, counts, sizes) are [Z];
    fractional ones (ratios, time stamps in ms, temperatures) are exact
    rationals [Q], so the rounding of IEEE doubles is not part of the model.
    DOM elements are modelled only as far as the scripts read them back. *)

From Stdlib Require Import ZArith QArith List String Ascii Bool Lia.
From Stdlib Require Import DecimalString Qround Qabs.
Import ListNotations.

Local Open Scope string_scope.
Local Open Scope Z_scope.

(* ===================================================================== *)
(** ** history.js: the window cursor *)
(* ===================================================================== *)

Module History.

(** The four module-level variables of history.js that make up the cursor:
    [let currentWindowSize = 1000; let currentPosition = 0;
     let totalDataCount = 0; let maxSliderPosition = 0;] *)
Record Cursor : Set := mkCursor {
  currentWindowSize : Z;
  currentPosition : Z;
  totalDataCount : Z;
  maxSliderPosition : Z
}.

Definition initial : Cursor :=
  {| currentWindowSize := 1000; currentPosition := 0;
     totalDataCount := 0; maxSliderPosition := 0 |}.

Definition set_position (p : Z) (c : Cursor) : Cursor :=
  {| currentWindowSize := currentWindowSize c; currentPosition := p;
     totalDataCount := totalDataCount c;
     maxSliderPosition := maxSliderPosition c |}.

Definition set_windowSize (w : Z) (c : Cursor) : Cursor :=
  {| currentWindowSize := w; currentPosition := currentPosition c;
     totalDataCount := totalDataCount c;
     maxSliderPosition := maxSliderPosition c |}.

(** The fields of a window response that the scripts read
    ([data.total_count], [data.max_position], [data.window_start],
    [data.window_end]). *)
Record WindowResponse : Set := mkResponse {
  total_count : Z;
  max_position : Z;
  window_start : Z;
  window_end : Z
}.

(** [displayHistoricalData(data, signal)]: the only place where
    [totalDataCount] and [maxSliderPosition] are assigned from a response. *)
Definition displayHistoricalData (data : WindowResponse) (c : Cursor) : Cursor :=
  {| currentWindowSize := currentWindowSize c;
     currentPosition := window_start data;
     totalDataCount := total_count data;
     maxSliderPosition := max_position data |}.

(** [reloadWindowedData()]: fetches the window at
    [(currentPosition, currentWindowSize)]; on a response with
    [total_count > 0] it writes [slider.max] and [slider.value] and redraws
    the chart, on a failed fetch it logs.  None of the four cursor variables
    is assigned on either path. *)
Definition reloadWindowedData (resp : option WindowResponse) (c : Cursor) : Cursor :=
  match resp with
  | Some _ | None => c
  end.

(** The assignments of [changeWindowSize(newSize)], before the reload. *)
Definition changeWindowSize (newSize : Z) (c : Cursor) : Cursor :=
  if newSize =? -1 then
    set_position 0 (set_windowSize (totalDataCount c) c)
  else
    let c1 := set_windowSize newSize c in
    if currentPosition c1 + currentWindowSize c1 >? totalDataCount c1 then
      set_position (Z.max 0 (totalDataCount c1 - currentWindowSize c1)) c1
    else c1.

(** The assignments of [navigateData(direction)]; [Math.floor(w / 2)] on an
    integer [w] is [w / 2] of [Z].  The [switch] has no [default]: any other
    string leaves the position as it is. *)
Definition navigateData (direction : string) (c : Cursor) : Cursor :=
  let step := currentWindowSize c / 2 in
  if String.eqb direction "start" then set_position 0 c
  else if String.eqb direction "prev" then
    set_position (Z.max 0 (currentPosition c - step)) c
  else if String.eqb direction "next" then
    set_position (Z.min (maxSliderPosition c) (currentPosition c + step)) c
  else if String.eqb direction "end" then
    set_position (maxSliderPosition c) c
  else c.

(** [sliderNavigation(value)]: [currentPosition = parseInt(value)].  The
    argument here is the integer that [parseInt] reads from the slider's
    value. *)
Definition sliderNavigation (value : Z) (c : Cursor) : Cursor :=
  set_position value c.

(** The window operations of the history view. *)
Inductive Op : Set :=
| Resize (newSize : Z)
| Navigate (direction : string)
| SetPosition (value : Z).

Definition step (o : Op) (c : Cursor) : Cursor :=
  match o with
  | Resize n => changeWindowSize n c
  | Navigate d => navigateData d c
  | SetPosition v => sliderNavigation v c
  end.

Fixpoint run (ops : list Op) (c : Cursor) : Cursor :=
  match ops with
  | [] => c
  | o :: ops' => run ops' (step o c)
  end.

(** *** Time bounds of the shown window ([renderHistoricalChart]) *)

(** [sampleRate]: 250 for ECG and ADC, 1 for TEMP, undefined otherwise. *)
Definition sampleRate (signal : string) : option Z :=
  if String.eqb signal "ECG" || String.eqb signal "ADC" then Some 250
  else if String.eqb signal "TEMP" then Some 1
  else None.

(** [(firstSampleMs, lastSampleMs)] of [renderHistoricalChart]:
    [sessionStartMs] and [sessionEndMs] are the [getTime()] of the selected
    session's start and end, [numSamples] the number of samples drawn.
    [None] stands for a result that is not a finite number: for a signal
    without sample rate the source divides by [undefined] (NaN), and for
    the temperature of an empty data set it divides by 0 (NaN or an
    infinity).
    The values are the real numbers that the source's expressions denote.
    The source computes them in doubles and rounds after every operation,
    so its results can differ from these in the last bits (for ECG at
    position 16001 of a session starting at 1000 it gives
    65004.00000000001 where the expression denotes 65004); equations
    between the values are therefore exact for the expressions, and orders
    between them carry over to the doubles, whose rounding is monotone. *)
Definition windowTimeBounds (signal : string) (sessionStartMs sessionEndMs : Z)
    (numSamples : Z) (c : Cursor) : option (Q * Q) :=
  if String.eqb signal "TEMP" then
    if totalDataCount c =? 0 then None
    else
      let sessionDurationMs := inject_Z (sessionEndMs - sessionStartMs) in
      let progressRatio := (inject_Z (currentPosition c) / inject_Z (totalDataCount c))%Q in
      let windowRatio := (inject_Z numSamples / inject_Z (totalDataCount c))%Q in
      Some ((inject_Z sessionStartMs + sessionDurationMs * progressRatio)%Q,
            (inject_Z sessionStartMs
             + sessionDurationMs * (progressRatio + windowRatio))%Q)
  else
    match sampleRate signal with
    | Some rate =>
        Some ((inject_Z sessionStartMs
               + (inject_Z (currentPosition c) / inject_Z rate) * 1000)%Q,
              (inject_Z sessionStartMs
               + (inject_Z (currentPosition c + numSamples - 1) / inject_Z rate)
                 * 1000)%Q)
    | None => None
    end.

End History.

(* ===================================================================== *)
(** ** JavaScript values and the built-ins the renderers call *)
(* ===================================================================== *)

Module Js.

(** The values a field of a JSON payload can hold; an absent field reads as
    [Undefined].  JSON numbers are finite, so [Num] needs no NaN. *)
Inductive Value : Set :=
| Undefined
| Null
| Num (q : Q)
| Str (s : string)
| Boolean (b : bool).

(** [a ?? b] *)
Definition nullish (a b : Value) : Value :=
  match a with
  | Undefined | Null => b
  | _ => a
  end.

Definition truthy (v : Value) : bool :=
  match v with
  | Undefined | Null => false
  | Num q => negb (Qeq_bool q 0)
  | Str s => negb (String.eqb s "")
  | Boolean b => b
  end.

(** [a || b] *)
Definition or_else (a b : Value) : Value := if truthy a then a else b.

(** [v === 'lit'] for a string literal *)
Definition is_str (v : Value) (lit : string) : bool :=
  match v with
  | Str s => String.eqb s lit
  | _ => false
  end.

(** [typeof v === 'number'] *)
Definition is_number (v : Value) : bool :=
  match v with
  | Num _ => true
  | _ => false
  end.

(** Result of evaluating an expression that may throw a [TypeError]. *)
Inductive Completion (A : Type) : Type :=
| Normal (a : A)
| Throws.
Arguments Normal {A} a.
Arguments Throws {A}.

Definition bind {A B : Type} (c : Completion A) (k : A -> Completion B)
  : Completion B :=
  match c with
  | Normal a => k a
  | Throws => Throws
  end.

Definition completes {A : Type} (c : Completion A) : bool :=
  match c with
  | Normal _ => true
  | Throws => false
  end.

Definition string_of_nat (n : nat) : string :=
  NilZero.string_of_uint (Nat.to_uint n).

Fixpoint zeros (n : nat) : string :=
  match n with
  | O => ""
  | S n' => String "0" (zeros n')
  end.

(** [Number.prototype.toFixed(f)] on the exact value [x], for
    [|x| < 10^21] (beyond that JavaScript switches to exponent notation):
    sign, then the integer [n] nearest to [x * 10^f] (the larger one on a
    tie), written with [f] digits after the point. *)
Definition toFixed_number (f : nat) (x : Q) : string :=
  let neg := negb (Qle_bool 0 x) in
  let ax := if neg then Qopp x else x in
  let n := Qfloor (ax * inject_Z (10 ^ Z.of_nat f) + (1 # 2))%Q in
  let m := NilZero.string_of_uint (N.to_uint (Z.to_N n)) in
  let m := if (f =? 0)%nat then m
           else
             let m := zeros (S f - String.length m) ++ m in
             let k := String.length m in
             substring 0 (k - f) m ++ "." ++ substring (k - f) f m in
  (if neg then "-" else "") ++ m.

(** [v.toFixed(f)]: only numbers have the method; on a string or a boolean
    the call is a [TypeError] ([undefined] is not a function), on
    [undefined] and [null] the property access is one. *)
Definition toFixed (f : nat) (v : Value) : Completion string :=
  match v with
  | Num q => Normal (toFixed_number f q)
  | _ => Throws
  end.

Definition upper_ascii (c : ascii) : ascii :=
  let n := nat_of_ascii c in
  if ((97 <=? n) && (n <=? 122))%nat then ascii_of_nat (n - 32) else c.

Fixpoint upper (s : string) : string :=
  match s with
  | EmptyString => EmptyString
  | String c s' => String (upper_ascii c) (upper s')
  end.

(** [v.toUpperCase()], on ASCII letters; only strings have the method. *)
Definition toUpperCase (v : Value) : Completion string :=
  match v with
  | Str s => Normal (upper s)
  | _ => Throws
  end.

Definition lower_ascii (c : ascii) : ascii :=
  let n := nat_of_ascii c in
  if ((65 <=? n) && (n <=? 90))%nat then ascii_of_nat (n + 32) else c.

Fixpoint lower (s : string) : string :=
  match s with
  | EmptyString => EmptyString
  | String c s' => String (lower_ascii c) (lower s')
  end.

(** Text put into the page.  Known characters are [Plain]; what the
    browser or a conversion that is not modelled produces stays a term:
    the locale time string of a date, the string a template literal makes
    of a value, and the print of an expression over operands that are not
    numbers (JavaScript converts them with [ToNumber] first). *)
Inductive Text : Set :=
| Plain (s : string)
| LocaleTime (v : Value)      (* new Date(v).toLocaleTimeString('it-IT') *)
| ToString (v : Value)        (* `${v}` *)
| Coerced (expr : string) (operands : list Value)
| Cat (a b : Text).

(** [`${x}`] for a number [x]: decimal digits when [x] is an integer
    (below 10^21 in size). *)
Definition number_text (x : Q) : Text :=
  let r := Qred x in
  if Pos.eqb (Qden r) 1 then
    Plain ((if Qnum r <? 0 then "-" else "")
           ++ NilZero.string_of_uint (N.to_uint (Z.abs_N (Qnum r))))
  else ToString (Num x).

End Js.

Notation "x <- c ;; k" := (Js.bind c (fun x => k))
  (at level 61, c at next level, right associativity).

(* ===================================================================== *)
(** ** notifications.js: the NotificationManager *)
(* ===================================================================== *)

Module Notifications.

Import Js.

(** The [data] object of a [new_anomaly] push event. *)
Record Payload : Set := mkPayload {
  reconstruction_error : Value;
  threshold : Value;
  temperature : Value;
  severity : Value;
  anomaly_type : Value;
  data_timestamp : Value          (* data.timestamp *)
}.

(** [anomalyData = { type, timestamp, data }]; [data = None] when the event
    carries no [data] object. *)
Record AnomalyData : Set := mkAnomalyData {
  type : string;
  timestamp : Value;
  data : option Payload
}.

Record Detail : Set := mkDetail {
  label : string;
  value : Text;
  critical : bool
}.

Record Rendered : Set := mkRendered {
  title : string;
  message : string;
  details : list Detail
}.

(** The two branches for ['ecg'] and ['piezo'] build the same details. *)
Definition errorDetails (timestamp : Value) (d : Payload) : Completion (list Detail) :=
  err <- toFixed 4 (nullish (reconstruction_error d) (Num 0)) ;;
  thr <- toFixed 4 (nullish (threshold d) (Num 0)) ;;
  Normal [ mkDetail "Errore" (Plain err) false;
           mkDetail "Soglia" (Plain thr) false;
           mkDetail "Ora" (LocaleTime (or_else (data_timestamp d) timestamp)) false ].

(** The first half of [showNotification]: [title], [message], [details] by
    event type.  Reading a field of a missing [data] throws; for any other
    type [details] stays [undefined] and [details.map] throws in
    [createNotificationElement]. *)
Definition render (e : AnomalyData) : Completion Rendered :=
  if String.eqb (type e) "ecg" then
    match data e with
    | None => Throws
    | Some d =>
        ds <- errorDetails (timestamp e) d ;;
        Normal (mkRendered "Anomalia ECG Rilevata"
                  "È stata rilevata un'anomalia nel segnale ECG" ds)
    end
  else if String.eqb (type e) "piezo" then
    match data e with
    | None => Throws
    | Some d =>
        ds <- errorDetails (timestamp e) d ;;
        Normal (mkRendered "Anomalia PIEZO Rilevata"
                  "È stata rilevata un'anomalia nel sensore piezoelettrico" ds)
    end
  else if String.eqb (type e) "temp" then
    match data e with
    | None => Throws
    | Some d =>
        let isCritical := is_str (severity d) "severe" in
        let temp := nullish (temperature d) (Num 0) in
        let title := "Anomalia Temperatura: " ++
            (if is_str (anomaly_type d) "hypothermia" then "Ipotermia" else "Ipertermia") in
        t1 <- toFixed 1 temp ;;
        let message := "Temperatura " ++ (if isCritical then "critica" else "anomala")
                       ++ ": " ++ t1 ++ "°C" in
        t2 <- toFixed 1 temp ;;
        thr <- toFixed 1 (nullish (threshold d) (Num 0)) ;;
        sev <- toUpperCase (or_else (severity d) (Str "unknown")) ;;
        Normal (mkRendered title message
                  [ mkDetail "Temperatura" (Plain (t2 ++ "°C")) isCritical;
                    mkDetail "Soglia" (Plain (thr ++ "°C")) false;
                    mkDetail "Severità" (Plain sev) false ])
    end
  else Throws.

(** A notification [div]: DOM nodes are compared by identity, so each
    carries the number [node] it got when it was created. *)
Record Notification : Set := mkNotification {
  node : nat;
  className : string;
  content : Rendered;
  time : Value
}.

Definition createNotificationElement (id : nat) (type : string) (r : Rendered)
    (timestamp : Value) : Notification :=
  {| node := id; className := "notification " ++ type; content := r;
     time := timestamp |}.

(** The [#notificationCounter] badge. *)
Record Badge : Set := mkBadge {
  textContent : string;
  badge_title : string;
  display : string
}.

(** The manager: its fields, the notification elements among the children
    of [#notificationsContainer] in their order ([container]), the badge if
    it exists, the [setTimeout] callbacks of [removeNotification] not yet
    run (all with the same delay, so they run in this order), and the
    number of the next node to create.
    The container is shared: the realtime script appends its
    connection-error element to it as well.  The manager appends and
    removes its own elements only and never looks at another child, so
    [container] leaves that element out; [SharedContainer] below has all
    the children. *)
Record Manager : Set := mkManager {
  notifications : list Notification;
  maxNotifications : nat;
  soundEnabled : bool;
  totalCount : nat;
  container : list nat;
  counter : option Badge;
  timers : list Notification;
  next_node : nat
}.

(** [new NotificationManager()] on a page without saved sound preference. *)
Definition new : Manager :=
  {| notifications := []; maxNotifications := 10; soundEnabled := true;
     totalCount := 0; container := []; counter := None; timers := [];
     next_node := 0 |}.

Definition set_notifications (l : list Notification) (m : Manager) : Manager :=
  {| notifications := l; maxNotifications := maxNotifications m;
     soundEnabled := soundEnabled m; totalCount := totalCount m;
     container := container m; counter := counter m; timers := timers m;
     next_node := next_node m |}.

Definition set_container (l : list nat) (m : Manager) : Manager :=
  {| notifications := notifications m; maxNotifications := maxNotifications m;
     soundEnabled := soundEnabled m; totalCount := totalCount m;
     container := l; counter := counter m; timers := timers m;
     next_node := next_node m |}.

Definition set_counter (b : option Badge) (m : Manager) : Manager :=
  {| notifications := notifications m; maxNotifications := maxNotifications m;
     soundEnabled := soundEnabled m; totalCount := totalCount m;
     container := container m; counter := b; timers := timers m;
     next_node := next_node m |}.

Definition set_timers (l : list Notification) (m : Manager) : Manager :=
  {| notifications := notifications m; maxNotifications := maxNotifications m;
     soundEnabled := soundEnabled m; totalCount := totalCount m;
     container := container m; counter := counter m; timers := l;
     next_node := next_node m |}.

Definition set_totalCount (n : nat) (m : Manager) : Manager :=
  {| notifications := notifications m; maxNotifications := maxNotifications m;
     soundEnabled := soundEnabled m; totalCount := n;
     container := container m; counter := counter m; timers := timers m;
     next_node := next_node m |}.

Definition set_next_node (n : nat) (m : Manager) : Manager :=
  {| notifications := notifications m; maxNotifications := maxNotifications m;
     soundEnabled := soundEnabled m; totalCount := totalCount m;
     container := container m; counter := counter m; timers := timers m;
     next_node := n |}.

(** [notification.parentElement] is non-null while the node is a child of
    the container. *)
Definition hasParent (n : Notification) (m : Manager) : bool :=
  existsb (Nat.eqb (node n)) (container m).

(** [this.notifications.indexOf(notification)]; [None] for [-1]. *)
Fixpoint indexOf (n : Notification) (l : list Notification) : option nat :=
  match l with
  | [] => None
  | x :: l' =>
      if Nat.eqb (node x) (node n) then Some O
      else option_map S (indexOf n l')
  end.

(** [l.splice(i, 1)] *)
Fixpoint splice1 (i : nat) (l : list Notification) : list Notification :=
  match i, l with
  | _, [] => []
  | O, _ :: l' => l'
  | S i', x :: l' => x :: splice1 i' l'
  end.

(** [parent.removeChild(notification)] *)
Definition removeChild (n : Notification) (children : list nat) : list nat :=
  filter (fun c => negb (Nat.eqb c (node n))) children.

(** [removeNotification(notification)]: nothing for a node without parent;
    otherwise the node is marked closing and the removal is left to a
    timeout. *)
Definition removeNotification (n : Notification) (m : Manager) : Manager :=
  if negb (hasParent n m) then m
  else set_timers (timers m ++ [n]) m.

(** The timeout callback of [removeNotification]. *)
Definition removeTimeout (n : Notification) (m : Manager) : Manager :=
  let m1 := if hasParent n m then set_container (removeChild n (container m)) m
            else m in
  match indexOf n (notifications m1) with
  | Some index => set_notifications (splice1 index (notifications m1)) m1
  | None => m1
  end.

(** [updateCounter()] *)
Definition updateCounter (m : Manager) : Manager :=
  let counter0 :=
    match counter m with
    | None =>
        if (0 <? totalCount m)%nat
        then Some (mkBadge "" "Click per chiudere tutte le notifiche" "")
        else None
    | Some b => Some b
    end in
  match counter0 with
  | Some _ =>
      let len := List.length (notifications m) in
      set_counter
        (Some {| textContent := if (99 <? len)%nat then "99+" else string_of_nat len;
                 badge_title := string_of_nat len
                                ++ " notifiche attive - Click per chiudere tutte";
                 display := if (len =? 0)%nat then "none" else "block" |}) m
  | None => m
  end.

(** How a call ended, with the manager as the call left it. *)
Inductive Outcome : Set :=
| Returned (m : Manager)
| Threw (m : Manager).

Definition state_of (o : Outcome) : Manager :=
  match o with
  | Returned m | Threw m => m
  end.

(** [showNotification(anomalyData)].  The sound played when [soundEnabled]
    is wrapped in [try]/[catch] and touches no field. *)
Definition showNotification (e : AnomalyData) (m : Manager) : Outcome :=
  let m := set_totalCount (S (totalCount m)) m in
  match render e with
  | Throws => Threw m
  | Normal r =>
      let notification :=
        createNotificationElement (next_node m) (type e) r (timestamp e) in
      let m := set_next_node (S (next_node m)) m in
      let m := set_container (container m ++ [node notification]) m in
      let m := set_notifications (notifications m ++ [notification]) m in
      let m :=
        if (maxNotifications m <? List.length (notifications m))%nat then
          match notifications m with
          | oldNotification :: rest =>          (* this.notifications.shift() *)
              removeNotification oldNotification (set_notifications rest m)
          | [] => m
          end
        else m in
      Returned (updateCounter m)
  end.

(** [clearAll()] *)
Definition clearAll (m : Manager) : Manager :=
  let toRemove := notifications m in
  let m := fold_left (fun m notification => removeNotification notification m)
             toRemove m in
  updateCounter (set_notifications [] m).

(** What can happen to the manager: a [new_anomaly] event, a click on the
    close button of a shown notification, the oldest pending timeout
    running, a click on the badge or on the clear-all button. *)
Inductive Event : Set :=
| Show (e : AnomalyData)
| Close (n : Notification)
| Timeout
| ClearAll.

Definition handle (ev : Event) (m : Manager) : Manager :=
  match ev with
  | Show e => state_of (showNotification e m)
  | Close n => removeNotification n m
  | Timeout =>
      match timers m with
      | n :: rest => removeTimeout n (set_timers rest m)
      | [] => m
      end
  | ClearAll => clearAll m
  end.

Fixpoint run (evs : list Event) (m : Manager) : Manager :=
  match evs with
  | [] => m
  | ev :: evs' => run evs' (handle ev m)
  end.

(** The notifications created by a sequence of [new_anomaly] events, in
    order of creation, the first one on node [id]: events whose rendering
    throws create none. *)
Fixpoint pushed (id : nat) (es : list AnomalyData) : list Notification :=
  match es with
  | [] => []
  | e :: es' =>
      match render e with
      | Normal r =>
          createNotificationElement id (type e) r (timestamp e)
            :: pushed (S id) es'
      | Throws => pushed id es'
      end
  end.

(** The [new_anomaly] events among [evs]. *)
Fixpoint shown (evs : list Event) : list AnomalyData :=
  match evs with
  | [] => []
  | Show e :: evs' => e :: shown evs'
  | _ :: evs' => shown evs'
  end.

(** The last [n] elements of a list. *)
Definition lastn {A : Type} (n : nat) (l : list A) : list A :=
  skipn (List.length l - n) l.

End Notifications.

(* ===================================================================== *)
(** ** The anomaly cards ([createAnomalyCard], [translateSeverity]) *)
(* ===================================================================== *)

Module Anomalies.

Import Js.

(** An anomaly record as [displayAnomalies] hands it over: the fields of
    the stored anomaly plus [type] (['ECG'], ['PIEZO'] or ['TEMP']). *)
Record Anomaly : Set := mkAnomaly {
  type : string;
  time : Value;
  timestamp : Value;
  temperature : Value;
  threshold : Value;
  severity : Value;
  anomaly_type : Value;
  duration_readings : Value;
  reconstruction_error : Value;
  sample_data : list Q
}.

Record Metric : Set := mkMetric {
  metric_label : string;
  metric_value : Text
}.

Record Card : Set := mkCard {
  className : string;
  typeColor : string;
  header_type : string;
  header_time : Text;
  metrics : list Metric;
  chartContainer : bool;      (* the card has an [anomaly-chart] div *)
  miniChart : bool            (* [renderAnomalyMiniChart] was scheduled *)
}.

(** [`${v}`] *)
Definition value_text (v : Value) : Text :=
  match v with
  | Str s => Plain s
  | Num q => number_text q
  | _ => ToString v
  end.

(** [typeof v === 'number' ? v.toFixed(f) : v] inside a template literal *)
Definition fixed_or_text (f : nat) (v : Value) : Text :=
  match v with
  | Num q => Plain (toFixed_number f q)
  | _ => value_text v
  end.

(** [translateSeverity(severity)]:
    [translations[severity?.toLowerCase()] || severity?.toUpperCase()
     || 'SCONOSCIUTA'].
    [?.] only guards [undefined] and [null]: a number or boolean has no
    [toLowerCase] and the call throws.  The keys ["constructor"] and
    ["__proto__"] find inherited properties of the object literal. *)
Definition translateSeverity (severity : Value) : Completion Text :=
  match severity with
  | Undefined | Null => Normal (Plain "SCONOSCIUTA")
  | Str s =>
      let key := lower s in
      if String.eqb key "mild" then Normal (Plain "LIEVE")
      else if String.eqb key "moderate" then Normal (Plain "MODERATA")
      else if String.eqb key "severe" then Normal (Plain "GRAVE")
      else if String.eqb key "constructor" || String.eqb key "__proto__"
      then Normal (Coerced "translations[key]" [Str key])
      else if negb (String.eqb (upper s) "") then Normal (Plain (upper s))
      else Normal (Plain "SCONOSCIUTA")
  | Num _ | Boolean _ => Throws
  end.

(** [`${durationReadings * 2}`] *)
Definition duration_text (durationReadings : Value) : Text :=
  match durationReadings with
  | Num q => number_text (q * 2)
  | _ => Coerced "durationReadings * 2" [durationReadings]
  end.

(** [threshold > 0 ? (reconstructionError / threshold * 100).toFixed(1) : '0'] *)
Definition errorPercent (reconstructionError threshold : Value) : Text :=
  match threshold with
  | Num t =>
      if Qle_bool t 0 then Plain "0"
      else
        match reconstructionError with
        | Num r => Plain (toFixed_number 1 (r / t * 100))
        | _ => Coerced "(reconstructionError / threshold * 100).toFixed(1)"
                 [reconstructionError; threshold]
        end
  | _ => Coerced "threshold > 0 ? (reconstructionError / threshold * 100).toFixed(1) : '0'"
           [reconstructionError; threshold]
  end.

Definition tempMetrics (anomaly : Anomaly) : Completion (list Metric) :=
  let temperature := nullish (temperature anomaly) (Num 0) in
  let threshold := nullish (threshold anomaly) (Num 0) in
  let severity := or_else (severity anomaly) (Str "unknown") in
  let anomalyTypeVal := or_else (anomaly_type anomaly) (Str "unknown") in
  let durationReadings := nullish (duration_readings anomaly) (Num 0) in
  let anomalyTypeLabel :=
    if is_str anomalyTypeVal "hypothermia" then Plain "Ipotermia"
    else if is_str anomalyTypeVal "hyperthermia" then Plain "Ipertermia"
    else value_text anomalyTypeVal in
  let anomalyIcon := if is_str anomalyTypeVal "hypothermia" then "🥶" else "🥵" in
  sev <- translateSeverity severity ;;
  Normal [ mkMetric "Tipo" (Cat (Plain (anomalyIcon ++ " ")) anomalyTypeLabel);
           mkMetric "Temperatura" (Cat (fixed_or_text 1 temperature) (Plain "°C"));
           mkMetric "Soglia" (Cat (fixed_or_text 1 threshold) (Plain "°C"));
           mkMetric "Durata" (Cat (duration_text durationReadings) (Plain " minuti"));
           mkMetric "Severità" sev ].

Definition errorMetrics (anomaly : Anomaly) : list Metric :=
  let reconstructionError := nullish (reconstruction_error anomaly) (Num 0) in
  let threshold := nullish (threshold anomaly) (Num 1) in
  [ mkMetric "Errore Ricostruzione" (fixed_or_text 4 reconstructionError);
    mkMetric "Soglia" (fixed_or_text 4 threshold);
    mkMetric "Superamento" (Cat (errorPercent reconstructionError threshold) (Plain "%")) ].

(** [createAnomalyCard(anomaly, index)] *)
Definition createAnomalyCard (anomaly : Anomaly) (index : nat) : Completion Card :=
  let '(typeColor, cardClass) :=
    if String.eqb (type anomaly) "ECG" then ("#10b981", "ecg")
    else if String.eqb (type anomaly) "PIEZO" then ("#3b82f6", "piezo")
    else ("#f59e0b", "temp") in
  let header_time :=
    if truthy (time anomaly) then value_text (time anomaly)
    else if truthy (timestamp anomaly) then LocaleTime (timestamp anomaly)
    else Plain "--" in
  let isTemp := String.eqb (type anomaly) "TEMP" in
  ms <- (if isTemp then tempMetrics anomaly else Normal (errorMetrics anomaly)) ;;
  Normal {| className := "anomaly-card " ++ cardClass;
            typeColor := typeColor;
            header_type := type anomaly;
            header_time := header_time;
            metrics := ms;
            chartContainer := negb isTemp;
            miniChart := negb isTemp
                         && (0 <? List.length (sample_data anomaly))%nat |}.

End Anomalies.

(* ===================================================================== *)
(** ** The realtime dashboard: temperature history and frozen counters *)
(* ===================================================================== *)

Module Realtime.

Import Js.

Definition MAX_TEMP_DISPLAY : nat := 1200.

(** [frozenStats]; [temp] is ['--'] or a [toFixed(1)] string. *)
Record FrozenStats : Set := mkFrozen {
  ecg : Z;
  adc : Z;
  packets : Z;
  temp : string
}.

(** [temperatureHistory]: degrees Celsius ([None] is NaN) and minutes from
    the start. *)
Record TemperatureHistory : Set := mkHistory {
  values : list (option Q);
  times : list Z
}.

(** The module-level variables, the text of [#tempValue], and the [y] and
    [x] series last handed to [Plotly.react] for the temperature chart.
    The time labels written next to the charts come from the clock and are
    left out. *)
Record State : Set := mkState {
  isAcquiring : bool;
  shouldUpdateCharts : bool;
  shouldUpdateCounters : bool;
  acquisitionStartTime : Value;
  frozenStats : FrozenStats;
  temperatureHistory : TemperatureHistory;
  lastTemperature : option Q;
  tempValue : string;
  tempChart : list (option Q) * list Z
}.

(** The state the script starts in; the [#tempValue] text is the one
    [performReset] restores. *)
Definition initial : State :=
  {| isAcquiring := false; shouldUpdateCharts := false;
     shouldUpdateCounters := false; acquisitionStartTime := Null;
     frozenStats := mkFrozen 0 0 0 "--";
     temperatureHistory := mkHistory [] [];
     lastTemperature := None; tempValue := "--"; tempChart := ([], []) |}.

(** [l.slice(-n)] for [n > 0]: the last [n] elements, all of them when
    there are fewer. *)
Definition slice_last {A : Type} (n : nat) (l : list A) : list A :=
  skipn (List.length l - n) l.

(** [x.toFixed(1)] on a number that may be NaN *)
Definition toFixed1 (x : option Q) : string :=
  match x with
  | Some q => toFixed_number 1 q
  | None => "NaN"
  end.

(** The statements both pushes share: append the value, append its minute
    stamp (one sample every 2 minutes), and redraw the chart from the last
    [MAX_TEMP_DISPLAY] entries. *)
Definition pushTemperature (tempC : option Q) (s : State) : State :=
  let values' := (values (temperatureHistory s) ++ [tempC])%list in
  let minutesFromStart := (Z.of_nat (List.length values') - 1) * 2 in
  let times' := (times (temperatureHistory s) ++ [minutesFromStart])%list in
  let displayValues := slice_last MAX_TEMP_DISPLAY values' in
  let displayTimes := slice_last MAX_TEMP_DISPLAY times' in
  {| isAcquiring := isAcquiring s; shouldUpdateCharts := shouldUpdateCharts s;
     shouldUpdateCounters := shouldUpdateCounters s;
     acquisitionStartTime := acquisitionStartTime s;
     frozenStats := frozenStats s;
     temperatureHistory := mkHistory values' times';
     lastTemperature := lastTemperature s;
     tempValue := tempValue s;
     tempChart := (displayValues, displayTimes) |}.

Definition set_tempValue (t : string) (s : State) : State :=
  {| isAcquiring := isAcquiring s; shouldUpdateCharts := shouldUpdateCharts s;
     shouldUpdateCounters := shouldUpdateCounters s;
     acquisitionStartTime := acquisitionStartTime s;
     frozenStats := frozenStats s;
     temperatureHistory := temperatureHistory s;
     lastTemperature := lastTemperature s;
     tempValue := t; tempChart := tempChart s |}.

Definition set_frozenStats (f : FrozenStats) (s : State) : State :=
  {| isAcquiring := isAcquiring s; shouldUpdateCharts := shouldUpdateCharts s;
     shouldUpdateCounters := shouldUpdateCounters s;
     acquisitionStartTime := acquisitionStartTime s;
     frozenStats := f;
     temperatureHistory := temperatureHistory s;
     lastTemperature := lastTemperature s;
     tempValue := tempValue s; tempChart := tempChart s |}.

Definition set_lastTemperature (t : option Q) (s : State) : State :=
  {| isAcquiring := isAcquiring s; shouldUpdateCharts := shouldUpdateCharts s;
     shouldUpdateCounters := shouldUpdateCounters s;
     acquisitionStartTime := acquisitionStartTime s;
     frozenStats := frozenStats s;
     temperatureHistory := temperatureHistory s;
     lastTemperature := t;
     tempValue := tempValue s; tempChart := tempChart s |}.

Definition set_flags (acquiring charts counters : bool) (start : Value)
    (s : State) : State :=
  {| isAcquiring := acquiring; shouldUpdateCharts := charts;
     shouldUpdateCounters := counters;
     acquisitionStartTime := start;
     frozenStats := frozenStats s;
     temperatureHistory := temperatureHistory s;
     lastTemperature := lastTemperature s;
     tempValue := tempValue s; tempChart := tempChart s |}.

(** An entry of a [data.y] series: a number, or an array whose first
    element is taken. *)
Inductive Sample : Set :=
| Scalar (q : Q)
| Nested (l : list Q).

(** [data] of a [data_update] event: [None] when [data] or [data.y] is
    missing, else the series [data.y]. *)
Definition ChartData : Set := option (list (list Sample)).

(** [updateChart(signal, data)].  The ECG and ADC branches only redraw
    their charts; the TEMP branch extends the temperature history. *)
Definition updateChart (signal : string) (data : ChartData) (s : State) : State :=
  match data with
  | None | Some [] => s
  | Some (tempData :: _) =>
      if String.eqb signal "ECG" then s
      else if String.eqb signal "ADC" then s
      else if String.eqb signal "TEMP" then
        match tempData with
        | [] => s
        | first :: _ =>
            let rawValue :=
              match first with
              | Scalar q => Some q
              | Nested (q :: _) => Some q
              | Nested [] => None                (* undefined *)
              end in
            let tempInCelsius := option_map (fun r => (r / 100)%Q) rawValue in
            (* #tempValue is written between the two pushes and the redraw
               that make up [pushTemperature]; the end state is the same *)
            set_tempValue (toFixed1 tempInCelsius)
              (pushTemperature tempInCelsius s)
        end
      else s
  end.

(** The fields of a status snapshot that [updateStatistics] and the poll
    read; [current_temp = None] is [null]. *)
Record Status : Set := mkStatus {
  current_temp : option Q;
  ecg_samples : Z;
  adc_samples : Z;
  packet_count : Z;
  is_acquiring : bool
}.

(** [Math.abs(a - b) > 0.01] *)
Definition differs (a b : Q) : bool :=
  negb (Qle_bool (Qabs (a - b)) (1 # 100)).

(** [updateStatistics(data)] *)
Definition updateStatistics (data : Status) (s : State) : State :=
  if negb (shouldUpdateCounters s) then s
  else
    let s :=
      match current_temp data with
      | Some t =>
          let tempC := (t / 100)%Q in
          let s := set_tempValue (toFixed_number 1 tempC) s in
          let f := frozenStats s in
          let s := set_frozenStats
                     (mkFrozen (ecg f) (adc f) (packets f) (toFixed_number 1 tempC)) s in
          let changed :=
            match lastTemperature s with
            | None => true
            | Some last => differs tempC last
            end in
          if changed then pushTemperature (Some tempC) (set_lastTemperature (Some tempC) s)
          else s
      | None => s
      end in
    set_frozenStats
      (mkFrozen (ecg_samples data) (adc_samples data) (packet_count data)
         (temp (frozenStats s))) s.

(** [performReset()], as far as the state above goes. *)
Definition performReset (s : State) : State :=
  {| isAcquiring := isAcquiring s; shouldUpdateCharts := shouldUpdateCharts s;
     shouldUpdateCounters := shouldUpdateCounters s;
     acquisitionStartTime := Null;
     frozenStats := mkFrozen 0 0 0 "--";
     temperatureHistory := mkHistory [] [];
     lastTemperature := None; tempValue := "--"; tempChart := ([], []) |}.

(** The events that reach this state: the socket events [data_update],
    [status_update] and [acquisition_status], the answer of the 5 s status
    poll, the answers to the start and stop commands, and a confirmed
    reset. *)
Inductive Event : Set :=
| DataUpdate (signal : string) (data : ChartData)
| StatusUpdate (data : Status)
| AcquisitionStatus (acquiring : bool) (start_time : Value)
| Poll (data : Status)
| Started
| Stopped
| Reset.

Definition handle (ev : Event) (s : State) : State :=
  match ev with
  | DataUpdate signal data =>
      if String.eqb signal "TEMP" then updateChart signal data s
      else if shouldUpdateCharts s then updateChart signal data s
      else s
  | StatusUpdate data => updateStatistics data s
  | AcquisitionStatus acquiring start_time =>
      set_flags acquiring acquiring acquiring
        (if acquiring && truthy start_time then start_time
         else acquisitionStartTime s) s
  | Poll data =>
      let s := updateStatistics data s in
      set_flags (isAcquiring s) (is_acquiring data) (is_acquiring data)
        (acquisitionStartTime s) s
  | Started => set_flags (isAcquiring s) true true (acquisitionStartTime s) s
  | Stopped => set_flags (isAcquiring s) false false (acquisitionStartTime s) s
  | Reset => performReset s
  end.

Fixpoint run (evs : list Event) (s : State) : State :=
  match evs with
  | [] => s
  | ev :: evs' => run evs' (handle ev s)
  end.

End Realtime.

(* ===================================================================== *)
(** * Predicates of the statements *)
(* ===================================================================== *)

Module CursorSpec.

Import History.

(** The bounds the operations keep: sizes are not negative and the position
    lies between 0 and the stored slider bound. *)
Definition bounded (c : Cursor) : Prop :=
  0 <= totalDataCount c /\ 0 <= currentWindowSize c /\
  0 <= currentPosition c <= maxSliderPosition c /\
  maxSliderPosition c <= totalDataCount c.

(** The shown window lies inside the data set, or covers all of it from
    position 0. *)
Definition window_inside (c : Cursor) : Prop :=
  currentPosition c + currentWindowSize c <= totalDataCount c \/
  (totalDataCount c <= currentWindowSize c /\ currentPosition c = 0).

(** The stored slider bound is the one that fits the window size. *)
Definition bound_fits (c : Cursor) : Prop :=
  maxSliderPosition c = Z.max 0 (totalDataCount c - currentWindowSize c).

(** The invariant of the window cursor as the specification words it. *)
Definition cursor_inv (c : Cursor) : Prop :=
  (0 <= currentPosition c <= maxSliderPosition c /\
   maxSliderPosition c <= totalDataCount c) /\
  bound_fits c /\ window_inside c.

(** Operations as the controls of the page issue them: a size button gives
    a positive size or the sentinel -1, the slider a value of its range
    [0..M].  [M] is [slider.max]; it is the stored [maxSliderPosition]
    after [displayHistoricalData], which assigns both, and stays so under
    navigation and slider moves.  After a resize the two differ
    ([HistoryPage]), so a sequence with a resize is not described by the
    stored bound. *)
Definition issued (M : Z) (o : Op) : Prop :=
  match o with
  | Resize n => n = -1 \/ 0 < n
  | Navigate _ => True
  | SetPosition v => 0 <= v <= M
  end.

(** Every operation of the sequence is one the controls can issue in the
    state it is applied to, the slider's range being the stored bound. *)
Fixpoint issued_from (c : Cursor) (ops : list Op) : Prop :=
  match ops with
  | [] => True
  | o :: ops' => issued (maxSliderPosition c) o /\ issued_from (step o c) ops'
  end.

(** Navigation and slider moves, which leave the window size alone. *)
Definition keeps_size (o : Op) : Prop :=
  match o with
  | Resize _ => False
  | _ => True
  end.

(** The state of the scenario: 10000 samples, a window of 1000, the slider
    bound 9000 that fits it. *)
Definition sample_cursor : Cursor :=
  {| currentWindowSize := 1000; currentPosition := 0;
     totalDataCount := 10000; maxSliderPosition := 9000 |}.

End CursorSpec.

Module RealtimeSpec.

Import Realtime.

(** The series in the temperature chart are at most [MAX_TEMP_DISPLAY]
    long. *)
Definition chart_bounded (s : State) : Prop :=
  (List.length (fst (tempChart s)) <= MAX_TEMP_DISPLAY)%nat /\
  (List.length (snd (tempChart s)) <= MAX_TEMP_DISPLAY)%nat.

(** What an event does to the stored history and the chart: nothing, a
    reset to empty, or one push, which appends a value and its minute stamp
    and draws the last [MAX_TEMP_DISPLAY] entries. *)
Definition history_unchanged (s s' : State) : Prop :=
  temperatureHistory s' = temperatureHistory s /\ tempChart s' = tempChart s.

Definition history_reset (s' : State) : Prop :=
  temperatureHistory s' = mkHistory [] [] /\ tempChart s' = ([], []).

Definition history_pushed (s s' : State) : Prop :=
  exists tempC : option Q,
    let values' := (values (temperatureHistory s) ++ [tempC])%list in
    let times' :=
      (times (temperatureHistory s)
         ++ [Z.of_nat (List.length (values (temperatureHistory s))) * 2])%list in
    temperatureHistory s' = mkHistory values' times' /\
    tempChart s' = (slice_last MAX_TEMP_DISPLAY values',
                    slice_last MAX_TEMP_DISPLAY times').

(** A temperature reading of 36.50 degrees as [data_update] delivers it. *)
Definition temp_update : Event :=
  DataUpdate "TEMP" (Some [[Scalar (inject_Z 3650)]]).

End RealtimeSpec.

Module NotificationSpec.

Import Js Notifications.

(** Events of a run in which the user closes nothing: only anomalies arrive
    and pending timeouts run. *)
Definition quiet (ev : Event) : Prop :=
  match ev with
  | Show _ | Timeout => True
  | Close _ | ClearAll => False
  end.

(** The event renders: [title], [message] and [details] are computed without
    an exception. *)
Definition renders (e : AnomalyData) : Prop := completes (render e) = true.

(** An ECG anomaly event with error [err] (in 1/10000) over threshold 0.05. *)
Definition ecg_event (err : Z) : AnomalyData :=
  {| type := "ecg"; timestamp := Str "2025-01-15T10:30:00";
     data := Some {| reconstruction_error := Num (err # 10000);
                     threshold := Num (5 # 100);
                     temperature := Undefined; severity := Undefined;
                     anomaly_type := Undefined; data_timestamp := Undefined |} |}.

Definition eleven_events : list AnomalyData :=
  map ecg_event [100; 200; 300; 400; 500; 600; 700; 800; 900; 1000; 1100].

(** The notification that the first event of a fresh manager creates. *)
Definition first_notification : Notification :=
  {| node := 0; className := "notification ecg";
     content := {| title := "Anomalia ECG Rilevata";
                   message := "È stata rilevata un'anomalia nel segnale ECG";
                   details := [ mkDetail "Errore" (Plain "0.0100") false;
                                mkDetail "Soglia" (Plain "0.0500") false;
                                mkDetail "Ora" (LocaleTime (Str "2025-01-15T10:30:00")) false ] |};
     time := Str "2025-01-15T10:30:00" |}.

(** The stored notifications are the last [maxNotifications] of the
    notifications [P] created so far, numbered in order of creation, and no
    pending timeout belongs to a stored one. *)
Definition fifo_inv (P : list Notification) (m : Manager) : Prop :=
  next_node m = List.length P /\
  map node P = seq 0 (List.length P) /\
  notifications m = lastn (maxNotifications m) P /\
  Forall (fun t => (node t < List.length P - List.length (notifications m))%nat)
    (timers m).

End NotificationSpec.

Module RenderSpec.

Import Js.

(** The field is absent or [null]. *)
Definition missing (v : Value) : bool :=
  match v with
  | Undefined | Null => true
  | _ => false
  end.

(** A numeric field of a partially formed payload: absent, or a number. *)
Definition missing_or_number (v : Value) : bool := missing v || is_number v.

(** A text field: absent, or a string. *)
Definition missing_or_text (v : Value) : bool :=
  match v with
  | Undefined | Null | Str _ => true
  | _ => false
  end.

(** The value with [d] in the place of a missing one. *)
Definition defaulted (d : Q) (v : Value) : Value :=
  if missing v then Num d else v.

(** The payload of a push event with 0 for each missing numeric field. *)
Definition payload_defaults (d : Notifications.Payload) : Notifications.Payload :=
  {| Notifications.reconstruction_error :=
       defaulted 0 (Notifications.reconstruction_error d);
     Notifications.threshold := defaulted 0 (Notifications.threshold d);
     Notifications.temperature := defaulted 0 (Notifications.temperature d);
     Notifications.severity := Notifications.severity d;
     Notifications.anomaly_type := Notifications.anomaly_type d;
     Notifications.data_timestamp := Notifications.data_timestamp d |}.

Definition event_defaults (e : Notifications.AnomalyData) : Notifications.AnomalyData :=
  {| Notifications.type := Notifications.type e;
     Notifications.timestamp := Notifications.timestamp e;
     Notifications.data := option_map payload_defaults (Notifications.data e) |}.

(** The anomaly record with the default for each missing numeric field: 0,
    and 1 for the threshold of an ECG or PIEZO anomaly, which is a
    divisor. *)
Definition anomaly_defaults (a : Anomalies.Anomaly) : Anomalies.Anomaly :=
  {| Anomalies.type := Anomalies.type a;
     Anomalies.time := Anomalies.time a;
     Anomalies.timestamp := Anomalies.timestamp a;
     Anomalies.temperature := defaulted 0 (Anomalies.temperature a);
     Anomalies.threshold :=
       defaulted (if String.eqb (Anomalies.type a) "TEMP" then 0 else 1)
         (Anomalies.threshold a);
     Anomalies.severity := Anomalies.severity a;
     Anomalies.anomaly_type := Anomalies.anomaly_type a;
     Anomalies.duration_readings := defaulted 0 (Anomalies.duration_readings a);
     Anomalies.reconstruction_error := defaulted 0 (Anomalies.reconstruction_error a);
     Anomalies.sample_data := Anomalies.sample_data a |}.

(** A payload with no field at all, and the events and anomaly records
    that carry it. *)
Definition empty_payload : Notifications.Payload :=
  Notifications.mkPayload Undefined Undefined Undefined Undefined Undefined Undefined.

Definition bare_event (type : string) : Notifications.AnomalyData :=
  Notifications.mkAnomalyData type (Num 1736937000000) (Some empty_payload).

Definition bare_anomaly (type : string) : Anomalies.Anomaly :=
  Anomalies.mkAnomaly type Undefined Undefined Undefined Undefined Undefined
    Undefined Undefined Undefined [].

(** Events whose numeric fields are missing and that are malformed in one
    more way: a temperature event with the number 2 as [severity]; an ECG
    event whose [threshold] is the string "0.05"; an event without [data]
    object; an event of a type the manager does not know. *)
Definition severity_event : Notifications.AnomalyData :=
  Notifications.mkAnomalyData "temp" (Num 1736937000000)
    (Some (Notifications.mkPayload Undefined Undefined Undefined (Num 2)
             Undefined Undefined)).

Definition text_threshold_event : Notifications.AnomalyData :=
  Notifications.mkAnomalyData "ecg" (Num 1736937000000)
    (Some (Notifications.mkPayload Undefined (Str "0.05") Undefined Undefined
             Undefined Undefined)).

Definition no_data_event : Notifications.AnomalyData :=
  Notifications.mkAnomalyData "ecg" (Num 1736937000000) None.

Definition unknown_type_event : Notifications.AnomalyData :=
  Notifications.mkAnomalyData "spo2" (Num 1736937000000) (Some empty_payload).

(** The event is rejected by a fresh manager: rendering throws, so
    [showNotification] ends in an exception with the event counted and
    nothing appended. *)
Definition rejected (e : Notifications.AnomalyData) : Prop :=
  Notifications.render e = Throws /\
  exists m', Notifications.showNotification e Notifications.new
               = Notifications.Threw m' /\
             Notifications.notifications m' = [] /\
             Notifications.container m' = [] /\
             Notifications.totalCount m' = 1%nat.

(** The three numeric fields that [showNotification] reads are missing
    where the event has a [data] object. *)
Definition numbers_missing (e : Notifications.AnomalyData) : Prop :=
  match Notifications.data e with
  | Some d => missing (Notifications.reconstruction_error d) = true /\
              missing (Notifications.temperature d) = true
  | None => True
  end.

(** A temperature anomaly record with the number 2 as [severity] and no
    other field. *)
Definition severity_anomaly : Anomalies.Anomaly :=
  Anomalies.mkAnomaly "TEMP" Undefined Undefined Undefined Undefined (Num 2)
    Undefined Undefined Undefined [].

End RenderSpec.

(* ===================================================================== *)
(** * More of the scripts *)
(* ===================================================================== *)

From Stdlib Require Import Permutation Sorted.

(** ** history.js: loading and leaving a data set *)

Module HistoryView.

Import History.

(** The assignments of [hideHistoryData()]: the three variables of the data
    set are reset, the window size is kept. *)
Definition hideHistoryData (c : Cursor) : Cursor :=
  {| currentWindowSize := currentWindowSize c; currentPosition := 0;
     totalDataCount := 0; maxSliderPosition := 0 |}.

(** The window asked of the server: [?position=..&window_size=..]. *)
Record WindowRequest : Set := mkRequest {
  position : Z;
  window_size : Z
}.

(** The request of [loadHistoricalData()], always from position 0. *)
Definition load_request (c : Cursor) : WindowRequest :=
  {| position := 0; window_size := currentWindowSize c |}.

(** The request of [reloadWindowedData()]. *)
Definition reload_request (c : Cursor) : WindowRequest :=
  {| position := currentPosition c; window_size := currentWindowSize c |}.

(** [loadHistoricalData()]: without a selected session it only warns; a
    response with [total_count > 0] is displayed; an empty response and a
    failed fetch ([None]) both end in [hideHistoryData()]. *)
Definition loadHistoricalData (selected : bool) (resp : option WindowResponse)
    (c : Cursor) : Cursor :=
  if negb selected then c
  else
    match resp with
    | Some data =>
        if 0 <? total_count data then displayHistoricalData data c
        else hideHistoryData c
    | None => hideHistoryData c
    end.

(** [k] presses of the navigation button [direction]. *)
Definition presses (direction : string) (k : nat) : list Op :=
  repeat (Navigate direction) k.

(** The answer of a server that returns the window asked for: it starts at
    the requested position and its bound is the one that fits the requested
    size. *)
Definition answers (rq : WindowRequest) (data : WindowResponse) : Prop :=
  0 < total_count data /\
  window_start data = position rq /\
  max_position data = Z.max 0 (total_count data - window_size rq).

End HistoryView.

(** ** history.js: the cursor and the slider of the page *)

Module HistoryPage.

Import History HistoryView.

(** The cursor variables together with the [max] attribute of the
    [#dataSlider] range input, which bounds the values that the slider hands
    to [sliderNavigation]. *)
Record Page : Set := mkPage {
  cursor : Cursor;
  sliderMax : Z
}.

(** [displayHistoricalData(data, signal)] with its "Configura slider" part:
    [slider.max = maxSliderPosition]. *)
Definition displayHistoricalData (data : WindowResponse) (p : Page) : Page :=
  let c := History.displayHistoricalData data (cursor p) in
  {| cursor := c; sliderMax := maxSliderPosition c |}.

(** [reloadWindowedData()] with its "Aggiorna slider" part: on an answer
    with [total_count > 0], [slider.max = data.max_position]; the variable
    [maxSliderPosition] is not assigned. *)
Definition reloadWindowedData (resp : option WindowResponse) (p : Page) : Page :=
  match resp with
  | Some data =>
      if 0 <? total_count data
      then {| cursor := History.reloadWindowedData resp (cursor p);
              sliderMax := max_position data |}
      else p
  | None => p
  end.

(** The three handlers, each with the reload it awaits; [resp] is the answer
    to that reload's request. *)
Definition changeWindowSize (newSize : Z) (resp : option WindowResponse)
    (p : Page) : Page :=
  reloadWindowedData resp
    {| cursor := History.changeWindowSize newSize (cursor p);
       sliderMax := sliderMax p |}.

Definition navigateData (direction : string) (resp : option WindowResponse)
    (p : Page) : Page :=
  reloadWindowedData resp
    {| cursor := History.navigateData direction (cursor p);
       sliderMax := sliderMax p |}.

Definition sliderNavigation (value : Z) (resp : option WindowResponse)
    (p : Page) : Page :=
  reloadWindowedData resp
    {| cursor := History.sliderNavigation value (cursor p);
       sliderMax := sliderMax p |}.

(** The page after a session of 10000 samples was loaded with the initial
    window of 1000. *)
Definition loaded : Page :=
  displayHistoricalData
    {| total_count := 10000; max_position := 9000;
       window_start := 0; window_end := 1000 |}
    {| cursor := History.initial; sliderMax := 0 |}.

(** The answer to the request for [size] samples from [position] of these
    10000. *)
Definition window_of (position size : Z) : WindowResponse :=
  {| total_count := 10000; max_position := Z.max 0 (10000 - size);
     window_start := position; window_end := Z.min 10000 (position + size) |}.

End HistoryPage.

(** ** The stored temperature history and its chart *)

Module HistorySpec.

Import Realtime.

(** The minute stamps are 0, 2, 4, ... in step with the values, and the
    chart holds the last [MAX_TEMP_DISPLAY] entries of both. *)
Definition history_ok (s : State) : Prop :=
  times (temperatureHistory s)
    = map (fun i => Z.of_nat i * 2)
        (seq 0 (List.length (values (temperatureHistory s)))) /\
  tempChart s
    = (slice_last MAX_TEMP_DISPLAY (values (temperatureHistory s)),
       slice_last MAX_TEMP_DISPLAY (times (temperatureHistory s))).

End HistorySpec.

(** ** notifications.js: the page, the timeouts, the sound preference *)

Module NotificationPage.

Import Js Notifications.

(** The list after [splice(indexOf(t), 1)], when [t] is found. *)
Definition without (t : Notification) (l : list Notification) : list Notification :=
  match indexOf t l with
  | Some i => splice1 i l
  | None => l
  end.


(** The list and the page agree up to pending removals: the listed nodes
    are distinct nodes created earlier, each is a child of the container,
    and a child that is not listed has a removal timeout pending. *)
Definition page_ok (m : Manager) : Prop :=
  NoDup (map node (notifications m)) /\
  (forall x, In x (notifications m) -> (node x < next_node m)%nat) /\
  (forall x, In x (notifications m) -> In (node x) (container m)) /\
  (forall c, In c (container m) ->
             In c (map node (notifications m)) \/ In c (map node (timers m))) /\
  (List.length (notifications m) <= maxNotifications m)%nat.

(** Two anomalies in a row. *)
Definition two_shown : list Event :=
  [Show (NotificationSpec.ecg_event 100); Show (NotificationSpec.ecg_event 200)].

(** [init()] as far as the fields go: [saved] is
    [localStorage.getItem('notificationSound')]. *)
Definition init (saved : option string) : Manager :=
  {| notifications := []; maxNotifications := 10;
     soundEnabled := match saved with
                     | Some v => String.eqb v "true"
                     | None => true
                     end;
     totalCount := 0; container := []; counter := None; timers := [];
     next_node := 0 |}.

(** [toggleSound()]: the manager after the call and the string that
    [localStorage.setItem('notificationSound', this.soundEnabled)] stores;
    the returned value is the new [soundEnabled]. *)
Definition toggleSound (m : Manager) : Manager * string :=
  let enabled := negb (soundEnabled m) in
  ({| notifications := notifications m; maxNotifications := maxNotifications m;
      soundEnabled := enabled; totalCount := totalCount m;
      container := container m; counter := counter m; timers := timers m;
      next_node := next_node m |},
   if enabled then "true" else "false").

End NotificationPage.

(** ** The simulate-anomaly form ([validateTemperature], [generateAnomaly]) *)

Module Simulate.

Import Js.

(** What [validateTemperature] writes: the validation message and its
    class, the mark on the temperature input ([Some true] for 'valid',
    [Some false] for 'invalid', [None] for neither), and whether the
    generate button is disabled. *)
Record TempForm : Set := mkTempForm {
  validationText : Text;
  validationClass : string;
  inputMark : option bool;
  generateDisabled : bool
}.

(** [validateTemperature()]: [tempType] is the value of the checked radio
    button ([None] when none is checked), [temperature] the result of
    [parseFloat] ([None] for NaN). *)
Definition validateTemperature (tempType : option string) (temperature : option Q)
    (f : TempForm) : TempForm :=
  let untouched :=
    {| validationText := Plain ""; validationClass := "validation-message";
       inputMark := None; generateDisabled := generateDisabled f |} in
  match tempType, temperature with
  | Some ty, Some t =>
      if String.eqb ty "" then untouched
      else
        let '(isValid, message) :=
          if String.eqb ty "hypothermia" then
            if Qle_bool 35 t then
              (false, Cat (Plain "Errore: per ipotermia la temperatura deve essere < 35°C (attuale: ")
                        (Cat (number_text t) (Plain "°C)")))
            else
              (true, Cat (Plain "Valido: temperatura ")
                       (Cat (number_text t) (Plain "°C < 35°C")))
          else if String.eqb ty "hyperthermia" then
            if Qle_bool t (75 # 2) then
              (false, Cat (Plain "Errore: per ipertermia la temperatura deve essere > 37.5°C (attuale: ")
                        (Cat (number_text t) (Plain "°C)")))
            else
              (true, Cat (Plain "Valido: temperatura ")
                       (Cat (number_text t) (Plain "°C > 37.5°C")))
          else (false, Plain "") in
        if isValid then
          {| validationText := message;
             validationClass := "validation-message success";
             inputMark := Some true; generateDisabled := false |}
        else
          {| validationText := message;
             validationClass := "validation-message error";
             inputMark := Some false; generateDisabled := true |}
  | _, _ => untouched
  end.

(** The request body of a simulated temperature anomaly. *)
Record TempPayload : Set := mkTempPayload {
  type : string;
  anomaly_type : string;
  temperature : Q;
  threshold : Q;
  duration_readings : Q;
  severity : option string          (* absent for 'auto' *)
}.

Inductive Built : Set :=
| Payload (p : TempPayload)
| Error (message : string).

(** The 'temp' branch of [generateAnomaly()] up to the request:
    [temperature] is the result of [parseFloat], [durationMinutes] that of
    [parseInt] ([None] for NaN).  [%] is the remainder with the sign of the
    dividend. *)
Definition tempPayload (tempType : string) (temperature : option Q)
    (durationMinutes : option Z) (severity : string) : Built :=
  match temperature with
  | None => Error "Temperatura richiesta"
  | Some t =>
      if Qeq_bool t 0 then Error "Temperatura richiesta"
      else if String.eqb tempType "hypothermia" && Qle_bool 35 t then
        Error "Per ipotermia la temperatura deve essere < 35°C"
      else if String.eqb tempType "hyperthermia" && Qle_bool t (75 # 2) then
        Error "Per ipertermia la temperatura deve essere > 37.5°C"
      else
        match durationMinutes with
        | None =>
            Error "La durata deve essere un multiplo di 2 (es: 2, 4, 6, 8, 10...)"
        | Some minutes =>
            if negb (Z.rem minutes 2 =? 0) then
              Error "La durata deve essere un multiplo di 2 (es: 2, 4, 6, 8, 10...)"
            else
              Payload
                {| type := "temp";
                   anomaly_type := tempType;
                   temperature := t;
                   threshold := if String.eqb tempType "hypothermia" then 35
                                else 75 # 2;
                   duration_readings := (inject_Z minutes / 2)%Q;
                   severity := if String.eqb severity "auto" then None
                               else Some severity |}
        end
  end.

End Simulate.

(** ** The device badge and the connection error notification *)

Module DeviceStatus.

(** The two flags, the text of the [#deviceStatus] badge, the element with
    id [connectionErrorNotification] that is in the document (a node
    number, as for the anomaly notifications), the pending 300 ms removal
    timeouts by node, the number of pending 2-minute cooldown timeouts, and
    the number of the next node. *)
Record State : Set := mkState {
  deviceConnected : bool;
  connectionErrorShown : bool;
  connectionErrorCooldown : bool;
  badgeText : string;
  errorNode : option nat;
  removals : list nat;
  cooldowns : nat;
  next_node : nat
}.

(** The script starts with both flags off; [text] is what the page shows in
    the badge before the first status arrives. *)
Definition initial (text : string) : State :=
  {| deviceConnected := false; connectionErrorShown := false;
     connectionErrorCooldown := false; badgeText := text;
     errorNode := None; removals := []; cooldowns := 0; next_node := 0 |}.

(** [text.includes(part)] *)
Definition includes (part text : string) : bool :=
  match String.index 0 part text with
  | Some _ => true
  | None => false
  end.

(** [showConnectionErrorNotification()]: nothing if an element with the id
    is in the document, else a new one is appended. *)
Definition showConnectionErrorNotification (s : State) : State :=
  match errorNode s with
  | Some _ => s
  | None =>
      {| deviceConnected := deviceConnected s;
         connectionErrorShown := connectionErrorShown s;
         connectionErrorCooldown := connectionErrorCooldown s;
         badgeText := badgeText s;
         errorNode := Some (next_node s);
         removals := removals s; cooldowns := cooldowns s;
         next_node := S (next_node s) |}
  end.

(** [removeConnectionErrorNotification()]: the element found is marked
    closing and its removal is left to a timeout. *)
Definition removeConnectionErrorNotification (s : State) : State :=
  match errorNode s with
  | Some n =>
      {| deviceConnected := deviceConnected s;
         connectionErrorShown := connectionErrorShown s;
         connectionErrorCooldown := connectionErrorCooldown s;
         badgeText := badgeText s;
         errorNode := errorNode s;
         removals := (removals s ++ [n])%list; cooldowns := cooldowns s;
         next_node := next_node s |}
  | None => s
  end.

Definition set_flags (shown cooldown : bool) (s : State) : State :=
  {| deviceConnected := deviceConnected s;
     connectionErrorShown := shown;
     connectionErrorCooldown := cooldown;
     badgeText := badgeText s;
     errorNode := errorNode s;
     removals := removals s; cooldowns := cooldowns s;
     next_node := next_node s |}.

Definition set_badgeText (text : string) (s : State) : State :=
  {| deviceConnected := deviceConnected s;
     connectionErrorShown := connectionErrorShown s;
     connectionErrorCooldown := connectionErrorCooldown s;
     badgeText := text;
     errorNode := errorNode s;
     removals := removals s; cooldowns := cooldowns s;
     next_node := next_node s |}.

(** [updateDeviceStatus(connected)] *)
Definition updateDeviceStatus (connected : bool) (s : State) : State :=
  if connected then
    let s := set_badgeText "Connected" s in
    let s :=
      if connectionErrorShown s then
        set_flags false (connectionErrorCooldown s)
          (removeConnectionErrorNotification s)
      else s in
    set_flags (connectionErrorShown s) false s
  else
    let s := set_badgeText "Disconnected" s in
    if negb (connectionErrorShown s) && negb (connectionErrorCooldown s) then
      set_flags true (connectionErrorCooldown s)
        (showConnectionErrorNotification s)
    else s.

(** [closeConnectionError()]; the cooldown timeout is counted in
    [cooldowns]. *)
Definition closeConnectionError (s : State) : State :=
  let s := removeConnectionErrorNotification (set_flags false true s) in
  {| deviceConnected := deviceConnected s;
     connectionErrorShown := connectionErrorShown s;
     connectionErrorCooldown := connectionErrorCooldown s;
     badgeText := badgeText s;
     errorNode := errorNode s;
     removals := removals s; cooldowns := S (cooldowns s);
     next_node := next_node s |}.

(** The removal timeout of node [n]: the node is taken out of the document
    if it is still in it. *)
Definition removalTimeout (n : nat) (s : State) : State :=
  match errorNode s with
  | Some k =>
      if Nat.eqb k n then
        {| deviceConnected := deviceConnected s;
           connectionErrorShown := connectionErrorShown s;
           connectionErrorCooldown := connectionErrorCooldown s;
           badgeText := badgeText s;
           errorNode := None;
           removals := removals s; cooldowns := cooldowns s;
           next_node := next_node s |}
      else s
  | None => s
  end.

(** The cooldown timeout of [closeConnectionError]. *)
Definition cooldownTimeout (s : State) : State :=
  let s := set_flags (connectionErrorShown s) false s in
  if includes "Disconnected" (badgeText s) && negb (connectionErrorShown s) then
    set_flags true (connectionErrorCooldown s)
      (showConnectionErrorNotification s)
  else s.

(** A [device_status] socket event, the device field of a status poll, a
    click on the close button of the error, and the two kinds of timeout,
    each kind in the order it was set. *)
Inductive Event : Set :=
| DeviceStatusEvent (connected : bool)
| PollStatus (device_connected : bool)
| CloseError
| RemovalTimeout
| CooldownTimeout.

Definition handle (ev : Event) (s : State) : State :=
  match ev with
  | DeviceStatusEvent connected =>
      updateDeviceStatus connected
        {| deviceConnected := connected;
           connectionErrorShown := connectionErrorShown s;
           connectionErrorCooldown := connectionErrorCooldown s;
           badgeText := badgeText s;
           errorNode := errorNode s;
           removals := removals s; cooldowns := cooldowns s;
           next_node := next_node s |}
  | PollStatus connected => updateDeviceStatus connected s
  | CloseError => closeConnectionError s
  | RemovalTimeout =>
      match removals s with
      | n :: rest =>
          removalTimeout n
            {| deviceConnected := deviceConnected s;
               connectionErrorShown := connectionErrorShown s;
               connectionErrorCooldown := connectionErrorCooldown s;
               badgeText := badgeText s;
               errorNode := errorNode s;
               removals := rest; cooldowns := cooldowns s;
               next_node := next_node s |}
      | [] => s
      end
  | CooldownTimeout =>
      match cooldowns s with
      | S k =>
          cooldownTimeout
            {| deviceConnected := deviceConnected s;
               connectionErrorShown := connectionErrorShown s;
               connectionErrorCooldown := connectionErrorCooldown s;
               badgeText := badgeText s;
               errorNode := errorNode s;
               removals := removals s; cooldowns := k;
               next_node := next_node s |}
      | O => s
      end
  end.

Fixpoint run (evs : list Event) (s : State) : State :=
  match evs with
  | [] => s
  | ev :: evs' => run evs' (handle ev s)
  end.

(** The flags are never both on; the error is flagged as shown only while
    the badge says Disconnected; a cooldown has its timeout pending; an
    error element left in the page while not flagged as shown has its
    removal pending. *)
Definition flags_ok (s : State) : Prop :=
  (connectionErrorShown s = true -> connectionErrorCooldown s = false) /\
  (connectionErrorShown s = true -> includes "Disconnected" (badgeText s) = true) /\
  (connectionErrorCooldown s = true -> (0 < cooldowns s)%nat) /\
  (forall n, errorNode s = Some n -> connectionErrorShown s = false ->
             In n (removals s)).

End DeviceStatus.

(** ** The container that the two scripts share *)

Module SharedContainer.





End SharedContainer.

(** ** The debug console *)

Module DebugLog.

Import Js.

Record LogEntry : Set := mkLogEntry {
  timestamp : Value;
  category : string;
  level : string;
  message : string
}.

(** A child of [#debugConsole]: the line of a log entry, or the line that
    a clear leaves behind. *)
Inductive Line : Set :=
| LogLine (className : string) (time : Text) (categoryClass : string)
          (category : string) (message : string)
| ClearedLine.

(** [debugLogs], [debugFilters], the children of [#debugConsole] ([None]
    when the page has no such element), the text of [#debugLogCount]
    ([None] when there is none), and the number of [system_log] listeners
    registered on the socket. *)
Record State : Set := mkState {
  debugLogs : list LogEntry;
  filterCategory : string;
  filterLevel : string;
  consoleLines : option (list Line);
  countLabel : option string;
  listeners : nat
}.

(** [s.replace(' ', '-')]: the first space only. *)
Fixpoint replace_first_space (s : string) : string :=
  match s with
  | EmptyString => EmptyString
  | String c s' =>
      if Ascii.eqb c " " then String "-" s'
      else String c (replace_first_space s')
  end.

(** The two filter tests of [addDebugLogToConsole]: an empty filter lets
    everything through. *)
Definition passes (s : State) (logEntry : LogEntry) : bool :=
  (String.eqb (filterCategory s) "" || String.eqb (category logEntry) (filterCategory s))
  && (String.eqb (filterLevel s) "" || String.eqb (level logEntry) (filterLevel s)).

Definition line_of (logEntry : LogEntry) : Line :=
  LogLine ("console-line " ++ lower (level logEntry))
          (LocaleTime (timestamp logEntry))
          (replace_first_space (lower (category logEntry)))
          (category logEntry) (message logEntry).

(** [updateDebugLogCount()] *)
Definition updateDebugLogCount (s : State) : State :=
  match countLabel s with
  | Some _ =>
      {| debugLogs := debugLogs s; filterCategory := filterCategory s;
         filterLevel := filterLevel s; consoleLines := consoleLines s;
         countLabel := Some ("(" ++ string_of_nat (List.length (debugLogs s))
                             ++ " entries)");
         listeners := listeners s |}
  | None => s
  end.

(** [addDebugLogToConsole(logEntry, scroll)]; scrolling is not part of the
    state. *)
Definition addDebugLogToConsole (logEntry : LogEntry) (s : State) : State :=
  if negb (passes s logEntry) then s
  else
    match consoleLines s with
    | None => s
    | Some lines =>
        updateDebugLogCount
          {| debugLogs := (debugLogs s ++ [logEntry])%list;
             filterCategory := filterCategory s;
             filterLevel := filterLevel s;
             consoleLines := Some (lines ++ [line_of logEntry])%list;
             countLabel := countLabel s; listeners := listeners s |}
    end.

(** [renderDebugLogs()].  The local [console] shadows the global one, so
    without the element [console.error] is called on [null] and throws.
    [forEach] visits the entries the array had when it started; the
    callback appends to the same array. *)
Definition renderDebugLogs (s : State) : Completion State :=
  match consoleLines s with
  | None => Throws
  | Some _ =>
      let s0 :=
        {| debugLogs := debugLogs s; filterCategory := filterCategory s;
           filterLevel := filterLevel s; consoleLines := Some [];
           countLabel := countLabel s; listeners := listeners s |} in
      Normal (updateDebugLogCount
                (fold_left (fun st log => addDebugLogToConsole log st)
                   (debugLogs s) s0))
  end.

(** The answer to [/api/system/logs]: [None] for a failed fetch. *)
Record LogsResponse : Set := mkLogsResponse {
  success : bool;
  logs : list LogEntry
}.

(** [loadDebugLogs()]: every exception ends in the [catch], after the
    assignment to [debugLogs]. *)
Definition loadDebugLogs (resp : option LogsResponse) (s : State) : State :=
  match resp with
  | Some data =>
      if success data then
        let s1 :=
          {| debugLogs := logs data; filterCategory := filterCategory s;
             filterLevel := filterLevel s; consoleLines := consoleLines s;
             countLabel := countLabel s; listeners := listeners s |} in
        match renderDebugLogs s1 with
        | Normal s2 => s2
        | Throws => s1
        end
      else s
  | None => s
  end.

(** [applyDebugFilters()] with the values of the two selects. *)
Definition applyDebugFilters (categoryValue levelValue : string)
    (resp : option LogsResponse) (s : State) : State :=
  loadDebugLogs resp
    {| debugLogs := debugLogs s; filterCategory := categoryValue;
       filterLevel := levelValue; consoleLines := consoleLines s;
       countLabel := countLabel s; listeners := listeners s |}.

(** The confirmed callback of [clearDebugConsole()]. *)
Definition clearConfirmed (s : State) : State :=
  updateDebugLogCount
    {| debugLogs := []; filterCategory := filterCategory s;
       filterLevel := filterLevel s;
       consoleLines := match consoleLines s with
                       | Some _ => Some [ClearedLine]
                       | None => None
                       end;
       countLabel := countLabel s; listeners := listeners s |}.

(** [showDebugMode()]: starts a load, whose answer is handled later by
    [loadDebugLogs], and registers one more [system_log] listener on the
    socket; listeners are never removed. *)
Definition showDebugMode (s : State) : State :=
  {| debugLogs := debugLogs s; filterCategory := filterCategory s;
     filterLevel := filterLevel s; consoleLines := consoleLines s;
     countLabel := countLabel s; listeners := S (listeners s) |}.

(** A [system_log] event: every registered listener adds the entry. *)
Definition system_log (logEntry : LogEntry) (s : State) : State :=
  fold_left (fun st _ => addDebugLogToConsole logEntry st)
    (repeat tt (listeners s)) s.

(** The state the script starts in, on a page with the console and the
    count label. *)
Definition initial : State :=
  {| debugLogs := []; filterCategory := ""; filterLevel := "";
     consoleLines := Some []; countLabel := Some ""; listeners := 0 |}.

Definition count_text (n : nat) : string :=
  "(" ++ string_of_nat n ++ " entries)".

End DebugLog.

(** ** The list of anomaly cards ([renderAnomaliesList]) *)

Module AnomalyList.

Import Js Anomalies.

(** [anomaliesData] *)
Record AnomaliesData : Set := mkData {
  ecg : list Anomaly;
  piezo : list Anomaly;
  temp : list Anomaly
}.

(** [{...a, type: t}] *)
Definition tagged (t : string) (a : Anomaly) : Anomaly :=
  {| type := t; time := time a; timestamp := timestamp a;
     temperature := temperature a; threshold := threshold a;
     severity := severity a; anomaly_type := anomaly_type a;
     duration_readings := duration_readings a;
     reconstruction_error := reconstruction_error a;
     sample_data := sample_data a |}.

(** The anomalies combined under the filter, before sorting. *)
Definition combined (currentAnomalyFilter : string) (data : AnomaliesData)
    : list Anomaly :=
  let all := String.eqb currentAnomalyFilter "all" in
  ((if all || String.eqb currentAnomalyFilter "ecg"
    then map (tagged "ECG") (ecg data) else [])
   ++ (if all || String.eqb currentAnomalyFilter "piezo"
       then map (tagged "PIEZO") (piezo data) else [])
   ++ (if all || String.eqb currentAnomalyFilter "temp"
       then map (tagged "TEMP") (temp data) else []))%list.

Section WithDates.

(** The time value in ms of [new Date(v)], [None] for an invalid date; how
    strings are parsed is the browser's matter. *)
Variable timeValue : Value -> option Z.

(** The comparator [(a, b) => new Date(b.timestamp) - new Date(a.timestamp)];
    a NaN result counts as 0 in [sort]. *)
Definition compareFn (a b : Anomaly) : Z :=
  match timeValue (timestamp b), timeValue (timestamp a) with
  | Some tb, Some ta => tb - ta
  | _, _ => 0
  end.

(** [Array.prototype.sort] is stable; with a consistent comparator its
    result is the one of this insertion sort, which puts an element before
    the first one that the comparator orders after it. *)
Fixpoint insert (x : Anomaly) (l : list Anomaly) : list Anomaly :=
  match l with
  | [] => [x]
  | y :: l' => if 0 <? compareFn y x then x :: y :: l' else y :: insert x l'
  end.

Definition sort (l : list Anomaly) : list Anomaly :=
  fold_left (fun sorted x => insert x sorted) l [].

(** What [renderAnomaliesList] leaves in [#anomaliesList]: the empty-state
    text, or the cards appended, with [completed = false] when a card threw
    and the loop stopped there. *)
Inductive ListView : Set :=
| EmptyState
| Cards (cards : list Card) (completed : bool).

Fixpoint appendCards (index : nat) (l : list Anomaly) : list Card * bool :=
  match l with
  | [] => ([], true)
  | a :: l' =>
      match createAnomalyCard a index with
      | Normal card =>
          let (cards, completed) := appendCards (S index) l' in
          (card :: cards, completed)
      | Throws => ([], false)
      end
  end.

(** [renderAnomaliesList()] *)
Definition renderAnomaliesList (currentAnomalyFilter : string)
    (data : AnomaliesData) : ListView :=
  let allAnomalies := sort (combined currentAnomalyFilter data) in
  match allAnomalies with
  | [] => EmptyState
  | _ => let (cards, completed) := appendCards 0 allAnomalies in
         Cards cards completed
  end.

End WithDates.

(** The time value of [new Date(v)] for a number of ms: its integer part,
    when that is within the 8.64e15 ms a date can hold. *)
Definition numeric_time (v : Value) : option Z :=
  match v with
  | Num q =>
      let t := Qnum q ÷ Z.pos (Qden q) in
      if Z.abs t <=? 8640000000000000 then Some t else None
  | _ => None
  end.

(** The anomaly has a valid time stamp and a severity that is absent or a
    string. *)
Definition well_formed (timeValue : Value -> option Z) (a : Anomaly) : Prop :=
  timeValue (timestamp a) <> None /\
  RenderSpec.missing_or_text (severity a) = true.

(** Newest first. *)
Definition newer_or_equal (timeValue : Value -> option Z) (a b : Anomaly) : Prop :=
  match timeValue (timestamp a), timeValue (timestamp b) with
  | Some ta, Some tb => tb <= ta
  | _, _ => False
  end.

Definition at_ms (t : Z) : Anomaly :=
  mkAnomaly "" Undefined (Num (inject_Z t)) Undefined Undefined Undefined
    Undefined Undefined Undefined [].

End AnomalyList.

(* ===================================================================== *)
(** * The built-ins on sample inputs *)
(* ===================================================================== *)

Example toFixed_samples :
  Js.toFixed_number 4 0 = "0.0000" /\
  Js.toFixed_number 1 (365 # 10) = "36.5" /\
  Js.toFixed_number 1 (-(1 # 100)) = "-0.0" /\
  Js.toFixed_number 0 (5 # 2) = "3" /\
  Js.toFixed_number 1 (-(3725 # 100)) = "-37.3" /\
  Js.toFixed_number 4 (123456 # 1000) = "123.4560".
Proof. repeat split; vm_compute; reflexivity. Qed.

Example case_samples :
  Js.upper "severe" = "SEVERE" /\ Js.lower "Moderate" = "moderate" /\
  Anomalies.translateSeverity (Js.Str "Moderate") = Js.Normal (Js.Plain "MODERATA") /\
  Anomalies.translateSeverity (Js.Str "unknown") = Js.Normal (Js.Plain "UNKNOWN") /\
  Anomalies.translateSeverity (Js.Num 2) = Js.Throws.
Proof. repeat split; vm_compute; reflexivity. Qed.

Example slice_samples :
  Realtime.slice_last 3 [1; 2; 3; 4; 5] = [3; 4; 5] /\
  Realtime.slice_last 3 [1; 2] = [1; 2] /\
  Notifications.lastn 2 [1; 2; 3] = [2; 3].
Proof. repeat split. Qed.

(* ===================================================================== *)
(** * Properties of the window cursor *)
(* ===================================================================== *)

Section CursorInvariants.

Import History CursorSpec.

Ltac unfold_nav :=
  unfold navigateData;
  repeat match goal with
         | |- context [String.eqb ?a ?b] => destruct (String.eqb a b)
         end.

Lemma step_frame (o : Op) (c : Cursor) :
  totalDataCount (step o c) = totalDataCount c /\
  maxSliderPosition (step o c) = maxSliderPosition c.
Proof.
  destruct o as [n | d | v]; simpl.
  - unfold changeWindowSize. destruct (n =? -1); simpl; [tauto|].
    destruct (_ >? _); simpl; tauto.
  - unfold_nav; simpl; tauto.
  - tauto.
Qed.

(** A reload assigns none of the cursor variables, whatever the server
    answers; a first load takes all three of position, count and bound from
    the answer. *)
Lemma reloadWindowedData_keeps (resp : option WindowResponse) (c : Cursor) :
  reloadWindowedData resp c = c.
Proof. destruct resp; reflexivity. Qed.

Lemma displayHistoricalData_bound (data : WindowResponse) (c : Cursor) :
  maxSliderPosition (displayHistoricalData data c) = max_position data /\
  totalDataCount (displayHistoricalData data c) = total_count data /\
  currentPosition (displayHistoricalData data c) = window_start data /\
  currentWindowSize (displayHistoricalData data c) = currentWindowSize c.
Proof. repeat split. Qed.

Lemma step_keeps_size (o : Op) (c : Cursor) :
  keeps_size o -> currentWindowSize (step o c) = currentWindowSize c.
Proof.
  destruct o as [n | d | v]; simpl; try tauto; intros _.
  unfold_nav; reflexivity.
Qed.

Lemma changeWindowSize_position (n : Z) (c : Cursor) :
  currentPosition (changeWindowSize n c) =
    if n =? -1 then 0
    else if currentPosition c + n >? totalDataCount c
         then Z.max 0 (totalDataCount c - n)
         else currentPosition c.
Proof.
  unfold changeWindowSize. destruct (n =? -1); simpl; [reflexivity|].
  destruct (_ >? _); reflexivity.
Qed.

Lemma changeWindowSize_size (n : Z) (c : Cursor) :
  currentWindowSize (changeWindowSize n c) =
    if n =? -1 then totalDataCount c else n.
Proof.
  unfold changeWindowSize. destruct (n =? -1); simpl; [reflexivity|].
  destruct (_ >? _); reflexivity.
Qed.

Lemma navigateData_position_bounds (d : string) (c : Cursor) :
  bounded c ->
  0 <= currentPosition (navigateData d c) <= maxSliderPosition c.
Proof.
  intros (Ht & Hw & Hp & Hm).
  assert (Hs : 0 <= currentWindowSize c / 2) by (apply Z.div_pos; lia).
  unfold_nav; simpl; lia.
Qed.

Lemma step_bounded (o : Op) (c : Cursor) :
  bounded c -> issued (maxSliderPosition c) o -> bounded (step o c).
Proof.
  intros Hb Ho. pose proof Hb as (Ht & Hw & Hp & Hm).
  destruct (step_frame o c) as [Et Em].
  unfold bounded. rewrite Et, Em.
  destruct o as [n | d | v]; simpl in *.
  - rewrite changeWindowSize_position, changeWindowSize_size.
    destruct (Z.eqb_spec n (-1)); [lia|].
    destruct (Z.gtb_spec (currentPosition c + n) (totalDataCount c)); lia.
  - pose proof (navigateData_position_bounds d c Hb).
    assert (currentWindowSize (navigateData d c) = currentWindowSize c)
      by (apply (step_keeps_size (Navigate d)); exact I).
    lia.
  - lia.
Qed.

Lemma run_bounded (ops : list Op) :
  forall c, bounded c -> issued_from c ops -> bounded (run ops c).
Proof.
  induction ops as [| o ops IH]; intros c Hb Hall; simpl; [assumption|].
  destruct Hall as [Ho Hrest].
  apply IH; [apply step_bounded|]; assumption.
Qed.

Lemma bounded_fits_inside (c : Cursor) :
  0 <= currentPosition c <= maxSliderPosition c -> bound_fits c ->
  window_inside c.
Proof. unfold bound_fits, window_inside. lia. Qed.

Lemma run_keeps_fit (ops : list Op) :
  forall c, bound_fits c -> Forall keeps_size ops -> bound_fits (run ops c).
Proof.
  induction ops as [| o ops IH]; intros c Hf Hall; simpl; [assumption|].
  inversion Hall as [| ? ? Ho Hrest]; subst.
  apply IH; [|assumption].
  destruct (step_frame o c) as [Et Em].
  unfold bound_fits. rewrite Et, Em, (step_keeps_size o c Ho). exact Hf.
Qed.

Lemma changeWindowSize_inside (n : Z) (c : Cursor) :
  window_inside (changeWindowSize n c).
Proof.
  unfold window_inside.
  destruct (step_frame (Resize n) c) as [Et _]. simpl in Et. rewrite Et.
  rewrite changeWindowSize_position, changeWindowSize_size.
  destruct (Z.eqb_spec n (-1)); [lia|].
  destruct (Z.gtb_spec (currentPosition c + n) (totalDataCount c)); lia.
Qed.

(** C1.  The invariant is lost at the first resize.  On the page with
    10000 samples loaded and a window of 1000 (the invariant holds, stored
    bound and [slider.max] both 9000), a resize to 5000 is answered by the
    server with the bound 5000 that fits the new size:
    [reloadWindowedData] writes it to [slider.max] and leaves the variable
    [maxSliderPosition] at 9000, although [displayHistoricalData] assigns
    both from an answer.  The button "end" then stores position 9000 and
    asks for the window [9000, 14000) of 10000 samples:
    [position <= max(0, totalCount - windowSize) = 5000] fails and the
    window is outside the data set, whatever the server answers.  After a
    resize to 100 the slider, whose range is now [0, 9900], hands over
    9900, and the button "next" moves the position back to 9000. *)
Theorem resize_leaves_stored_bound_stale :
  let resized := HistoryPage.changeWindowSize 5000
                   (Some (HistoryPage.window_of 0 5000)) HistoryPage.loaded in
  let narrowed := HistoryPage.changeWindowSize 100
                    (Some (HistoryPage.window_of 0 100)) HistoryPage.loaded in
  (HistoryPage.cursor HistoryPage.loaded = sample_cursor /\
   HistoryPage.sliderMax HistoryPage.loaded = 9000 /\
   cursor_inv (HistoryPage.cursor HistoryPage.loaded)) /\
  (forall (data : WindowResponse) (p : HistoryPage.Page),
      maxSliderPosition (HistoryPage.cursor (HistoryPage.displayHistoricalData data p))
        = max_position data /\
      HistoryPage.sliderMax (HistoryPage.displayHistoricalData data p)
        = max_position data) /\
  (HistoryView.answers
     (HistoryView.reload_request (changeWindowSize 5000 sample_cursor))
     (HistoryPage.window_of 0 5000) /\
   HistoryPage.sliderMax resized = 5000 /\
   maxSliderPosition (HistoryPage.cursor resized) = 9000 /\
   ~ cursor_inv (HistoryPage.cursor resized)) /\
  (forall resp : option WindowResponse,
      let c := HistoryPage.cursor (HistoryPage.navigateData "end" resp resized) in
      currentPosition c = 9000 /\ currentWindowSize c = 5000 /\
      totalDataCount c = 10000 /\
      ~ currentPosition c <= Z.max 0 (totalDataCount c - currentWindowSize c) /\
      ~ window_inside c /\ ~ cursor_inv c) /\
  (forall resp resp' : option WindowResponse,
      HistoryPage.sliderMax narrowed = 9900 /\
      maxSliderPosition (HistoryPage.cursor narrowed) = 9000 /\
      let moved := HistoryPage.sliderNavigation 9900 resp narrowed in
      currentPosition (HistoryPage.cursor moved) = 9900 /\
      window_inside (HistoryPage.cursor moved) /\
      currentPosition
        (HistoryPage.cursor (HistoryPage.navigateData "next" resp' moved)) = 9000).
Proof.
  assert (Hreload : forall resp p,
             HistoryPage.cursor (HistoryPage.reloadWindowedData resp p)
             = HistoryPage.cursor p).
  { intros [data|] p; [|reflexivity].
    unfold HistoryPage.reloadWindowedData.
    destruct (0 <? total_count data); reflexivity. }
  cbv zeta. split; [|split; [|split; [|split]]].
  - split; [reflexivity|]. split; [reflexivity|].
    unfold cursor_inv, bound_fits, window_inside. cbn. lia.
  - intros data p. split; reflexivity.
  - split; [unfold HistoryView.answers; cbn; lia|].
    split; [reflexivity|]. split; [reflexivity|].
    unfold cursor_inv, bound_fits. cbn. lia.
  - intros resp. unfold HistoryPage.navigateData. rewrite Hreload.
    unfold cursor_inv, bound_fits, window_inside. cbn. lia.
  - intros resp resp'. split; [reflexivity|]. split; [reflexivity|].
    unfold HistoryPage.navigateData, HistoryPage.sliderNavigation.
    cbv zeta. rewrite !Hreload. cbn [HistoryPage.cursor]. rewrite ?Hreload.
    unfold window_inside. cbn. lia.
Qed.

(** C2, as amended.  [sliderNavigation] stores the value it is given and
    touches nothing else; the stored position lies in [0, maxPosition]
    exactly when the given value does. *)
Theorem sliderNavigation_stores_value :
  forall (p : Z) (c : Cursor),
    currentPosition (sliderNavigation p c) = p /\
    currentWindowSize (sliderNavigation p c) = currentWindowSize c /\
    totalDataCount (sliderNavigation p c) = totalDataCount c /\
    maxSliderPosition (sliderNavigation p c) = maxSliderPosition c /\
    (0 <= currentPosition (sliderNavigation p c) <= maxSliderPosition c
     <-> 0 <= p <= maxSliderPosition c).
Proof. intros p c. simpl. tauto. Qed.

(** C2 as stated fails: a value above the bound is not brought down to
    [maxPosition], a negative one is not brought up to 0. *)
Lemma sliderNavigation_not_clamped :
  9500 > maxSliderPosition sample_cursor /\
  currentPosition (sliderNavigation 9500 sample_cursor) <> maxSliderPosition sample_cursor /\
  currentPosition (sliderNavigation (-5) sample_cursor) <> 0.
Proof. simpl. repeat split; lia. Qed.

(** C3.  [navigateData] steps by half a window, rounded down: ['start']
    gives position 0, ['end'] the stored [maxPosition], ['prev']
    [max(0, position - step)], ['next'] [min(maxPosition, position + step)];
    the other three fields stay.  From position 9500 with window 1000 and
    [maxPosition] 9000, ['next'] gives 9000. *)
Theorem navigateData_positions :
  forall (c : Cursor),
    let step := currentWindowSize c / 2 in
    (2 * step <= currentWindowSize c < 2 * step + 2) /\
    currentPosition (navigateData "start" c) = 0 /\
    currentPosition (navigateData "end" c) = maxSliderPosition c /\
    currentPosition (navigateData "prev" c) = Z.max 0 (currentPosition c - step) /\
    currentPosition (navigateData "next" c)
      = Z.min (maxSliderPosition c) (currentPosition c + step) /\
    (forall d, currentWindowSize (navigateData d c) = currentWindowSize c /\
               totalDataCount (navigateData d c) = totalDataCount c /\
               maxSliderPosition (navigateData d c) = maxSliderPosition c) /\
    currentPosition
      (navigateData "next"
         {| currentWindowSize := 1000; currentPosition := 9500;
            totalDataCount := 10000; maxSliderPosition := 9000 |}) = 9000.
Proof.
  intros c step. split.
  - unfold step.
    pose proof (Z.div_mod (currentWindowSize c) 2 ltac:(lia)).
    pose proof (Z.mod_pos_bound (currentWindowSize c) 2 ltac:(lia)). lia.
  - repeat split; try reflexivity.
    + exact (step_keeps_size (Navigate d) c I).
    + exact (proj1 (step_frame (Navigate d) c)).
    + exact (proj2 (step_frame (Navigate d) c)).
Qed.

(** C4.  [changeWindowSize(-1)] sets the window size to [totalCount] and the
    position to 0 (size 5000 and position 0 on 5000 samples).  Any other
    size is stored as the window size; if the window would then pass the end
    of the data the position becomes [max(0, totalCount - windowSize)],
    otherwise it stays. *)
Theorem changeWindowSize_cases :
  forall (newSize : Z) (c : Cursor),
    (currentWindowSize (changeWindowSize (-1) c) = totalDataCount c /\
     currentPosition (changeWindowSize (-1) c) = 0) /\
    (newSize <> -1 ->
     currentWindowSize (changeWindowSize newSize c) = newSize /\
     (currentPosition c + newSize > totalDataCount c ->
      currentPosition (changeWindowSize newSize c)
        = Z.max 0 (totalDataCount c - newSize)) /\
     (currentPosition c + newSize <= totalDataCount c ->
      currentPosition (changeWindowSize newSize c) = currentPosition c)) /\
    (totalDataCount c = 5000 ->
     currentWindowSize (changeWindowSize (-1) c) = 5000 /\
     currentPosition (changeWindowSize (-1) c) = 0).
Proof.
  intros n c. split; [|split].
  - split; reflexivity.
  - intros Hn. rewrite changeWindowSize_position, changeWindowSize_size.
    destruct (Z.eqb_spec n (-1)); [contradiction|].
    split; [reflexivity|].
    destruct (Z.gtb_spec (currentPosition c + n) (totalDataCount c));
      split; intros; try reflexivity; lia.
  - intros H. simpl. split; [exact H | reflexivity].
Qed.

Lemma changeWindowSize_cases_witness :
  let c := {| currentWindowSize := 1000; currentPosition := 4800;
              totalDataCount := 5000; maxSliderPosition := 4000 |} in
  (currentWindowSize (changeWindowSize 2000 c) = 2000 /\
   currentPosition (changeWindowSize 2000 c) = Z.max 0 (5000 - 2000)) /\
  (currentWindowSize (changeWindowSize (-1) c) = 5000 /\
   currentPosition (changeWindowSize (-1) c) = 0).
Proof.
  intros c.
  destruct (changeWindowSize_cases 2000 c) as (_ & Hother & Hfull).
  split.
  - destruct (Hother ltac:(lia)) as (Hsize & Hmove & _).
    split; [exact Hsize | apply Hmove; simpl; lia].
  - apply Hfull. reflexivity.
Defined.

End CursorInvariants.

(* ===================================================================== *)
(** * Time bounds of the temperature window *)
(* ===================================================================== *)

Section ProportionalTime.

Import History.

Local Open Scope Q_scope.

(** C8.  For the temperature signal and a non-empty data set, the bounds of
    the shown window are the session start plus the session duration scaled
    by [position / totalCount], and by
    [position / totalCount + windowLength / totalCount]; for position 0 and
    a window as long as the data set they are the session start and the
    session start plus the session duration. *)
Theorem proportional_window_bounds :
  forall (sessionStartMs sessionEndMs windowLength : Z) (c : Cursor),
    (0 < totalDataCount c)%Z ->
    let originTimestamp := inject_Z sessionStartMs in
    let totalSessionDuration := inject_Z (sessionEndMs - sessionStartMs) in
    let position := inject_Z (currentPosition c) in
    let totalCount := inject_Z (totalDataCount c) in
    exists windowStart windowEnd : Q,
      windowTimeBounds "TEMP" sessionStartMs sessionEndMs windowLength c
        = Some (windowStart, windowEnd) /\
      windowStart == originTimestamp + (position / totalCount) * totalSessionDuration /\
      windowEnd == originTimestamp
                   + ((position / totalCount) + (inject_Z windowLength / totalCount))
                     * totalSessionDuration /\
      (currentPosition c = 0%Z -> windowLength = totalDataCount c ->
       windowStart == originTimestamp /\
       windowEnd == originTimestamp + totalSessionDuration).
Proof.
  intros s e n c Htot origin dur pos tot.
  assert (Hz : (totalDataCount c =? 0)%Z = false) by (apply Z.eqb_neq; lia).
  unfold windowTimeBounds.
  change (String.eqb "TEMP" "TEMP") with true. cbv iota. rewrite Hz.
  eexists. eexists. split; [reflexivity|].
  assert (Hne : ~ tot == 0).
  { unfold tot, Qeq. simpl. lia. }
  split; [|split].
  - fold origin dur pos tot. ring.
  - fold origin dur pos tot. ring.
  - intros Hp Hn. fold origin dur tot. subst n. rewrite Hp.
    fold tot. split.
    + change (inject_Z 0) with 0. field. exact Hne.
    + change (inject_Z 0) with 0. field. exact Hne.
Qed.

Lemma proportional_window_bounds_witness :
  exists windowStart windowEnd : Q,
    windowTimeBounds "TEMP" 1000 601000 40
      {| currentWindowSize := 40; currentPosition := 0;
         totalDataCount := 40; maxSliderPosition := 0 |}
      = Some (windowStart, windowEnd) /\
    windowStart == inject_Z 1000 /\
    windowEnd == inject_Z 1000 + inject_Z (601000 - 1000).
Proof.
  destruct (proportional_window_bounds 1000 601000 40
              {| currentWindowSize := 40; currentPosition := 0;
                 totalDataCount := 40; maxSliderPosition := 0 |})
    as (ws & we & Heq & _ & _ & Hfull).
  - simpl. lia.
  - exists ws, we. split; [exact Heq|].
    apply Hfull; reflexivity.
Defined.

End ProportionalTime.

(* ===================================================================== *)
(** * Temperature history and frozen counters *)
(* ===================================================================== *)

Section TemperatureHistory.

Import Realtime RealtimeSpec.

Lemma slice_last_length {A : Type} (n : nat) (l : list A) :
  (List.length (slice_last n l) <= n)%nat.
Proof. unfold slice_last. rewrite length_skipn. lia. Qed.

Lemma slice_last_short {A : Type} (n : nat) (l : list A) :
  (List.length l <= n)%nat -> slice_last n l = l.
Proof.
  intros H. unfold slice_last.
  replace (List.length l - n)%nat with 0%nat by lia. reflexivity.
Qed.

Lemma slice_last_suffix {A : Type} (n : nat) (l : list A) :
  exists dropped, l = (dropped ++ slice_last n l)%list /\
                  List.length dropped = (List.length l - n)%nat.
Proof.
  exists (firstn (List.length l - n) l). split.
  - unfold slice_last. symmetry. apply firstn_skipn.
  - rewrite length_firstn. lia.
Qed.

Lemma minute_stamp {A : Type} (l : list A) (x : A) :
  (Z.of_nat (List.length (l ++ [x])) - 1) * 2 = Z.of_nat (List.length l) * 2.
Proof. rewrite length_app. cbn [List.length]. lia. Qed.

Lemma pushTemperature_pushed (tempC : option Q) (s : State) :
  history_pushed s (pushTemperature tempC s).
Proof.
  exists tempC. unfold pushTemperature. cbn [temperatureHistory tempChart].
  rewrite minute_stamp. split; reflexivity.
Qed.

Lemma history_pushed_frame (s s1 s2 : State) :
  temperatureHistory s2 = temperatureHistory s1 -> tempChart s2 = tempChart s1 ->
  history_pushed s s1 -> history_pushed s s2.
Proof.
  intros Hh Hc (v & H1 & H2). exists v. cbn zeta in *.
  rewrite Hh, Hc. split; assumption.
Qed.

Lemma history_pushed_from (s0 s s1 : State) :
  temperatureHistory s = temperatureHistory s0 ->
  history_pushed s s1 -> history_pushed s0 s1.
Proof.
  intros Hh (v & H1 & H2). exists v. cbn zeta in *.
  rewrite <- Hh. split; assumption.
Qed.

Lemma updateChart_history (signal : string) (data : ChartData) (s : State) :
  history_unchanged s (updateChart signal data s) \/
  history_pushed s (updateChart signal data s).
Proof.
  unfold updateChart.
  destruct data as [[| tempData rest] |]; try (left; split; reflexivity).
  destruct (String.eqb signal "ECG"); [left; split; reflexivity|].
  destruct (String.eqb signal "ADC"); [left; split; reflexivity|].
  destruct (String.eqb signal "TEMP"); [|left; split; reflexivity].
  destruct tempData as [| first others]; [left; split; reflexivity|].
  right. cbn zeta.
  eapply history_pushed_frame; [| |apply pushTemperature_pushed]; reflexivity.
Qed.

Lemma updateStatistics_history (data : Status) (s : State) :
  history_unchanged s (updateStatistics data s) \/
  history_pushed s (updateStatistics data s).
Proof.
  unfold updateStatistics.
  destruct (shouldUpdateCounters s); cbn [negb]; [|left; split; reflexivity].
  destruct (current_temp data) as [t |]; [|left; split; reflexivity].
  cbn zeta.
  match goal with
  | |- context [if ?b then _ else _] => destruct b
  end.
  - right.
    eapply history_pushed_frame; [reflexivity | reflexivity |].
    eapply history_pushed_from; [|apply pushTemperature_pushed]. reflexivity.
  - left. split; reflexivity.
Qed.

Lemma handle_history (ev : Event) (s : State) :
  history_unchanged s (handle ev s) \/ history_reset (handle ev s) \/
  history_pushed s (handle ev s).
Proof.
  destruct ev as [signal data | data | acq start | data | | |]; simpl.
  - destruct (String.eqb signal "TEMP").
    + destruct (updateChart_history signal data s); tauto.
    + destruct (shouldUpdateCharts s).
      * destruct (updateChart_history signal data s); tauto.
      * left. split; reflexivity.
  - destruct (updateStatistics_history data s); tauto.
  - left. split; reflexivity.
  - destruct (updateStatistics_history data s) as [[Hh Hc] | (v & Hh & Hc)].
    + left. split; assumption.
    + right. right. exists v. split; assumption.
  - left. split; reflexivity.
  - left. split; reflexivity.
  - right. left. split; reflexivity.
Qed.

Lemma handle_chart_bounded (ev : Event) (s : State) :
  chart_bounded s -> chart_bounded (handle ev s).
Proof.
  intros Hb. unfold chart_bounded.
  destruct (handle_history ev s) as [[_ Hc] | [[_ Hc] | (v & _ & Hc)]];
    rewrite Hc; simpl.
  - exact Hb.
  - split; apply Nat.le_0_l.
  - split; apply slice_last_length.
Qed.

Lemma run_chart_bounded (evs : list Event) :
  forall s, chart_bounded s -> chart_bounded (run evs s).
Proof.
  induction evs as [| ev evs IH]; intros s Hb; simpl; [assumption|].
  apply IH. apply handle_chart_bounded. assumption.
Qed.

(** C7, as amended.  The bound of 1200 is on what the temperature chart
    shows, not on what is stored.  At every observation point the two series
    of the chart are at most 1200 long.  Each event leaves the stored
    history as it is, resets it to empty, or pushes: a push appends one
    value and its minute stamp to the stored history, evicts nothing from
    it, and hands the chart the last 1200 stored entries (all of them while
    there are fewer), that is, the stored entries without the oldest
    [length - 1200]. *)
Theorem temperature_chart_bounded :
  (forall (evs : list Event) (s : State),
      chart_bounded s -> chart_bounded (run evs s)) /\
  (forall (ev : Event) (s : State),
      history_unchanged s (handle ev s) \/ history_reset (handle ev s) \/
      history_pushed s (handle ev s)) /\
  (forall (l : list (option Q)),
      (List.length (slice_last MAX_TEMP_DISPLAY l) <= 1200)%nat /\
      ((List.length l <= 1200)%nat -> slice_last MAX_TEMP_DISPLAY l = l) /\
      exists dropped,
        l = (dropped ++ slice_last MAX_TEMP_DISPLAY l)%list /\
        List.length dropped = (List.length l - 1200)%nat).
Proof.
  split; [|split].
  - intros evs s. apply run_chart_bounded.
  - apply handle_history.
  - intros l. split; [|split].
    + apply (slice_last_length MAX_TEMP_DISPLAY).
    + apply (slice_last_short MAX_TEMP_DISPLAY).
    + apply (slice_last_suffix MAX_TEMP_DISPLAY).
Qed.

Lemma temperature_chart_bounded_witness :
  chart_bounded (run [temp_update; Started; temp_update; Reset; temp_update] initial).
Proof.
  apply (proj1 temperature_chart_bounded).
  unfold chart_bounded, MAX_TEMP_DISPLAY. simpl. lia.
Defined.

(** C7 as stated fails: after 1201 temperature events the stored history
    holds 1201 values and 1201 times, more than the capacity of 1200, and
    its oldest entry is still the first reading; only the chart is cut to
    1200. *)
Lemma temperature_history_exceeds_capacity :
  let s := run (repeat temp_update 1201) initial in
  List.length (values (temperatureHistory s)) = 1201%nat /\
  List.length (times (temperatureHistory s)) = 1201%nat /\
  ~ (List.length (values (temperatureHistory s)) <= MAX_TEMP_DISPLAY)%nat /\
  hd_error (times (temperatureHistory s)) = Some 0 /\
  List.length (fst (tempChart s)) = 1200%nat /\
  hd_error (snd (tempChart s)) = Some 2.
Proof.
  vm_compute. repeat split; try reflexivity.
  intros H. apply (proj2 (Nat.leb_le _ _)) in H. vm_compute in H. discriminate.
Qed.

(** C10.  With the counters frozen ([shouldUpdateCounters] false),
    [updateStatistics] returns the state it was given: the frozen counters,
    the temperature history, the last temperature and the shown temperature
    are unchanged, whatever the snapshot holds. *)
Theorem updateStatistics_frozen :
  forall (data : Status) (s : State),
    shouldUpdateCounters s = false ->
    updateStatistics data s = s /\
    frozenStats (updateStatistics data s) = frozenStats s /\
    temperatureHistory (updateStatistics data s) = temperatureHistory s /\
    lastTemperature (updateStatistics data s) = lastTemperature s /\
    tempValue (updateStatistics data s) = tempValue s.
Proof.
  intros data s H. unfold updateStatistics. rewrite H. simpl.
  repeat split.
Qed.

Lemma updateStatistics_frozen_witness :
  let data := {| current_temp := Some (inject_Z 3712); ecg_samples := 2500;
                 adc_samples := 2500; packet_count := 40;
                 is_acquiring := false |} in
  updateStatistics data initial = initial.
Proof.
  intros data. apply (updateStatistics_frozen data initial). reflexivity.
Defined.

End TemperatureHistory.

(* ===================================================================== *)
(** * The notification buffer *)
(* ===================================================================== *)

Section NotificationBuffer.

Import Js Notifications NotificationSpec.

Local Open Scope nat_scope.
Local Open Scope list_scope.

Lemma skipn_S_tl {A : Type} (k : nat) (l : list A) :
  skipn (S k) l = tl (skipn k l).
Proof.
  revert l. induction k as [| k IH]; intros [| x l]; try reflexivity.
  change (skipn (S (S k)) (x :: l)) with (skipn (S k) l).
  rewrite IH. reflexivity.
Qed.

Lemma lastn_length {A : Type} (n : nat) (l : list A) :
  List.length (lastn n l) = Nat.min n (List.length l).
Proof. unfold lastn. rewrite length_skipn. lia. Qed.

Lemma lastn_app_room {A : Type} (n : nat) (l : list A) (x : A) :
  List.length l < n -> lastn n (l ++ [x]) = lastn n l ++ [x].
Proof.
  intros H. unfold lastn. rewrite length_app. cbn [List.length].
  replace (List.length l + 1 - n) with 0 by lia.
  replace (List.length l - n) with 0 by lia. reflexivity.
Qed.

Lemma lastn_app_full {A : Type} (n : nat) (l : list A) (x : A) :
  n <= List.length l -> lastn n (l ++ [x]) = tl (lastn n l ++ [x]).
Proof.
  intros H. unfold lastn. rewrite length_app. cbn [List.length].
  replace (List.length l + 1 - n) with (S (List.length l - n)) by lia.
  rewrite skipn_S_tl, skipn_app.
  replace (List.length l - n - List.length l) with 0 by lia.
  reflexivity.
Qed.

(** One push on a list kept at the last [n]: append, then drop the head if
    the list got longer than [n]. *)
Lemma lastn_push {A : Type} (n : nat) (l : list A) (x : A) :
  lastn n (l ++ [x]) =
    if n <? List.length (lastn n l ++ [x]) then tl (lastn n l ++ [x])
    else lastn n l ++ [x].
Proof.
  rewrite length_app, lastn_length. cbn [List.length].
  destruct (Nat.ltb_spec n (Nat.min n (List.length l) + 1)).
  - apply lastn_app_full. lia.
  - apply lastn_app_room. lia.
Qed.

Lemma updateCounter_frame (m : Manager) :
  notifications (updateCounter m) = notifications m /\
  timers (updateCounter m) = timers m /\
  next_node (updateCounter m) = next_node m /\
  maxNotifications (updateCounter m) = maxNotifications m /\
  container (updateCounter m) = container m /\
  totalCount (updateCounter m) = totalCount m.
Proof.
  unfold updateCounter.
  destruct (counter m); [repeat split|].
  destruct (0 <? totalCount m); repeat split.
Qed.

Lemma removeNotification_frame (n : Notification) (m : Manager) :
  notifications (removeNotification n m) = notifications m /\
  next_node (removeNotification n m) = next_node m /\
  maxNotifications (removeNotification n m) = maxNotifications m /\
  counter (removeNotification n m) = counter m /\
  (timers (removeNotification n m) = timers m \/
   timers (removeNotification n m) = timers m ++ [n]).
Proof.
  unfold removeNotification.
  destruct (negb (hasParent n m)); simpl; repeat split; auto.
Qed.

(** What a rendered push does to the stored list, the pending timeouts and
    the node counter. *)
Lemma showNotification_pushes (e : AnomalyData) (r : Rendered) (m : Manager) :
  render e = Normal r ->
  let notification :=
    createNotificationElement (next_node m) (type e) r (timestamp e) in
  let l := notifications m ++ [notification] in
  let m' := state_of (showNotification e m) in
  showNotification e m = Returned m' /\
  notifications m' = (if maxNotifications m <? List.length l then tl l else l) /\
  next_node m' = S (next_node m) /\
  maxNotifications m' = maxNotifications m /\
  (timers m' = timers m \/
   (maxNotifications m < List.length l /\
    timers m' = timers m ++ [hd notification l])).
Proof.
  intros Hr notification l m'. subst m'.
  unfold showNotification. rewrite Hr. cbn [state_of].
  split; [reflexivity|].
  match goal with
  | |- context [updateCounter ?x] =>
      destruct (updateCounter_frame x) as (En & Et & Ex & Em & _ & _);
      rewrite En, Et, Ex, Em; clear En Et Ex Em
  end.
  cbn [notifications maxNotifications next_node timers set_notifications
       set_container set_next_node set_totalCount container node
       createNotificationElement].
  fold notification. fold l.
  destruct (Nat.ltb_spec (maxNotifications m) (List.length l)) as [Hlt | Hge].
  - assert (Hl : exists old rest, l = old :: rest).
    { unfold l. destruct (notifications m); simpl; eauto. }
    destruct Hl as (old & rest & Hl). rewrite Hl.
    match goal with
    | |- context [removeNotification old ?x] =>
        destruct (removeNotification_frame old x) as (En & Ex & Em & _ & Et);
        rewrite En, Ex, Em; clear En Ex Em
    end.
    cbn [notifications maxNotifications next_node timers set_notifications
         set_container set_next_node set_totalCount tl hd] in *.
    repeat split.
    destruct Et as [Et | Et]; [left; exact Et | right; split; [|exact Et]].
    rewrite <- Hl. exact Hlt.
  - cbn [notifications maxNotifications next_node timers set_notifications
         set_container set_next_node set_totalCount].
    repeat split. left. reflexivity.
Qed.

Lemma showNotification_throws (e : AnomalyData) (m : Manager) :
  render e = Throws ->
  let m' := state_of (showNotification e m) in
  showNotification e m = Threw m' /\
  notifications m' = notifications m /\ next_node m' = next_node m /\
  maxNotifications m' = maxNotifications m /\ timers m' = timers m /\
  counter m' = counter m.
Proof.
  intros Hr. unfold showNotification. rewrite Hr. simpl. repeat split.
Qed.

Lemma indexOf_absent (t : Notification) (l : list Notification) :
  Forall (fun x => node x <> node t) l -> indexOf t l = None.
Proof.
  induction 1 as [| x l Hx _ IH]; simpl; [reflexivity|].
  destruct (Nat.eqb_spec (node x) (node t)); [contradiction|].
  rewrite IH. reflexivity.
Qed.

Lemma removeTimeout_absent (t : Notification) (m : Manager) :
  Forall (fun x => node x <> node t) (notifications m) ->
  notifications (removeTimeout t m) = notifications m /\
  timers (removeTimeout t m) = timers m /\
  next_node (removeTimeout t m) = next_node m /\
  maxNotifications (removeTimeout t m) = maxNotifications m /\
  counter (removeTimeout t m) = counter m.
Proof.
  intros H. unfold removeTimeout.
  destruct (hasParent t m); cbn [notifications set_container];
    rewrite (indexOf_absent t _ H); repeat split.
Qed.

Lemma map_node_lastn (n : nat) (P : list Notification) :
  map node P = seq 0 (List.length P) ->
  map node (lastn n P) =
    seq (List.length P - n) (List.length P - (List.length P - n)).
Proof.
  intros H. unfold lastn. rewrite <- skipn_map, H, skipn_seq. reflexivity.
Qed.

Lemma fifo_nodes_above (P : list Notification) (m : Manager) :
  fifo_inv P m ->
  Forall (fun x => List.length P - List.length (notifications m) <= node x)
    (notifications m).
Proof.
  intros (_ & Hseq & Hn & _).
  pose proof (map_node_lastn (maxNotifications m) P Hseq) as Hmap.
  rewrite <- Hn in Hmap.
  assert (Hlen : List.length (notifications m)
                 = Nat.min (maxNotifications m) (List.length P))
    by (rewrite Hn; apply lastn_length).
  apply Forall_forall. intros x Hx.
  apply (in_map node) in Hx. rewrite Hmap in Hx.
  apply in_seq in Hx. lia.
Qed.

Lemma fifo_head_node (P : list Notification) (m : Manager)
    (old : Notification) (rest : list Notification) :
  fifo_inv P m -> notifications m = old :: rest ->
  node old = List.length P - List.length (notifications m).
Proof.
  intros (_ & Hseq & Hn & _) Hl.
  pose proof (map_node_lastn (maxNotifications m) P Hseq) as Hmap.
  rewrite <- Hn in Hmap.
  assert (Hlen : List.length (notifications m)
                 = Nat.min (maxNotifications m) (List.length P))
    by (rewrite Hn; apply lastn_length).
  rewrite Hl in Hmap, Hlen. cbn [map List.length] in Hmap, Hlen.
  rewrite Hl. cbn [List.length].
  destruct (List.length P - (List.length P - maxNotifications m)) as [| k] eqn:Ek;
    cbn [seq] in Hmap; [discriminate|].
  injection Hmap as Hhead _. lia.
Qed.

Lemma Forall_lt_weaken (b b' : nat) (l : list Notification) :
  b <= b' -> Forall (fun t => node t < b) l -> Forall (fun t => node t < b') l.
Proof.
  intros Hle H. eapply Forall_impl; [|exact H].
  cbv beta. intros t Ht. lia.
Qed.

Lemma show_fifo (e : AnomalyData) (P : list Notification) (m : Manager) :
  fifo_inv P m ->
  fifo_inv (P ++ pushed (next_node m) [e]) (state_of (showNotification e m)).
Proof.
  intros Hinv. pose proof Hinv as (Hnext & Hseq & Hn & Ht).
  cbn [pushed]. destruct (render e) as [r |] eqn:Hr.
  - destruct (showNotification_pushes e r m Hr) as (_ & En & Ex & Em & Etm).
    set (notification := createNotificationElement (next_node m) (type e) r (timestamp e)) in *.
    assert (Hnotif : notifications (state_of (showNotification e m))
                     = lastn (maxNotifications m) (P ++ [notification])).
    { rewrite En, Hn. symmetry. apply lastn_push. }
    assert (Hlen' : List.length (notifications (state_of (showNotification e m)))
                    <= S (List.length (notifications m))).
    { rewrite Hnotif, Hn, !lastn_length, length_app. cbn [List.length]. lia. }
    unfold fifo_inv. rewrite Ex, Em, length_app. cbn [List.length].
    split; [lia|]. split; [|split].
    + rewrite map_app. cbn [map]. rewrite Hseq.
      replace (List.length P + 1) with (S (List.length P)) by lia.
      rewrite seq_S. cbn [node createNotificationElement notification].
      rewrite Hnext. reflexivity.
    + exact Hnotif.
    + destruct Etm as [Etm | [Hlt Etm]]; rewrite Etm.
      * eapply Forall_lt_weaken; [|exact Ht]. lia.
      * apply Forall_app. split.
        -- eapply Forall_lt_weaken; [|exact Ht]. lia.
        -- constructor; [|constructor].
           rewrite En. apply Nat.ltb_lt in Hlt. rewrite Hlt.
           assert (Hle : List.length (notifications m) <= List.length P)
             by (rewrite Hn, lastn_length; lia).
           pose proof (fifo_head_node P m) as Hhead.
           clear Hn En Ht Etm Hlen' Hnotif Hlt.
           destruct (notifications m) as [| old rest].
           ++ cbn [app hd tl List.length node createNotificationElement notification].
              lia.
           ++ cbn [app hd tl]. rewrite length_app.
              specialize (Hhead old rest Hinv eq_refl).
              cbn [List.length] in *. lia.
  - destruct (showNotification_throws e m Hr) as (_ & En & Ex & Em & Etm & _).
    rewrite app_nil_r. unfold fifo_inv. rewrite En, Ex, Em, Etm.
    repeat split; assumption.
Qed.

Lemma timeout_fifo (P : list Notification) (m : Manager) :
  fifo_inv P m -> fifo_inv P (handle Timeout m).
Proof.
  intros Hinv. pose proof Hinv as (Hnext & Hseq & Hn & Ht).
  cbn [handle]. destruct (timers m) as [| t rest] eqn:Etm; [assumption|].
  inversion Ht as [| ? ? Hbound Hrest]; subst.
  destruct (removeTimeout_absent t (set_timers rest m)) as (En & Et & Ex & Em & _).
  - cbn [notifications set_timers].
    eapply Forall_impl; [|exact (fifo_nodes_above P m Hinv)].
    cbv beta. intros x Hx. lia.
  - unfold fifo_inv. rewrite En, Et, Ex, Em.
    cbn [notifications set_timers timers next_node maxNotifications].
    repeat split; assumption.
Qed.

Lemma handle_next_node (ev : Event) (m : Manager) :
  next_node (handle ev m)
  = next_node m + List.length (pushed (next_node m) (shown [ev])).
Proof.
  destruct ev as [e | n | |]; cbn [shown pushed List.length handle].
  - destruct (render e) as [r |] eqn:Hr.
    + destruct (showNotification_pushes e r m Hr) as (_ & _ & Ex & _).
      rewrite Ex. cbn [List.length]. lia.
    + destruct (showNotification_throws e m Hr) as (_ & _ & Ex & _).
      rewrite Ex. cbn [List.length]. lia.
  - destruct (removeNotification_frame n m) as (_ & Ex & _). rewrite Ex. lia.
  - destruct (timers m) as [| t rest]; [lia|].
    unfold removeTimeout.
    destruct (hasParent t (set_timers rest m));
      match goal with
      | |- context [indexOf ?a ?b] => destruct (indexOf a b)
      end; cbn; lia.
  - unfold clearAll.
    destruct (updateCounter_frame
                (set_notifications []
                   (fold_left (fun m0 n => removeNotification n m0)
                      (notifications m) m))) as (_ & _ & Ex & _).
    rewrite Ex. cbn [next_node set_notifications].
    assert (H : forall l m0, next_node (fold_left (fun m1 n => removeNotification n m1) l m0)
                             = next_node m0).
    { induction l as [| n l IH]; intros m0; cbn [fold_left]; [reflexivity|].
      rewrite IH. apply removeNotification_frame. }
    rewrite H. lia.
Qed.

Lemma pushed_shown_cons (ev : Event) (evs : list Event) (m : Manager) :
  pushed (next_node m) (shown (ev :: evs))
  = pushed (next_node m) (shown [ev])
    ++ pushed (next_node (handle ev m)) (shown evs).
Proof.
  rewrite handle_next_node.
  destruct ev as [e | n | |]; cbn [shown pushed List.length app];
    try (rewrite Nat.add_0_r; reflexivity).
  destruct (render e); cbn [List.length app].
  - replace (next_node m + 1) with (S (next_node m)) by lia. reflexivity.
  - rewrite Nat.add_0_r. reflexivity.
Qed.

Lemma run_fifo (evs : list Event) :
  forall (P : list Notification) (m : Manager),
    fifo_inv P m -> Forall quiet evs ->
    fifo_inv (P ++ pushed (next_node m) (shown evs)) (run evs m) /\
    maxNotifications (run evs m) = maxNotifications m.
Proof.
  induction evs as [| ev evs IH]; intros P m Hinv Hq.
  - cbn [shown pushed run]. rewrite app_nil_r. split; [assumption | reflexivity].
  - inversion Hq as [| ? ? Hev Hrest]; subst.
    rewrite pushed_shown_cons, app_assoc. cbn [run].
    assert (Hstep : fifo_inv (P ++ pushed (next_node m) (shown [ev])) (handle ev m)
                    /\ maxNotifications (handle ev m) = maxNotifications m).
    { destruct ev as [e | n | |]; cbn [quiet] in Hev; try contradiction.
      - split; [apply show_fifo; assumption|]. cbn [handle].
        destruct (render e) as [r |] eqn:Hr.
        + apply (showNotification_pushes e r m Hr).
        + apply (showNotification_throws e m Hr).
      - cbn [shown pushed]. rewrite app_nil_r.
        split; [apply timeout_fifo; assumption|].
        cbn [handle]. destruct (timers m) as [| t rest]; [reflexivity|].
        unfold removeTimeout.
        destruct (hasParent t (set_timers rest m));
          match goal with
          | |- context [indexOf ?a ?b] => destruct (indexOf a b)
          end; reflexivity. }
    destruct Hstep as [Hinv' Hmax'].
    destruct (IH _ _ Hinv' Hrest) as [Hfinal Hmax].
    split; [exact Hfinal | congruence].
Qed.

Lemma new_fifo : fifo_inv [] new.
Proof. unfold fifo_inv. cbn. repeat split. constructor. Qed.

Lemma pushed_nodes (es : list AnomalyData) :
  forall id, map node (pushed id es) = seq id (List.length (pushed id es)).
Proof.
  induction es as [| e es IH]; intros id; cbn [pushed]; [reflexivity|].
  destruct (render e); [|apply IH].
  cbn [map List.length seq node createNotificationElement].
  rewrite IH. reflexivity.
Qed.

Lemma first_not_in_lastn (n : nat) (P rest : list Notification)
    (first : Notification) :
  map node P = seq 0 (List.length P) -> P = first :: rest ->
  n < List.length P -> ~ In first (lastn n P).
Proof.
  intros Hseq HP Hlt Hin. subst P. unfold lastn in Hin.
  cbn [List.length] in *.
  replace (S (List.length rest) - n) with (S (List.length rest - n)) in Hin by lia.
  cbn [skipn] in Hin.
  assert (Hrest : In first rest).
  { rewrite <- (firstn_skipn (List.length rest - n) rest).
    apply in_or_app. right. exact Hin. }
  cbn [map seq] in Hseq. injection Hseq as Hfirst Hmap.
  apply (in_map node) in Hrest. rewrite Hmap, Hfirst in Hrest.
  apply in_seq in Hrest. lia.
Qed.

Lemma pushed_all_render (es : list AnomalyData) :
  Forall renders es -> forall id, List.length (pushed id es) = List.length es.
Proof.
  induction 1 as [| e es He _ IH]; intros id; cbn [pushed List.length];
    [reflexivity|].
  unfold renders in He. destruct (render e); [|discriminate].
  cbn [List.length]. rewrite IH. reflexivity.
Qed.

Lemma shown_map_Show (es : list AnomalyData) : shown (map Show es) = es.
Proof.
  induction es as [| e es IH]; cbn [map shown]; [reflexivity|].
  rewrite IH. reflexivity.
Qed.

Lemma quiet_map_Show (es : list AnomalyData) : Forall quiet (map Show es).
Proof. induction es; cbn [map]; constructor; [exact I | assumption]. Qed.

(** After a push that renders and after a clear-all the badge, when there is
    one, shows the length of the list. *)
Lemma updateCounter_shows_length (m : Manager) :
  0 < totalCount m \/ counter m <> None ->
  List.length (notifications m) <= 99 ->
  option_map textContent (counter (updateCounter m))
    = Some (string_of_nat (List.length (notifications m))).
Proof.
  intros Hc Hlen. unfold updateCounter.
  assert (Hlt : (99 <? List.length (notifications m)) = false)
    by (apply Nat.ltb_ge; exact Hlen).
  destruct (counter m) as [b |].
  - cbn [counter set_counter option_map textContent]. rewrite Hlt. reflexivity.
  - destruct Hc as [Hc | Hc]; [|contradiction].
    apply Nat.ltb_lt in Hc. rewrite Hc.
    cbn [counter set_counter option_map textContent]. rewrite Hlt. reflexivity.
Qed.

Lemma removeNotification_totalCount (n : Notification) (m : Manager) :
  totalCount (removeNotification n m) = totalCount m.
Proof. unfold removeNotification. destruct (negb (hasParent n m)); reflexivity. Qed.

Lemma showNotification_updates_counter (e : AnomalyData) (r : Rendered) (m : Manager) :
  render e = Normal r ->
  exists m1, state_of (showNotification e m) = updateCounter m1 /\ 0 < totalCount m1.
Proof.
  intros Hr. unfold showNotification. rewrite Hr. cbn [state_of].
  eexists. split; [reflexivity|].
  match goal with
  | |- context [if ?b then _ else _] => destruct b
  end.
  - match goal with
    | |- context [match ?l with [] => _ | _ :: _ => _ end] => destruct l
    end; [cbn; lia|].
    rewrite removeNotification_totalCount. cbn. lia.
  - cbn. lia.
Qed.

(** The two sibling paths do update the badge: after a push that renders
    and after a clear-all it shows the length of the list. *)
Lemma push_and_clear_update_badge :
  (forall (e : AnomalyData) (r : Rendered) (m : Manager),
      render e = Normal r ->
      let m' := state_of (showNotification e m) in
      List.length (notifications m') <= 99 ->
      option_map textContent (counter m')
        = Some (string_of_nat (List.length (notifications m')))) /\
  (forall m : Manager,
      counter m <> None ->
      notifications (clearAll m) = [] /\
      option_map textContent (counter (clearAll m)) = Some "0").
Proof.
  split.
  - intros e r m Hr m' Hlen. subst m'.
    destruct (showNotification_updates_counter e r m Hr) as (m1 & Em & Hpos).
    rewrite Em in *.
    destruct (updateCounter_frame m1) as (En & _). rewrite En in *.
    apply updateCounter_shows_length; [left; exact Hpos | exact Hlen].
  - intros m Hc. unfold clearAll.
    match goal with
    | |- context [updateCounter ?x] => set (m1 := x)
    end.
    assert (Hc1 : counter m1 <> None).
    { unfold m1. cbn [counter set_notifications].
      assert (H : forall l m0, counter (fold_left (fun m2 n => removeNotification n m2) l m0)
                               = counter m0).
      { induction l as [| n l IH]; intros m0; cbn [fold_left]; [reflexivity|].
        rewrite IH. apply removeNotification_frame. }
      rewrite H. exact Hc. }
    destruct (updateCounter_frame m1) as (En & _).
    split; [rewrite En; reflexivity|].
    rewrite (updateCounter_shows_length m1); [reflexivity | right; exact Hc1 |].
    cbn. lia.
Qed.

Lemma quiet_run_new (evs : list Event) :
  Forall quiet evs ->
  notifications (run evs new) = lastn 10 (pushed 0 (shown evs)) /\
  map node (pushed 0 (shown evs)) = seq 0 (List.length (pushed 0 (shown evs))).
Proof.
  intros Hq.
  destruct (run_fifo evs [] new new_fifo Hq) as [(_ & Hseq & Hn & _) Hmax].
  cbn [app next_node new] in *. rewrite Hmax in Hn. split; assumption.
Qed.

(** C5.  The notification list keeps the last 10 of the notifications
    pushed, in the order they were pushed.
    - After any run of anomaly events and timeouts on a fresh manager the
      list is the last 10 of the notifications created; once more than 10
      were created it holds exactly 10 and the first one created is not
      among them.
    - A push on a full list of 10 removes its head and nothing else: the
      result is the old tail followed by the new notification.
    - After 11 events that render, the list has length 10 and the first
      notification pushed is absent. *)
Theorem notifications_keep_last_ten :
  (forall evs : list Event,
      Forall quiet evs ->
      let P := pushed 0 (shown evs) in
      notifications (run evs new) = lastn 10 P /\
      (10 < List.length P ->
       List.length (notifications (run evs new)) = 10 /\
       forall first rest, P = first :: rest ->
                          ~ In first (notifications (run evs new)))) /\
  (forall (e : AnomalyData) (r : Rendered) (m : Manager),
      render e = Normal r ->
      maxNotifications m = 10 -> List.length (notifications m) = 10 ->
      notifications (state_of (showNotification e m))
        = tl (notifications m)
          ++ [createNotificationElement (next_node m) (type e) r (timestamp e)] /\
      List.length (notifications (state_of (showNotification e m))) = 10) /\
  (forall es : list AnomalyData,
      List.length es = 11 -> Forall renders es ->
      List.length (notifications (run (map Show es) new)) = 10 /\
      forall first rest, pushed 0 es = first :: rest ->
                         ~ In first (notifications (run (map Show es) new))).
Proof.
  assert (Hmain : forall evs : list Event,
      Forall quiet evs ->
      let P := pushed 0 (shown evs) in
      notifications (run evs new) = lastn 10 P /\
      (10 < List.length P ->
       List.length (notifications (run evs new)) = 10 /\
       forall first rest, P = first :: rest ->
                          ~ In first (notifications (run evs new)))).
  { intros evs Hq P. destruct (quiet_run_new evs Hq) as [Hn Hseq].
    fold P in Hn, Hseq. split; [exact Hn|].
    intros Hlen. rewrite Hn. split.
    - rewrite lastn_length. lia.
    - intros first rest HP. apply (first_not_in_lastn 10 P rest first); assumption. }
  split; [exact Hmain|]. split.
  - intros e r m Hr Hmax Hlen.
    destruct (showNotification_pushes e r m Hr) as (_ & En & _).
    rewrite En, Hmax, length_app, Hlen. cbn [List.length Nat.add Nat.ltb Nat.leb].
    destruct (notifications m) as [| old rest]; [discriminate|].
    cbn [app tl]. split; [reflexivity|].
    rewrite length_app. cbn [List.length] in *. lia.
  - intros es Hlen Hr.
    pose proof (Hmain (map Show es) (quiet_map_Show es)) as Hes.
    rewrite shown_map_Show in Hes. cbv zeta in Hes.
    destruct Hes as [_ Hes]. apply Hes.
    rewrite (pushed_all_render es Hr). lia.
Qed.

Lemma notifications_keep_last_ten_witness :
  let m := run (map Show eleven_events) new in
  List.length (notifications m) = 10 /\
  ~ In first_notification (notifications m) /\
  notifications (run (Timeout :: map Show eleven_events ++ [Timeout]) new)
    = lastn 10 (pushed 0 eleven_events) /\
  List.length
    (notifications
       (state_of (showNotification (ecg_event 1200)
                    (run (map Show eleven_events) new)))) = 10.
Proof.
  destruct notifications_keep_last_ten as (Hrun & Hpush & Heleven).
  assert (Hr : Forall renders eleven_events)
    by (repeat constructor).
  destruct (Heleven eleven_events eq_refl Hr) as [Hlen Hfirst].
  split; [exact Hlen|]. split; [|split].
  - exact (Hfirst first_notification (tl (pushed 0 eleven_events)) eq_refl).
  - apply (Hrun (Timeout :: map Show eleven_events ++ [Timeout])).
    repeat constructor.
  - destruct (render (ecg_event 1200)) as [r |] eqn:Er; [|discriminate Er].
    apply (Hpush (ecg_event 1200) r _ Er); reflexivity.
Defined.

(** C6 fails on the code: closing a single notification does not update
    the badge.  One anomaly arrives, the user closes its notification, the
    removal timeout runs: the list and the page hold no notification, and
    the badge still shows 1 and is visible.  The push before it and a
    clear-all on the same state do set the badge to the length of the
    list. *)
Theorem badge_stale_after_close :
  let shown1 := run [Show (ecg_event 100)] new in
  let closed := run [Show (ecg_event 100); Close first_notification; Timeout] new in
  notifications shown1 = [first_notification] /\
  option_map textContent (counter shown1) = Some "1" /\
  notifications closed = [] /\
  container closed = [] /\
  counter closed
    = Some {| textContent := "1";
              badge_title := "1 notifiche attive - Click per chiudere tutte";
              display := "block" |} /\
  option_map textContent (counter (handle ClearAll shown1)) = Some "0".
Proof. vm_compute. repeat split. Qed.

End NotificationBuffer.

(* ===================================================================== *)
(** * Rendering of partially formed payloads *)
(* ===================================================================== *)

Section MissingFields.

Import Js RenderSpec.

Lemma nullish_defaulted (d : Q) (v : Value) :
  nullish (defaulted d v) (Num d) = nullish v (Num d).
Proof. destruct v; reflexivity. Qed.

Lemma toFixed_defaulted (f : nat) (d : Q) (v : Value) :
  missing_or_number v = true ->
  exists s, toFixed f (nullish v (Num d)) = Normal s /\
            toFixed f (nullish (defaulted d v) (Num d)) = Normal s /\
            (missing v = true -> s = toFixed_number f d).
Proof.
  intros H. destruct v; simpl in *; try discriminate; eexists; repeat split;
    congruence.
Qed.

Lemma toUpperCase_text (v : Value) :
  missing_or_text v = true ->
  exists s, toUpperCase (or_else v (Str "unknown")) = Normal s.
Proof.
  intros H. destruct v as [| | q | s | b]; simpl in *; try discriminate;
    unfold or_else; simpl; eauto.
  destruct (negb (String.eqb s "")); simpl; eauto.
Qed.

Lemma errorDetails_defaults (ts : Value) (d : Notifications.Payload) :
  missing_or_number (Notifications.reconstruction_error d) = true ->
  missing_or_number (Notifications.threshold d) = true ->
  exists ds, Notifications.errorDetails ts d = Normal ds /\
             Notifications.errorDetails ts (payload_defaults d) = Normal ds.
Proof.
  intros He Ht. unfold Notifications.errorDetails.
  cbn [payload_defaults Notifications.reconstruction_error
       Notifications.threshold Notifications.data_timestamp].
  destruct (toFixed_defaulted 4 0 _ He) as (s1 & E1 & E1' & _).
  destruct (toFixed_defaulted 4 0 _ Ht) as (s2 & E2 & E2' & _).
  rewrite E1, E1', E2, E2'. cbn [bind]. eauto.
Qed.

Lemma render_defaults (e : Notifications.AnomalyData) (d : Notifications.Payload) :
  Notifications.data e = Some d ->
  Notifications.type e = "ecg" \/ Notifications.type e = "piezo"
    \/ Notifications.type e = "temp" ->
  missing_or_number (Notifications.reconstruction_error d) = true ->
  missing_or_number (Notifications.threshold d) = true ->
  missing_or_number (Notifications.temperature d) = true ->
  missing_or_text (Notifications.severity d) = true ->
  exists r, Notifications.render e = Normal r /\
            Notifications.render (event_defaults e) = Normal r.
Proof.
  intros Hd Hty He Ht Htemp Hs.
  unfold Notifications.render.
  cbn [event_defaults Notifications.type Notifications.data Notifications.timestamp].
  rewrite Hd. cbn [option_map].
  destruct (errorDetails_defaults (Notifications.timestamp e) d He Ht)
    as (ds & Eds & Eds').
  destruct Hty as [Hty | [Hty | Hty]]; rewrite Hty; cbn [String.eqb Ascii.eqb Bool.eqb].
  - rewrite Eds, Eds'. cbn [bind]. eauto.
  - rewrite Eds, Eds'. cbn [bind]. eauto.
  - cbn [payload_defaults Notifications.temperature Notifications.threshold
         Notifications.severity Notifications.anomaly_type].
    destruct (toFixed_defaulted 1 0 _ Htemp) as (s1 & E1 & E1' & _).
    destruct (toFixed_defaulted 1 0 _ Ht) as (s2 & E2 & E2' & _).
    destruct (toUpperCase_text _ Hs) as (s3 & E3).
    rewrite E1, E1', E2, E2', E3. cbn [bind]. eauto.
Qed.

Lemma createAnomalyCard_defaults (a : Anomalies.Anomaly) (index : nat) :
  Anomalies.createAnomalyCard (anomaly_defaults a) index
  = Anomalies.createAnomalyCard a index.
Proof.
  unfold Anomalies.createAnomalyCard, Anomalies.tempMetrics, Anomalies.errorMetrics.
  cbn [anomaly_defaults Anomalies.type Anomalies.time Anomalies.timestamp
       Anomalies.temperature Anomalies.threshold Anomalies.severity
       Anomalies.anomaly_type Anomalies.duration_readings
       Anomalies.reconstruction_error Anomalies.sample_data].
  destruct (String.eqb (Anomalies.type a) "TEMP");
    rewrite !nullish_defaulted; reflexivity.
Qed.

Lemma translateSeverity_text (v : Value) :
  missing_or_text v = true ->
  exists t, Anomalies.translateSeverity (or_else v (Str "unknown")) = Normal t.
Proof.
  intros H. destruct v as [| | q | s | b]; simpl in *; try discriminate.
  - unfold or_else; simpl. eauto.
  - unfold or_else; simpl. eauto.
  - unfold or_else. cbn [truthy].
    destruct (negb (String.eqb s "")).
    + unfold Anomalies.translateSeverity.
      repeat match goal with
             | |- context [if ?b then _ else _] => destruct b
             end; eauto.
    + simpl. eauto.
Qed.

Lemma createAnomalyCard_completes (a : Anomalies.Anomaly) (index : nat) :
  missing_or_text (Anomalies.severity a) = true ->
  exists card, Anomalies.createAnomalyCard a index = Normal card.
Proof.
  intros Hs. unfold Anomalies.createAnomalyCard.
  destruct (if String.eqb (Anomalies.type a) "ECG" then _ else _) as [color class].
  destruct (String.eqb (Anomalies.type a) "TEMP").
  - unfold Anomalies.tempMetrics.
    destruct (translateSeverity_text _ Hs) as (t & Et). rewrite Et.
    cbn [bind]. eauto.
  - cbn [bind]. eauto.
Qed.

Lemma showNotification_appends (e : Notifications.AnomalyData)
    (r : Notifications.Rendered) (m : Notifications.Manager) :
  Notifications.render e = Normal r ->
  Notifications.container (Notifications.state_of (Notifications.showNotification e m))
    = (Notifications.container m ++ [Notifications.next_node m])%list /\
  Notifications.totalCount (Notifications.state_of (Notifications.showNotification e m))
    = S (Notifications.totalCount m).
Proof.
  intros Hr. unfold Notifications.showNotification. rewrite Hr.
  cbn [Notifications.state_of].
  match goal with
  | |- context [Notifications.updateCounter ?x] =>
      destruct (updateCounter_frame x) as (_ & _ & _ & _ & Ec & Et);
      rewrite Ec, Et; clear Ec Et
  end.
  match goal with
  | |- context [if ?b then _ else _] => destruct b
  end; [|split; reflexivity].
  match goal with
  | |- context [match ?l with [] => _ | _ :: _ => _ end] => destruct l as [|old rest]
  end; [split; reflexivity|].
  unfold Notifications.removeNotification.
  match goal with
  | |- context [if ?b then _ else _] => destruct b
  end; split; reflexivity.
Qed.

Lemma showNotification_same_rendering (e e' : Notifications.AnomalyData)
    (m : Notifications.Manager) :
  Notifications.type e' = Notifications.type e ->
  Notifications.timestamp e' = Notifications.timestamp e ->
  Notifications.render e' = Notifications.render e ->
  Notifications.showNotification e' m = Notifications.showNotification e m.
Proof.
  intros Ety Ets Er. unfold Notifications.showNotification.
  rewrite Er, Ety, Ets. reflexivity.
Qed.

(** C9, as amended.  A push event whose numeric fields are missing is
    rendered, not rejected, when it is otherwise well formed.
    - For an ['ecg'], ['piezo'] or ['temp'] event with a [data] object whose
      [reconstruction_error], [threshold] and [temperature] are each missing
      or a number and whose [severity] is missing or a string,
      [showNotification] returns without an exception and does exactly what
      it does for the same event with 0 in the place of each missing field:
      the rendered notification is appended to the container and to the
      list (from which the oldest entry is dropped when the list is over
      its capacity), and the event is counted.
    - [createAnomalyCard] returns a card for every anomaly record whose
      [severity] is missing or a string, and the card is the one of the
      record with the defaults in the place of the missing [temperature],
      [threshold], [duration_readings] and [reconstruction_error]: 0, and 1
      for the threshold of an ECG or PIEZO anomaly.
    - With every field missing the cells read "0.0000", "0.0°C", "0 minuti",
      and "1.0000" for the threshold of the ECG card. *)
Theorem missing_numeric_fields_default :
  (forall (e : Notifications.AnomalyData) (d : Notifications.Payload)
          (m : Notifications.Manager),
      Notifications.data e = Some d ->
      Notifications.type e = "ecg" \/ Notifications.type e = "piezo"
        \/ Notifications.type e = "temp" ->
      missing_or_number (Notifications.reconstruction_error d) = true ->
      missing_or_number (Notifications.threshold d) = true ->
      missing_or_number (Notifications.temperature d) = true ->
      missing_or_text (Notifications.severity d) = true ->
      exists r : Notifications.Rendered,
        Notifications.render e = Normal r /\
        Notifications.render (event_defaults e) = Normal r /\
        Notifications.showNotification (event_defaults e) m
          = Notifications.showNotification e m /\
        let notification :=
          Notifications.createNotificationElement (Notifications.next_node m)
            (Notifications.type e) r (Notifications.timestamp e) in
        let l := (Notifications.notifications m ++ [notification])%list in
        let m' := Notifications.state_of (Notifications.showNotification e m) in
        Notifications.showNotification e m = Notifications.Returned m' /\
        Notifications.container m'
          = (Notifications.container m ++ [Notifications.node notification])%list /\
        Notifications.notifications m'
          = (if (Notifications.maxNotifications m <? List.length l)%nat
             then tl l else l) /\
        Notifications.totalCount m' = S (Notifications.totalCount m)) /\
  (forall (a : Anomalies.Anomaly) (index : nat),
      missing_or_text (Anomalies.severity a) = true ->
      exists card : Anomalies.Card,
        Anomalies.createAnomalyCard a index = Normal card /\
        Anomalies.createAnomalyCard (anomaly_defaults a) index = Normal card) /\
  (option_map Notifications.details
     (match Notifications.render (bare_event "ecg") with
      | Normal r => Some r
      | Throws => None
      end)
   = Some [ Notifications.mkDetail "Errore" (Plain "0.0000") false;
            Notifications.mkDetail "Soglia" (Plain "0.0000") false;
            Notifications.mkDetail "Ora" (LocaleTime (Num 1736937000000)) false ]) /\
  (option_map Notifications.details
     (match Notifications.render (bare_event "temp") with
      | Normal r => Some r
      | Throws => None
      end)
   = Some [ Notifications.mkDetail "Temperatura" (Plain "0.0°C") false;
            Notifications.mkDetail "Soglia" (Plain "0.0°C") false;
            Notifications.mkDetail "Severità" (Plain "UNKNOWN") false ]) /\
  (option_map Anomalies.metrics
     (match Anomalies.createAnomalyCard (bare_anomaly "TEMP") 0%nat with
      | Normal c => Some c
      | Throws => None
      end)
   = Some [ Anomalies.mkMetric "Tipo" (Cat (Plain "🥵 ") (Plain "unknown"));
            Anomalies.mkMetric "Temperatura" (Cat (Plain "0.0") (Plain "°C"));
            Anomalies.mkMetric "Soglia" (Cat (Plain "0.0") (Plain "°C"));
            Anomalies.mkMetric "Durata" (Cat (Plain "0") (Plain " minuti"));
            Anomalies.mkMetric "Severità" (Plain "UNKNOWN") ]) /\
  (option_map Anomalies.metrics
     (match Anomalies.createAnomalyCard (bare_anomaly "ECG") 0%nat with
      | Normal c => Some c
      | Throws => None
      end)
   = Some [ Anomalies.mkMetric "Errore Ricostruzione" (Plain "0.0000");
            Anomalies.mkMetric "Soglia" (Plain "1.0000");
            Anomalies.mkMetric "Superamento" (Cat (Plain "0.0") (Plain "%")) ]).
Proof.
  split; [|split; [|repeat split; vm_compute; reflexivity]].
  - intros e d m Hd Hty He Ht Htemp Hs.
    destruct (render_defaults e d Hd Hty He Ht Htemp Hs) as (r & Er & Er').
    exists r. split; [exact Er|]. split; [exact Er'|].
    split.
    { apply showNotification_same_rendering; [reflexivity|reflexivity|].
      rewrite Er, Er'. reflexivity. }
    destruct (showNotification_pushes e r m Er)
      as (Hret & Hlist & _).
    destruct (showNotification_appends e r m Er) as (Hcont & Hcount).
    cbv zeta. split; [exact Hret|]. split; [exact Hcont|].
    split; [exact Hlist | exact Hcount].
  - intros a index Hs.
    destruct (createAnomalyCard_completes a index Hs) as (card & Ec).
    exists card. split; [exact Ec|].
    rewrite createAnomalyCard_defaults. exact Ec.
Qed.

Lemma missing_numeric_fields_default_witness :
  (exists r : Notifications.Rendered,
      Notifications.render (bare_event "piezo") = Normal r /\
      Notifications.render (event_defaults (bare_event "piezo")) = Normal r /\
      Notifications.showNotification (bare_event "piezo") Notifications.new
        = Notifications.Returned
            (Notifications.state_of
               (Notifications.showNotification (bare_event "piezo")
                  Notifications.new)) /\
      Notifications.container
        (Notifications.state_of
           (Notifications.showNotification (bare_event "piezo") Notifications.new))
        = [0%nat]) /\
  (exists card : Anomalies.Card,
      Anomalies.createAnomalyCard (bare_anomaly "PIEZO") 3%nat = Normal card /\
      Anomalies.createAnomalyCard (anomaly_defaults (bare_anomaly "PIEZO")) 3%nat
        = Normal card).
Proof.
  destruct missing_numeric_fields_default as (Hshow & Hcard & _).
  split.
  - destruct (Hshow (bare_event "piezo") empty_payload Notifications.new)
      as (r & Er & Er' & _ & Hret & Hcont & _); try reflexivity.
    + right. left. reflexivity.
    + exists r. split; [exact Er|]. split; [exact Er'|].
      split; [exact Hret | exact Hcont].
  - apply (Hcard (bare_anomaly "PIEZO") 3%nat). reflexivity.
Defined.

(** C9 as stated fails: each of these events has its numeric fields
    missing, and [showNotification] ends in an exception after counting it,
    with nothing appended: a temperature event whose [severity] is a
    number, an ECG event whose [threshold] is a string, an event without
    [data] object and an event of an unknown type.  [createAnomalyCard]
    throws as well for a temperature anomaly whose [severity] is a
    number. *)
Lemma malformed_event_throws :
  (numbers_missing severity_event /\ rejected severity_event) /\
  (numbers_missing text_threshold_event /\ rejected text_threshold_event) /\
  (numbers_missing no_data_event /\ rejected no_data_event) /\
  (numbers_missing unknown_type_event /\ rejected unknown_type_event) /\
  missing (Anomalies.temperature severity_anomaly) = true /\
  missing (Anomalies.threshold severity_anomaly) = true /\
  Anomalies.createAnomalyCard severity_anomaly 0%nat = Throws.
Proof.
  assert (Hrej : forall e,
             Notifications.render e = Throws ->
             Notifications.totalCount
               (Notifications.state_of
                  (Notifications.showNotification e Notifications.new)) = 1%nat ->
             rejected e).
  { intros e Hr Hc. split; [exact Hr|].
    destruct (showNotification_throws e Notifications.new Hr)
      as (Hthrew & Hn & _).
    eexists. split; [exact Hthrew|]. split; [exact Hn|].
    split; [|exact Hc].
    unfold Notifications.showNotification. rewrite Hr. reflexivity. }
  repeat split; try (apply Hrej; vm_compute; reflexivity);
    try (vm_compute; reflexivity).
Qed.

End MissingFields.

(* ===================================================================== *)
(** * Browsing: loading, empty data sets, repeated navigation *)
(* ===================================================================== *)

Section Browsing.

Import History CursorSpec HistoryView.

Lemma navigate_frame (d : string) (c : Cursor) :
  currentWindowSize (navigateData d c) = currentWindowSize c /\
  totalDataCount (navigateData d c) = totalDataCount c /\
  maxSliderPosition (navigateData d c) = maxSliderPosition c.
Proof.
  split; [exact (step_keeps_size (Navigate d) c I)|].
  exact (step_frame (Navigate d) c).
Qed.

Lemma run_presses_frame (d : string) (k : nat) :
  forall c,
    currentWindowSize (run (presses d k) c) = currentWindowSize c /\
    totalDataCount (run (presses d k) c) = totalDataCount c /\
    maxSliderPosition (run (presses d k) c) = maxSliderPosition c.
Proof.
  induction k as [| k IH]; intros c; cbn [presses repeat run step].
  - repeat split.
  - destruct (navigate_frame d c) as (Ew & Et & Em).
    destruct (IH (navigateData d c)) as (Ew' & Et' & Em').
    unfold presses in *. rewrite Ew', Et', Em'. repeat split; assumption.
Qed.

(** X1.  Pressing "next" [k] times moves the position by [k] half windows
    and stops at the stored bound; pressing "prev" [k] times moves it back
    by [k] half windows and stops at 0.  With a window of size 0 or 1 the
    step is 0 and the buttons do not move the position at all. *)
Theorem repeated_navigation :
  forall (k : nat) (c : Cursor),
    0 <= currentWindowSize c ->
    let step := currentWindowSize c / 2 in
    (currentPosition c <= maxSliderPosition c ->
     currentPosition (run (presses "next" k) c)
       = Z.min (maxSliderPosition c) (currentPosition c + Z.of_nat k * step)) /\
    (0 <= currentPosition c ->
     currentPosition (run (presses "prev" k) c)
       = Z.max 0 (currentPosition c - Z.of_nat k * step)) /\
    (currentWindowSize c <= 1 ->
     0 <= currentPosition c <= maxSliderPosition c ->
     currentPosition (run (presses "next" k) c) = currentPosition c /\
     currentPosition (run (presses "prev" k) c) = currentPosition c).
Proof.
  intros k c Hw half.
  assert (Hs : 0 <= half) by (apply Z.div_pos; lia).
  assert (Hnext : forall k c', currentWindowSize c' = currentWindowSize c ->
            maxSliderPosition c' = maxSliderPosition c ->
            currentPosition c' <= maxSliderPosition c ->
            currentPosition (run (presses "next" k) c')
            = Z.min (maxSliderPosition c) (currentPosition c' + Z.of_nat k * half)).
  { clear k. induction k as [| k IH]; intros c' Ew Em Hp.
    - cbn [presses repeat run]. lia.
    - cbn [presses repeat run History.step].
      destruct (navigate_frame "next" c') as (Ew' & _ & Em').
      change (repeat (Navigate "next") k) with (presses "next" k).
      rewrite IH; try congruence.
      + change (currentPosition (navigateData "next" c'))
          with (Z.min (maxSliderPosition c') (currentPosition c' + currentWindowSize c' / 2)).
        rewrite Ew, Em. fold half. rewrite Nat2Z.inj_succ, Z.mul_succ_l.
        assert (0 <= Z.of_nat k * half) by (apply Z.mul_nonneg_nonneg; lia).
        lia.
      + change (currentPosition (navigateData "next" c'))
          with (Z.min (maxSliderPosition c') (currentPosition c' + currentWindowSize c' / 2)).
        rewrite Em. lia. }
  assert (Hprev : forall k c', currentWindowSize c' = currentWindowSize c ->
            0 <= currentPosition c' ->
            currentPosition (run (presses "prev" k) c')
            = Z.max 0 (currentPosition c' - Z.of_nat k * half)).
  { clear k. induction k as [| k IH]; intros c' Ew Hp.
    - cbn [presses repeat run]. lia.
    - cbn [presses repeat run History.step].
      destruct (navigate_frame "prev" c') as (Ew' & _ & _).
      change (repeat (Navigate "prev") k) with (presses "prev" k).
      change (currentPosition (navigateData "prev" c'))
        with (Z.max 0 (currentPosition c' - currentWindowSize c' / 2)) in *.
      rewrite IH; try congruence.
      + change (currentPosition (navigateData "prev" c'))
          with (Z.max 0 (currentPosition c' - currentWindowSize c' / 2)).
        rewrite Ew. fold half. rewrite Nat2Z.inj_succ, Z.mul_succ_l.
        assert (0 <= Z.of_nat k * half) by (apply Z.mul_nonneg_nonneg; lia).
        lia.
      + change (currentPosition (navigateData "prev" c'))
          with (Z.max 0 (currentPosition c' - currentWindowSize c' / 2)).
        lia. }
  split; [|split].
  - intros Hp. apply Hnext; [reflexivity | reflexivity | exact Hp].
  - intros Hp. apply Hprev; [reflexivity | exact Hp].
  - intros Hsmall Hp.
    assert (Hz : half = 0).
    { unfold half. apply Z.div_small. lia. }
    rewrite Hnext, Hprev; try reflexivity; try lia.
Qed.

Lemma repeated_navigation_witness :
  let c := {| currentWindowSize := 1000; currentPosition := 7800;
              totalDataCount := 10000; maxSliderPosition := 9000 |} in
  currentPosition (run (presses "next" 2) c) = Z.min 9000 (7800 + 2 * 500) /\
  currentPosition (run (presses "next" 3) c) = 9000 /\
  currentPosition (run (presses "prev" 20) c) = 0.
Proof.
  intros c.
  destruct (repeated_navigation 2 c ltac:(simpl; lia)) as (Hn2 & _ & _).
  destruct (repeated_navigation 3 c ltac:(simpl; lia)) as (Hn3 & _ & _).
  destruct (repeated_navigation 20 c ltac:(simpl; lia)) as (_ & Hp & _).
  split; [|split].
  - apply Hn2. simpl. lia.
  - rewrite Hn3; [reflexivity | simpl; lia].
  - rewrite Hp; [reflexivity | simpl; lia].
Defined.

(** X2.  At the ends the buttons are idempotent: "next" after "end" and
    "prev" after "start" leave the position where it is, and so does a
    second "end" or "start". *)
Theorem navigation_idempotent_at_ends :
  forall (c : Cursor),
    0 <= currentWindowSize c ->
    navigateData "next" (navigateData "end" c) = navigateData "end" c /\
    navigateData "prev" (navigateData "start" c) = navigateData "start" c /\
    navigateData "end" (navigateData "end" c) = navigateData "end" c /\
    navigateData "start" (navigateData "start" c) = navigateData "start" c.
Proof.
  intros c Hw.
  assert (Hs : 0 <= currentWindowSize c / 2) by (apply Z.div_pos; lia).
  unfold navigateData, set_position. cbn.
  split; [|split; [|split]]; f_equal; try reflexivity; lia.
Qed.

Lemma navigation_idempotent_at_ends_witness :
  navigateData "next" (navigateData "end" sample_cursor)
  = navigateData "end" sample_cursor.
Proof.
  apply (navigation_idempotent_at_ends sample_cursor). simpl. lia.
Defined.

(** X3.  An empty answer and a failed fetch leave the view without data:
    position, count and bound are 0 and the window size is kept.  In that
    state no navigation button moves the position, whatever is pressed and
    how often. *)
Theorem empty_load_is_inert :
  forall (resp : option WindowResponse) (c : Cursor) (directions : list string),
    0 <= currentWindowSize c ->
    match resp with
    | Some data => total_count data <= 0
    | None => True
    end ->
    let c' := run (map Navigate directions) (loadHistoricalData true resp c) in
    currentPosition c' = 0 /\ totalDataCount c' = 0 /\
    maxSliderPosition c' = 0 /\ currentWindowSize c' = currentWindowSize c.
Proof.
  intros resp c ds Hw Hresp.
  assert (Hload : loadHistoricalData true resp c = hideHistoryData c).
  { unfold loadHistoricalData. cbn [negb]. destruct resp as [data |]; [|reflexivity].
    destruct (Z.ltb_spec 0 (total_count data)); [lia | reflexivity]. }
  rewrite Hload. clear Hload Hresp. cbv zeta.
  assert (H : forall ds c0, bounded c0 -> maxSliderPosition c0 = 0 ->
              currentPosition (run (map Navigate ds) c0) = 0 /\
              totalDataCount (run (map Navigate ds) c0) = totalDataCount c0 /\
              maxSliderPosition (run (map Navigate ds) c0) = 0 /\
              currentWindowSize (run (map Navigate ds) c0) = currentWindowSize c0).
  { clear ds. induction ds as [| d ds IH]; intros c0 Hb Hm; cbn [map run step].
    - pose proof Hb as (_ & _ & Hp & _). repeat split; lia.
    - destruct (navigate_frame d c0) as (Ew & Et & Em).
      assert (Hb' : bounded (navigateData d c0))
        by (apply (step_bounded (Navigate d) c0 Hb); exact I).
      destruct (IH (navigateData d c0) Hb') as (Hp' & Ht' & Hm' & Hw'); [congruence|].
      repeat split; congruence. }
  destruct (H ds (hideHistoryData c)) as (Hp & Ht & Hm & Hw').
  - unfold bounded. cbn. lia.
  - reflexivity.
  - repeat split; assumption.
Qed.

Lemma empty_load_is_inert_witness :
  currentPosition
    (run (map Navigate ["next"; "end"; "next"; "prev"])
       (loadHistoricalData true (Some (mkResponse 0 0 0 0)) sample_cursor)) = 0.
Proof.
  apply (empty_load_is_inert (Some (mkResponse 0 0 0 0)) sample_cursor
           ["next"; "end"; "next"; "prev"]); simpl; lia.
Defined.

(** X4.  When the server answers a load with the window that was asked for
    (it starts at position 0 and its bound fits the window size), the cursor
    satisfies the full invariant after the load and after every sequence of
    navigation and in-range slider moves that follows: the position is
    between 0 and [maxPosition = max(0, totalCount - windowSize)] and the
    window lies inside the data set. *)
Theorem load_then_browse :
  forall (data : WindowResponse) (c : Cursor) (ops : list Op),
    0 <= currentWindowSize c ->
    answers (load_request c) data ->
    issued_from (loadHistoricalData true (Some data) c) ops ->
    Forall keeps_size ops ->
    cursor_inv (loadHistoricalData true (Some data) c) /\
    cursor_inv (run ops (loadHistoricalData true (Some data) c)).
Proof.
  intros data c ops Hw (Htot & Hstart & Hmax) Hiss Hkeep.
  cbn [load_request position window_size] in Hstart, Hmax.
  assert (Hload : loadHistoricalData true (Some data) c = displayHistoricalData data c).
  { unfold loadHistoricalData. cbn [negb].
    destruct (Z.ltb_spec 0 (total_count data)); [reflexivity | lia]. }
  rewrite Hload in *.
  set (c0 := displayHistoricalData data c) in *.
  assert (Hb : bounded c0) by (unfold bounded, c0; cbn; lia).
  assert (Hf : bound_fits c0) by (unfold bound_fits, c0; cbn; lia).
  assert (Hall : forall ops', issued_from c0 ops' -> Forall keeps_size ops' ->
                              cursor_inv (run ops' c0)).
  { intros ops' Hi Hk.
    destruct (run_bounded ops' c0 Hb Hi) as (_ & _ & Hp & Hm).
    pose proof (run_keeps_fit ops' c0 Hf Hk) as Hf'.
    unfold cursor_inv. split; [split; assumption|]. split; [assumption|].
    apply bounded_fits_inside; assumption. }
  split.
  - apply (Hall []); [exact I | constructor].
  - apply Hall; assumption.
Qed.

Lemma load_then_browse_witness :
  let data := {| total_count := 10000; max_position := 9000;
                 window_start := 0; window_end := 1000 |} in
  cursor_inv
    (run [Navigate "next"; SetPosition 8700; Navigate "next"; Navigate "prev"]
       (loadHistoricalData true (Some data) History.initial)).
Proof.
  intros data.
  apply (load_then_browse data History.initial
           [Navigate "next"; SetPosition 8700; Navigate "next"; Navigate "prev"]).
  - simpl. lia.
  - unfold answers. simpl. lia.
  - simpl. lia.
  - repeat constructor.
Defined.

End Browsing.

(* ===================================================================== *)
(** * Time labels of the history chart *)
(* ===================================================================== *)

Section WindowTimes.

Import History.

Local Open Scope Q_scope.

Lemma inject_Z_sub (a b : Z) : inject_Z (a - b) == inject_Z a - inject_Z b.
Proof. unfold Z.sub, Qminus. rewrite inject_Z_plus, inject_Z_opp. reflexivity. Qed.

Lemma ratio_bounds (a t : Z) :
  (0 <= a)%Z -> (a <= t)%Z -> (0 < t)%Z ->
  0 <= inject_Z a / inject_Z t /\ inject_Z a / inject_Z t <= 1.
Proof.
  intros Ha Hat Ht.
  assert (Htq : 0 < inject_Z t) by (unfold Qlt; simpl; lia).
  split.
  - apply Qle_shift_div_l; [exact Htq|]. rewrite Qmult_0_l.
    unfold Qle; simpl; lia.
  - apply Qle_shift_div_r; [exact Htq|]. rewrite Qmult_1_l.
    unfold Qle; simpl; lia.
Qed.


Lemma scale_mono (d x y : Q) : 0 <= d -> x <= y -> d * x <= d * y.
Proof.
  intros Hd Hxy. rewrite (Qmult_comm d x), (Qmult_comm d y).
  apply Qmult_le_compat_r; assumption.
Qed.

(** X5.  For the temperature signal the labelled time range never leaves
    the session: with a non-empty data set, a session that does not end
    before it starts, and a window [position, position + numSamples) inside
    the data set, session start <= window start <= window end <= session
    end. *)
Theorem temp_window_within_session :
  forall (sessionStartMs sessionEndMs numSamples : Z) (c : Cursor),
    (0 < totalDataCount c)%Z ->
    (sessionStartMs <= sessionEndMs)%Z ->
    (0 <= currentPosition c)%Z -> (0 <= numSamples)%Z ->
    (currentPosition c + numSamples <= totalDataCount c)%Z ->
    exists firstSampleMs lastSampleMs : Q,
      windowTimeBounds "TEMP" sessionStartMs sessionEndMs numSamples c
        = Some (firstSampleMs, lastSampleMs) /\
      inject_Z sessionStartMs <= firstSampleMs /\
      firstSampleMs <= lastSampleMs /\
      lastSampleMs <= inject_Z sessionEndMs.
Proof.
  intros s e n c Ht Hse Hp Hn Hin.
  assert (Hz : (totalDataCount c =? 0)%Z = false) by (apply Z.eqb_neq; lia).
  unfold windowTimeBounds.
  change (String.eqb "TEMP" "TEMP") with true. cbv iota. rewrite Hz.
  eexists. eexists. split; [reflexivity|].
  set (d := inject_Z (e - s)).
  set (p := inject_Z (currentPosition c) / inject_Z (totalDataCount c)).
  set (w := inject_Z n / inject_Z (totalDataCount c)).
  assert (Hd : 0 <= d) by (unfold d, Qle; simpl; lia).
  destruct (ratio_bounds (currentPosition c) (totalDataCount c)) as [Hp0 _];
    try lia. fold p in Hp0.
  destruct (ratio_bounds n (totalDataCount c)) as [Hw0 _]; try lia. fold w in Hw0.
  assert (Hpw : p + w <= 1).
  { destruct (ratio_bounds (currentPosition c + n) (totalDataCount c)) as [_ H1];
      try lia.
    assert (E : p + w == inject_Z (currentPosition c + n) / inject_Z (totalDataCount c)).
    { unfold p, w. rewrite inject_Z_plus. field. unfold Qeq; simpl; lia. }
    rewrite E. exact H1. }
  split; [|split].
  - rewrite <- (Qplus_0_r (inject_Z s)) at 1.
    apply Qplus_le_r. rewrite <- (Qmult_0_r d). apply scale_mono; assumption.
  - apply Qplus_le_r. apply scale_mono; [assumption|].
    rewrite <- (Qplus_0_r p) at 1. apply Qplus_le_r. exact Hw0.
  - assert (E : inject_Z e == inject_Z s + d * 1).
    { unfold d. rewrite inject_Z_sub. ring. }
    rewrite E. apply Qplus_le_r. apply scale_mono; assumption.
Qed.

Lemma temp_window_within_session_witness :
  exists firstSampleMs lastSampleMs : Q,
    windowTimeBounds "TEMP" 1000 601000 10
      {| currentWindowSize := 10; currentPosition := 25;
         totalDataCount := 40; maxSliderPosition := 30 |}
      = Some (firstSampleMs, lastSampleMs) /\
    inject_Z 1000 <= firstSampleMs /\ firstSampleMs <= lastSampleMs /\
    lastSampleMs <= inject_Z 601000.
Proof.
  apply (temp_window_within_session 1000 601000 10
           {| currentWindowSize := 10; currentPosition := 25;
              totalDataCount := 40; maxSliderPosition := 30 |});
    simpl; lia.
Defined.



End WindowTimes.

(* ===================================================================== *)
(** * The temperature history over whole runs *)
(* ===================================================================== *)

Section TemperatureRuns.

Import Realtime RealtimeSpec HistorySpec.

Lemma handle_history_ok (ev : Event) (s : State) :
  history_ok s -> history_ok (handle ev s).
Proof.
  intros [Ht Hc]. unfold history_ok.
  destruct (handle_history ev s) as [[Eh Ec] | [[Eh Ec] | (v & Eh & Ec)]];
    rewrite Eh, Ec.
  - split; assumption.
  - split; reflexivity.
  - cbn [values times]. split; [|reflexivity].
    rewrite length_app. cbn [List.length].
    replace (List.length (values (temperatureHistory s)) + 1)%nat
      with (S (List.length (values (temperatureHistory s)))) by lia.
    rewrite seq_S, map_app, <- Ht. reflexivity.
Qed.

Lemma run_history_ok (evs : list Event) :
  forall s, history_ok s -> history_ok (run evs s).
Proof.
  induction evs as [| ev evs IH]; intros s H; cbn [run]; [assumption|].
  apply IH, handle_history_ok, H.
Qed.

(** X7.  Whatever events arrive, in any order, the stored minute stamps are
    0, 2, 4, ... with one stamp per stored value, and the chart shows the
    last 1200 stored values and stamps (all of them while there are fewer).
    So the chart is never stale with respect to the stored history, and a
    sample's stamp is twice its index. *)
Theorem temperature_history_invariant :
  forall (evs : list Event) (s : State),
    history_ok s ->
    let s' := run evs s in
    List.length (times (temperatureHistory s'))
      = List.length (values (temperatureHistory s')) /\
    (forall i t, nth_error (times (temperatureHistory s')) i = Some t ->
                 t = Z.of_nat i * 2) /\
    tempChart s'
      = (slice_last MAX_TEMP_DISPLAY (values (temperatureHistory s')),
         slice_last MAX_TEMP_DISPLAY (times (temperatureHistory s'))).
Proof.
  intros evs s H s'.
  destruct (run_history_ok evs s H) as [Ht Hc]. fold s' in Ht, Hc.
  split; [|split].
  - rewrite Ht, length_map, length_seq. reflexivity.
  - intros i t Hi. rewrite Ht in Hi.
    rewrite nth_error_map in Hi.
    destruct (nth_error (seq 0 _) i) as [j |] eqn:Ej; [|discriminate].
    cbn [option_map] in Hi. injection Hi as <-.
    pose proof (nth_error_nth _ _ 0%nat Ej) as Hn.
    assert (Hlt : (i < List.length (seq 0 (List.length (values (temperatureHistory s')))))%nat).
    { apply nth_error_Some. rewrite Ej. discriminate. }
    rewrite length_seq in Hlt. rewrite seq_nth in Hn by exact Hlt.
    subst j. reflexivity.
  - exact Hc.
Qed.

Lemma temperature_history_invariant_witness :
  let s' := run [temp_update; temp_update; Started; temp_update] initial in
  List.length (times (temperatureHistory s'))
    = List.length (values (temperatureHistory s')) /\
  nth_error (times (temperatureHistory s')) 2 = Some 4.
Proof.
  intros s'.
  destruct (temperature_history_invariant
              [temp_update; temp_update; Started; temp_update] initial)
    as (Hlen & Hstamp & _).
  - split; reflexivity.
  - split; [exact Hlen | reflexivity].
Defined.

Lemma differs_same (x : Q) : differs x x = false.
Proof.
  unfold differs. apply negb_false_iff. apply Qle_bool_iff.
  assert (E : (Qabs (x - x) == 0)%Q).
  { rewrite (Qabs_wd (x - x) 0); [reflexivity|]. ring. }
  rewrite E. discriminate.
Qed.

(** X8.  A status snapshot delivered twice has the effect of one delivery:
    the second [updateStatistics] with the same snapshot changes nothing,
    in particular it pushes no second temperature sample. *)
Theorem updateStatistics_idempotent :
  forall (data : Status) (s : State),
    updateStatistics data (updateStatistics data s) = updateStatistics data s.
Proof.
  intros data s. unfold updateStatistics.
  destruct (shouldUpdateCounters s) eqn:Hflag; cbn [negb]; [|rewrite Hflag; reflexivity].
  destruct (current_temp data) as [t |].
  - cbn zeta.
    destruct (lastTemperature s) as [last |] eqn:Hlast.
    + cbn [lastTemperature set_frozenStats set_tempValue].
      rewrite Hlast.
      destruct (differs (t / 100) last) eqn:Hd.
      * cbn. rewrite Hflag. cbn. rewrite differs_same. reflexivity.
      * cbn. rewrite Hflag. cbn. rewrite Hlast, Hd. reflexivity.
    + cbn [lastTemperature set_frozenStats set_tempValue].
      rewrite Hlast.
      cbn. rewrite Hflag. cbn. rewrite differs_same. reflexivity.
  - cbn. rewrite Hflag. cbn. reflexivity.
Qed.

End TemperatureRuns.

(* ===================================================================== *)
(** * The notification list and the page *)
(* ===================================================================== *)

Section NotificationPageProofs.

Import Js Notifications NotificationSpec NotificationPage SharedContainer.

Local Open Scope nat_scope.
Local Open Scope list_scope.

Lemma without_cons (t x : Notification) (l : list Notification) :
  without t (x :: l) = if Nat.eqb (node x) (node t) then l else x :: without t l.
Proof.
  unfold without. cbn [indexOf].
  destruct (Nat.eqb (node x) (node t)); [reflexivity|].
  destruct (indexOf t l); reflexivity.
Qed.

Lemma without_In (t x : Notification) (l : list Notification) :
  In x (without t l) -> In x l.
Proof.
  induction l as [| y l IH]; [trivial|].
  rewrite without_cons. destruct (Nat.eqb (node y) (node t)).
  - intros H. right. exact H.
  - intros [H | H]; [left; exact H | right; exact (IH H)].
Qed.

Lemma without_keeps (t x : Notification) (l : list Notification) :
  In x l -> node x <> node t -> In x (without t l).
Proof.
  induction l as [| y l IH]; [trivial|].
  rewrite without_cons. intros [-> | H] Hne.
  - destruct (Nat.eqb_spec (node x) (node t)); [contradiction | left; reflexivity].
  - destruct (Nat.eqb (node y) (node t)); [exact H | right; exact (IH H Hne)].
Qed.

Lemma without_nodup (t : Notification) (l : list Notification) :
  NoDup (map node l) ->
  NoDup (map node (without t l)) /\
  (forall x, In x (without t l) -> node x <> node t).
Proof.
  induction l as [| y l IH]; intros Hnd.
  - split; [constructor | intros x []].
  - rewrite without_cons. cbn [map] in Hnd. inversion Hnd as [| ? ? Hy Hl]; subst.
    destruct (IH Hl) as [IH1 IH2].
    destruct (Nat.eqb_spec (node y) (node t)) as [E | E].
    + split; [exact Hl|]. intros x Hx Hxt. apply Hy. rewrite E, <- Hxt.
      apply in_map. exact Hx.
    + split.
      * cbn [map]. constructor; [|exact IH1].
        intros Hin. apply Hy. apply in_map_iff in Hin.
        destruct Hin as (z & Ez & Hz). rewrite <- Ez.
        apply in_map. exact (without_In t z l Hz).
      * intros x [<- | Hx]; [exact E | exact (IH2 x Hx)].
Qed.

Lemma without_length (t : Notification) (l : list Notification) :
  List.length (without t l) <= List.length l.
Proof.
  induction l as [| y l IH]; [apply Nat.le_refl|].
  rewrite without_cons. destruct (Nat.eqb (node y) (node t)); cbn [List.length]; lia.
Qed.

Lemma hasParent_In (n : Notification) (m : Manager) :
  hasParent n m = true <-> In (node n) (container m).
Proof.
  unfold hasParent. rewrite existsb_exists. split.
  - intros (c & Hc & E). apply Nat.eqb_eq in E. subst c. exact Hc.
  - intros H. exists (node n). split; [exact H | apply Nat.eqb_refl].
Qed.

Lemma removeChild_In (t : Notification) (children : list nat) (c : nat) :
  In c (removeChild t children) <-> In c children /\ c <> node t.
Proof.
  unfold removeChild. rewrite filter_In. split.
  - intros [H E]. split; [exact H|].
    apply negb_true_iff, Nat.eqb_neq in E. exact E.
  - intros [H E]. split; [exact H|].
    apply negb_true_iff, Nat.eqb_neq. exact E.
Qed.

(** The fields after the timeout callback of [t]. *)
Lemma removeTimeout_fields (t : Notification) (m : Manager) :
  notifications (removeTimeout t m) = without t (notifications m) /\
  (forall c, In c (container (removeTimeout t m))
             <-> In c (container m) /\ c <> node t) /\
  timers (removeTimeout t m) = timers m /\
  next_node (removeTimeout t m) = next_node m /\
  maxNotifications (removeTimeout t m) = maxNotifications m /\
  counter (removeTimeout t m) = counter m /\
  totalCount (removeTimeout t m) = totalCount m.
Proof.
  unfold removeTimeout, without.
  set (m1 := if hasParent t m then set_container (removeChild t (container m)) m else m).
  assert (H1 : notifications m1 = notifications m /\
               (forall c, In c (container m1) <-> In c (container m) /\ c <> node t) /\
               timers m1 = timers m /\ next_node m1 = next_node m /\
               maxNotifications m1 = maxNotifications m /\
               counter m1 = counter m /\ totalCount m1 = totalCount m).
  { unfold m1. destruct (hasParent t m) eqn:Hp.
    - split; [reflexivity|]. split; [|repeat split].
      intros c. cbn [container set_container]. apply removeChild_In.
    - split; [reflexivity|]. split; [|repeat split].
      intros c. split; [|tauto].
      intros Hc. split; [exact Hc|].
      intros ->. apply hasParent_In in Hc. congruence. }
  destruct H1 as (En & Ec & Et & Ex & Em & Eb & Eo).
  rewrite En.
  destruct (indexOf t (notifications m));
    cbn [notifications container timers next_node maxNotifications counter
         totalCount set_notifications];
    (split; [try rewrite En; reflexivity|]); (split; [exact Ec|]);
    repeat split; assumption.
Qed.

Lemma clear_fold_fields (l : list Notification) :
  forall m,
    let m' := fold_left (fun m0 n => removeNotification n m0) l m in
    notifications m' = notifications m /\ container m' = container m /\
    next_node m' = next_node m /\ maxNotifications m' = maxNotifications m /\
    counter m' = counter m /\ totalCount m' = totalCount m /\
    (forall x, In x (timers m) -> In x (timers m')) /\
    (forall x, In x l -> In (node x) (container m) -> In x (timers m')).
Proof.
  induction l as [| n l IH]; intros m; cbn [fold_left].
  - repeat split; trivial. intros x [].
  - destruct (IH (removeNotification n m)) as (En & Ec & Ex & Em & Eb & Et & Hold & Hnew).
    assert (Hstep : notifications (removeNotification n m) = notifications m /\
                    container (removeNotification n m) = container m /\
                    next_node (removeNotification n m) = next_node m /\
                    maxNotifications (removeNotification n m) = maxNotifications m /\
                    counter (removeNotification n m) = counter m /\
                    totalCount (removeNotification n m) = totalCount m /\
                    (forall x, In x (timers m) -> In x (timers (removeNotification n m))) /\
                    (In (node n) (container m) -> In n (timers (removeNotification n m)))).
    { unfold removeNotification. destruct (hasParent n m) eqn:Hp; cbn [negb].
      - cbn. repeat split; intros; apply in_or_app; [left; assumption | right; left; reflexivity].
      - repeat split; trivial. intros Hc. apply hasParent_In in Hc. congruence. }
    destruct Hstep as (Sn & Sc & Sx & Sm & Sb & St & Sold & Snew).
    cbv zeta in *. rewrite En, Ec, Ex, Em, Eb, Et.
    repeat split; try assumption.
    + intros x Hx. apply Hold, Sold, Hx.
    + intros x [<- | Hx] Hc.
      * apply Hold, Snew, Hc.
      * apply Hnew; [exact Hx | rewrite Sc; exact Hc].
Qed.

(** All fields after a push that renders. *)
Lemma showNotification_page (e : AnomalyData) (r : Rendered) (m : Manager) :
  render e = Normal r ->
  let n := createNotificationElement (next_node m) (type e) r (timestamp e) in
  let l := notifications m ++ [n] in
  let m' := state_of (showNotification e m) in
  container m' = container m ++ [next_node m] /\
  next_node m' = S (next_node m) /\
  maxNotifications m' = maxNotifications m /\
  totalCount m' = S (totalCount m) /\
  ((maxNotifications m <? List.length l) = false ->
   notifications m' = l /\ timers m' = timers m) /\
  ((maxNotifications m <? List.length l) = true ->
   notifications m' = tl l /\
   (In (node (hd n l)) (container m ++ [next_node m]) ->
    timers m' = timers m ++ [hd n l])).
Proof.
  intros Hr n l m'. subst m'.
  unfold showNotification. rewrite Hr. cbn [state_of].
  match goal with
  | |- context [updateCounter ?x] =>
      destruct (updateCounter_frame x) as (En & Et & Ex & Em & Ec & Eo);
      rewrite En, Et, Ex, Em, Ec, Eo; clear En Et Ex Em Ec Eo
  end.
  cbn [notifications maxNotifications next_node timers container totalCount
       set_notifications set_container set_next_node set_totalCount node
       createNotificationElement].
  fold n. fold l.
  destruct (maxNotifications m <? List.length l) eqn:Hlt.
  - assert (Hl : exists old rest, l = old :: rest).
    { unfold l. destruct (notifications m); simpl; eauto. }
    destruct Hl as (old & rest & Hl). rewrite Hl. cbn [hd tl].
    unfold removeNotification.
    match goal with
    | |- context [hasParent old ?x] =>
        destruct (hasParent old x) eqn:Hp;
        [ | assert (Hnp : ~ In (node old) (container x))
              by (intros Hin; apply hasParent_In in Hin; congruence) ]
    end; cbn [negb notifications maxNotifications next_node timers container
              totalCount set_notifications set_container set_next_node
              set_totalCount set_timers] in *.
    + repeat split; try discriminate.
    + repeat split; try discriminate. intros Hin. contradiction.
  - cbn [notifications maxNotifications next_node timers container totalCount
         set_notifications set_container set_next_node set_totalCount].
    repeat split; try discriminate.
Qed.

Lemma NoDup_snoc {A : Type} (l : list A) (x : A) :
  NoDup l -> ~ In x l -> NoDup (l ++ [x]).
Proof.
  induction 1 as [| y l Hy Hl IH]; intros Hx; cbn [app].
  - constructor; [intros [] | constructor].
  - constructor.
    + intros Hin. apply in_app_or in Hin. destruct Hin as [Hin | [<- | []]].
      * exact (Hy Hin).
      * apply Hx. left. reflexivity.
    + apply IH. intros Hin. apply Hx. right. exact Hin.
Qed.

Lemma NoDup_tl {A : Type} (l : list A) : NoDup l -> NoDup (tl l).
Proof. intros H. destruct l; [exact H|]. inversion H; assumption. Qed.

Lemma In_tl {A : Type} (x : A) (l : list A) : In x (tl l) -> In x l.
Proof. destruct l; [trivial|]. intros H. right. exact H. Qed.

Lemma show_page_ok (e : AnomalyData) (m : Manager) :
  page_ok m -> page_ok (state_of (showNotification e m)).
Proof.
  intros (Hnd & Hlt & Hpage & Hcov & Hlen).
  destruct (render e) as [r |] eqn:Hr.
  - destruct (showNotification_page e r m Hr) as (Ec & Ex & Em & _ & Hkeep & Hevict).
    set (n := createNotificationElement (next_node m) (type e) r (timestamp e)) in *.
    set (l := notifications m ++ [n]) in *.
    set (m' := state_of (showNotification e m)) in *.
    assert (F1 : forall x, In x l -> In (node x) (container m ++ [next_node m])).
    { intros x Hx. apply in_app_or in Hx. apply in_or_app.
      destruct Hx as [Hx | [<- | []]]; [left; apply Hpage, Hx | right; left; reflexivity]. }
    assert (F2 : NoDup (map node l)).
    { unfold l. rewrite map_app. cbn [map]. apply NoDup_snoc; [exact Hnd|].
      intros Hin. apply in_map_iff in Hin. destruct Hin as (x & Ex' & Hx).
      apply Hlt in Hx. cbn [node createNotificationElement n] in Ex'. lia. }
    assert (F3 : forall x, In x l -> node x < S (next_node m)).
    { intros x Hx. apply in_app_or in Hx.
      destruct Hx as [Hx | [<- | []]]; [apply Hlt in Hx; lia | cbn; lia]. }
    assert (F4 : List.length l = S (List.length (notifications m))).
    { unfold l. rewrite length_app. cbn. lia. }
    unfold page_ok. rewrite Ec, Ex, Em.
    destruct (maxNotifications m <? List.length l) eqn:Hcmp.
    + destruct (Hevict eq_refl) as [En Et]. rewrite En.
      assert (Hl : exists old rest, l = old :: rest).
      { unfold l. destruct (notifications m); simpl; eauto. }
      destruct Hl as (old & rest & Hl).
      assert (Et' : timers m' = timers m ++ [old]).
      { rewrite Hl in Et. cbn [hd] in Et. apply Et. apply F1. rewrite Hl. left. reflexivity. }
      rewrite Et'. rewrite Hl in *. cbn [tl] in *.
      split; [|split; [|split; [|split]]].
      * cbn [map] in F2. inversion F2; assumption.
      * intros x Hx. apply F3. right. exact Hx.
      * intros x Hx. apply F1. right. exact Hx.
      * intros c Hc.
        assert (Hc' : In c (map node (old :: rest)) \/ In c (map node (timers m))).
        { apply in_app_or in Hc. destruct Hc as [Hc | [<- | []]].
          - destruct (Hcov c Hc) as [H | H]; [|right; exact H].
            left. apply in_map_iff in H. destruct H as (x & <- & Hx).
            apply in_map. rewrite <- Hl. unfold l. apply in_or_app. left. exact Hx.
          - left. change (next_node m) with (node n). apply in_map.
            rewrite <- Hl. unfold l. apply in_or_app. right. left. reflexivity. }
        rewrite map_app. cbn [map].
        destruct Hc' as [[<- | H] | H].
        -- right. apply in_or_app. right. left. reflexivity.
        -- left. exact H.
        -- right. apply in_or_app. left. exact H.
      * apply Nat.ltb_lt in Hcmp. cbn [List.length] in F4. lia.
    + destruct (Hkeep eq_refl) as [En Et]. rewrite En, Et.
      split; [exact F2|]. split; [exact F3|]. split; [exact F1|]. split.
      * intros c Hc. apply in_app_or in Hc. destruct Hc as [Hc | [<- | []]].
        -- destruct (Hcov c Hc) as [H | H]; [|right; exact H].
           left. unfold l. rewrite map_app. apply in_or_app. left. exact H.
        -- left. unfold l. rewrite map_app. apply in_or_app. right. left. reflexivity.
      * apply Nat.ltb_ge in Hcmp. exact Hcmp.
  - unfold showNotification. rewrite Hr. cbn [state_of].
    unfold page_ok. cbn. repeat split; assumption.
Qed.

Lemma close_page_ok (n : Notification) (m : Manager) :
  page_ok m -> page_ok (removeNotification n m).
Proof.
  intros (Hnd & Hlt & Hpage & Hcov & Hlen).
  unfold removeNotification. destruct (negb (hasParent n m)).
  - repeat split; assumption.
  - unfold page_ok. cbn. repeat split; try assumption.
    intros c Hc. destruct (Hcov c Hc) as [H | H]; [left; exact H|].
    right. rewrite map_app. apply in_or_app. left. exact H.
Qed.

Lemma timeout_page_ok (m : Manager) : page_ok m -> page_ok (handle Timeout m).
Proof.
  intros Hok. cbn [handle].
  destruct (timers m) as [| t rest] eqn:Etm; [exact Hok|].
  destruct Hok as (Hnd & Hlt & Hpage & Hcov & Hlen).
  destruct (removeTimeout_fields t (set_timers rest m))
    as (En & Ec & Et & Ex & Em & _ & _).
  cbn [notifications container timers next_node maxNotifications set_timers]
    in En, Ec, Et, Ex, Em.
  destruct (without_nodup t (notifications m) Hnd) as [Hnd' Hne].
  unfold page_ok. rewrite En, Et, Ex, Em.
  split; [exact Hnd'|]. split; [|split; [|split]].
  - intros x Hx. apply Hlt. exact (without_In t x _ Hx).
  - intros x Hx. apply Ec. split; [|exact (Hne x Hx)].
    apply Hpage. exact (without_In t x _ Hx).
  - intros c Hc. apply Ec in Hc. destruct Hc as [Hc Hct].
    destruct (Hcov c Hc) as [H | H].
    + left. apply in_map_iff in H. destruct H as (x & <- & Hx).
      apply in_map. apply without_keeps; assumption.
    + right. rewrite Etm in H. cbn [map] in H.
      destruct H as [H | H]; [congruence | exact H].
  - pose proof (without_length t (notifications m)). lia.
Qed.

Lemma clear_page_ok (m : Manager) : page_ok m -> page_ok (clearAll m).
Proof.
  intros (Hnd & Hlt & Hpage & Hcov & Hlen). unfold clearAll.
  match goal with
  | |- page_ok (updateCounter ?x) =>
      destruct (updateCounter_frame x) as (En & Et & Ex & Em & Ec & _)
  end.
  destruct (clear_fold_fields (notifications m) m)
    as (_ & Fc & Fx & Fm & _ & _ & Fold & Fnew).
  cbv zeta in *.
  cbn [notifications container timers next_node maxNotifications
       set_notifications] in En, Et, Ex, Em, Ec.
  unfold page_ok. rewrite En, Et, Ex, Em, Ec, Fc.
  split; [constructor|]. split; [intros x []|]. split; [intros x []|].
  split; [|cbn; lia].
  intros c Hc. right. destruct (Hcov c Hc) as [H | H].
  - apply in_map_iff in H. destruct H as (x & <- & Hx).
    apply in_map. apply Fnew; [exact Hx | exact Hc].
  - apply in_map_iff in H. destruct H as (x & <- & Hx).
    apply in_map. apply Fold. exact Hx.
Qed.

Lemma handle_page_ok (ev : Event) (m : Manager) :
  page_ok m -> page_ok (handle ev m).
Proof.
  intros Hok. destruct ev as [e | n | |].
  - apply show_page_ok, Hok.
  - apply close_page_ok, Hok.
  - apply timeout_page_ok, Hok.
  - apply clear_page_ok, Hok.
Qed.

Lemma handle_maxNotifications (ev : Event) (m : Manager) :
  maxNotifications (handle ev m) = maxNotifications m.
Proof.
  destruct ev as [e | n | |]; cbn [handle].
  - destruct (render e) as [r |] eqn:Hr.
    + apply (showNotification_pushes e r m Hr).
    + apply (showNotification_throws e m Hr).
  - apply removeNotification_frame.
  - destruct (timers m) as [| t rest]; [reflexivity|].
    apply (removeTimeout_fields t (set_timers rest m)).
  - unfold clearAll.
    match goal with
    | |- maxNotifications (updateCounter ?x) = _ =>
        destruct (updateCounter_frame x) as (_ & _ & _ & Em & _)
    end.
    rewrite Em. apply (clear_fold_fields (notifications m) m).
Qed.

Lemma run_page_ok (evs : list Event) :
  forall m, page_ok m ->
            page_ok (run evs m) /\
            maxNotifications (run evs m) = maxNotifications m.
Proof.
  induction evs as [| ev evs IH]; intros m Hok; cbn [run].
  - split; [exact Hok | reflexivity].
  - destruct (IH (handle ev m) (handle_page_ok ev m Hok)) as [H Hm].
    split; [exact H|]. rewrite Hm. apply handle_maxNotifications.
Qed.

Lemma new_page_ok : page_ok new.
Proof.
  unfold page_ok. cbn.
  split; [constructor|]. split; [intros x []|]. split; [intros x []|].
  split; [intros c []|]. lia.
Qed.



(** X9.  The list never holds more than 10 notifications, whatever arrives
    and whatever the user does: anomaly events, clicks on close buttons,
    clear-all, and removal timeouts in any order. *)
Theorem notifications_never_exceed_capacity :
  forall evs : list Event,
    List.length (notifications (run evs new)) <= 10.
Proof.
  intros evs.
  destruct (run_page_ok evs new new_page_ok) as [(_ & _ & _ & _ & Hlen) Hmax].
  rewrite Hmax in Hlen. exact Hlen.
Qed.









Lemma without_middle (x : Notification) (l1 l2 : list Notification) :
  NoDup (map node (l1 ++ x :: l2)) -> without x (l1 ++ x :: l2) = l1 ++ l2.
Proof.
  induction l1 as [| y l1 IH]; intros Hnd.
  - cbn [app]. rewrite without_cons, Nat.eqb_refl. reflexivity.
  - cbn [app map] in *. inversion Hnd as [| ? ? Hy Hl]; subst.
    rewrite without_cons.
    destruct (Nat.eqb_spec (node y) (node x)) as [E | E].
    + exfalso. apply Hy. rewrite E, map_app. apply in_or_app. right. left. reflexivity.
    + rewrite (IH Hl). reflexivity.
Qed.

(** X12.  Dismissing a notification: when no removal is pending, a click on
    the close button of a listed notification followed by its timeout
    removes exactly that notification from the list, keeping the others in
    order, and removes its node and nothing else from the container.  The
    badge is left as it was. *)
Theorem dismiss_removes_one :
  forall (evs : list Event) (x : Notification) (l1 l2 : list Notification),
    let m := run evs new in
    timers m = [] ->
    notifications m = l1 ++ x :: l2 ->
    let m' := run [Close x; Timeout] m in
    notifications m' = l1 ++ l2 /\
    ~ In (node x) (container m') /\
    (forall c, c <> node x -> (In c (container m') <-> In c (container m))) /\
    timers m' = [] /\
    counter m' = counter m.
Proof.
  intros evs x l1 l2 m Htm Hl m'.
  destruct (run_page_ok evs new new_page_ok) as [Hok _]. fold m in Hok.
  destruct Hok as (Hnd & _ & Hpage & _ & _).
  assert (Hp : hasParent x m = true).
  { apply hasParent_In, Hpage. rewrite Hl. apply in_or_app. right. left. reflexivity. }
  assert (Hclose : handle (Close x) m = set_timers [x] m).
  { cbn [handle]. unfold removeNotification. rewrite Hp, Htm. reflexivity. }
  subst m'. cbn [run]. rewrite Hclose. cbn [handle timers set_timers].
  match goal with
  | |- context [removeTimeout x ?m0] =>
      destruct (removeTimeout_fields x m0) as (En & Ec & Et & _ & _ & Eb & _)
  end.
  cbn [notifications container timers counter set_timers] in En, Ec, Et, Eb.
  rewrite En, Et, Eb, Hl. rewrite Hl in Hnd.
  split; [apply without_middle, Hnd|]. split; [|split; [|split; reflexivity]].
  - intros Hin. apply Ec in Hin. destruct Hin as [_ Hne]. apply Hne. reflexivity.
  - intros c Hc. rewrite Ec. tauto.
Qed.

Lemma dismiss_removes_one_witness :
  notifications
    (run [Close (nth 1 (notifications (run two_shown new)) first_notification);
          Timeout]
       (run two_shown new))
  = [first_notification] ++ [].
Proof.
  pose proof (dismiss_removes_one two_shown
                (nth 1 (notifications (run two_shown new)) first_notification)
                [first_notification] []) as H.
  cbv zeta in H.
  assert (H1 : timers (run two_shown new) = []) by (vm_compute; reflexivity).
  assert (H2 : notifications (run two_shown new)
               = [first_notification]
                 ++ nth 1 (notifications (run two_shown new)) first_notification
                 :: []) by (vm_compute; reflexivity).
  exact (proj1 (H H1 H2)).
Defined.

(** X13.  An event that cannot be rendered is dropped but counted: for an
    event of a type other than 'ecg', 'piezo' and 'temp', or without a
    [data] object, [showNotification] ends in an exception; the list, the
    container, the pending timeouts and the badge are as before, and
    [totalCount] has grown by one. *)
Theorem unrenderable_event_only_counted :
  forall (e : AnomalyData) (m : Manager),
    (type e <> "ecg" /\ type e <> "piezo" /\ type e <> "temp") \/ data e = None ->
    exists m', showNotification e m = Threw m' /\
               notifications m' = notifications m /\
               container m' = container m /\
               timers m' = timers m /\
               counter m' = counter m /\
               next_node m' = next_node m /\
               totalCount m' = S (totalCount m).
Proof.
  intros e m H.
  assert (Hr : render e = Throws).
  { unfold render. destruct H as [(H1 & H2 & H3) | H].
    - destruct (String.eqb_spec (type e) "ecg"); [contradiction|].
      destruct (String.eqb_spec (type e) "piezo"); [contradiction|].
      destruct (String.eqb_spec (type e) "temp"); [contradiction|].
      reflexivity.
    - rewrite H.
      destruct (String.eqb (type e) "ecg"); [reflexivity|].
      destruct (String.eqb (type e) "piezo"); [reflexivity|].
      destruct (String.eqb (type e) "temp"); reflexivity. }
  unfold showNotification. rewrite Hr. eexists. split; [reflexivity|].
  cbn. repeat split.
Qed.

Lemma unrenderable_event_only_counted_witness :
  exists m', showNotification (mkAnomalyData "ecg" (Num 0) None) new = Threw m' /\
             notifications m' = [] /\ totalCount m' = 1.
Proof.
  destruct (unrenderable_event_only_counted (mkAnomalyData "ecg" (Num 0) None) new)
    as (m' & Hs & Hn & _ & _ & _ & _ & Ht).
  - right. reflexivity.
  - exists m'. split; [exact Hs|]. split; [exact Hn | exact Ht].
Defined.

(** X14.  The sound preference survives a reload: the string that
    [toggleSound] stores makes [init] restore the setting that
    [toggleSound] returned; two toggles restore the original setting.
    Without a stored value the sound is on, and any stored string other
    than "true" turns it off. *)
Theorem sound_preference_round_trip :
  forall (m : Manager),
    soundEnabled (init (Some (snd (toggleSound m))))
      = soundEnabled (fst (toggleSound m)) /\
    soundEnabled (fst (toggleSound m)) = negb (soundEnabled m) /\
    fst (toggleSound (fst (toggleSound m)))
      = set_notifications (notifications m) m /\
    soundEnabled (init None) = true /\
    (forall v, v <> "true" -> soundEnabled (init (Some v)) = false).
Proof.
  intros m. split; [|split; [|split; [|split]]].
  - unfold toggleSound, init. cbn. destruct (soundEnabled m); reflexivity.
  - reflexivity.
  - unfold toggleSound, set_notifications. cbn. rewrite negb_involutive. reflexivity.
  - reflexivity.
  - intros v Hv. cbn. apply String.eqb_neq. exact Hv.
Qed.

Lemma sound_preference_round_trip_witness :
  soundEnabled (init (Some "false")) = false /\
  soundEnabled (init (Some (snd (toggleSound new))))
    = negb (soundEnabled new).
Proof.
  destruct (sound_preference_round_trip new) as (H1 & H2 & _ & _ & H5).
  split.
  - apply H5. discriminate.
  - rewrite H1. exact H2.
Defined.

End NotificationPageProofs.

(* ===================================================================== *)
(** * The simulate-anomaly form *)
(* ===================================================================== *)

Section SimulateForm.

Import Js Simulate.

Local Open Scope Q_scope.

Lemma Qle_bool_false_lt (x y : Q) : Qle_bool x y = false <-> y < x.
Proof.
  split.
  - intros H. apply Qnot_le_lt. intros Hle. apply Qle_bool_iff in Hle. congruence.
  - intros H. destruct (Qle_bool x y) eqn:E; [|reflexivity].
    apply Qle_bool_iff in E. exfalso. exact (Qlt_not_le _ _ H E).
Qed.

(** X15.  The generate button after a validation.  With a type checked and
    a number entered, the button is enabled exactly when the type is
    hypothermia and the temperature is below 35, or the type is
    hyperthermia and the temperature is above 37.5; so a temperature from
    35 to 37.5 disables it for every type.  When no type is checked or the
    field holds no number, the message is cleared and the button is left as
    it was. *)
Theorem validateTemperature_button :
  forall (ty : string) (t : Q) (f : TempForm),
    ty <> "" ->
    (generateDisabled (validateTemperature (Some ty) (Some t) f) = false
     <-> (ty = "hypothermia" /\ t < 35) \/ (ty = "hyperthermia" /\ 75 # 2 < t)) /\
    (35 <= t -> t <= 75 # 2 ->
     generateDisabled (validateTemperature (Some ty) (Some t) f) = true) /\
    (forall missing_type missing_number,
        generateDisabled (validateTemperature None missing_number f)
          = generateDisabled f /\
        generateDisabled (validateTemperature missing_type None f)
          = generateDisabled f /\
        validationText (validateTemperature missing_type None f) = Plain "").
Proof.
  intros ty t f Hty.
  assert (Hiff : generateDisabled (validateTemperature (Some ty) (Some t) f) = false
     <-> (ty = "hypothermia" /\ t < 35) \/ (ty = "hyperthermia" /\ 75 # 2 < t)).
  { unfold validateTemperature.
    destruct (String.eqb_spec ty "") as [E | _]; [contradiction|].
    destruct (String.eqb_spec ty "hypothermia") as [-> | Hhypo].
    - destruct (Qle_bool 35 t) eqn:E; cbn [generateDisabled].
      + split; [discriminate|].
        intros [[_ H] | [H _]]; [|discriminate H].
        apply Qle_bool_iff in E. exfalso. exact (Qlt_not_le _ _ H E).
      + split; [|reflexivity]. intros _. left. split; [reflexivity|].
        apply Qle_bool_false_lt. exact E.
    - destruct (String.eqb_spec ty "hyperthermia") as [-> | Hhyper].
      + destruct (Qle_bool t (75 # 2)) eqn:E; cbn [generateDisabled].
        * split; [discriminate|].
          intros [[H _] | [_ H]]; [discriminate H|].
          apply Qle_bool_iff in E. exfalso. exact (Qlt_not_le _ _ H E).
        * split; [|reflexivity]. intros _. right. split; [reflexivity|].
          apply Qle_bool_false_lt. exact E.
      + cbn [generateDisabled]. split; [discriminate|].
        intros [[H _] | [H _]]; contradiction. }
  split; [exact Hiff|]. split.
  - intros Hlo Hhi. pose proof (proj1 Hiff) as Hi.
    destruct (generateDisabled (validateTemperature (Some ty) (Some t) f));
      [reflexivity|].
    exfalso. destruct (Hi eq_refl) as [[_ H] | [_ H]].
    + exact (Qlt_not_le _ _ H Hlo).
    + exact (Qlt_not_le _ _ H Hhi).
  - intros mt mn. split; [reflexivity|].
    destruct mt; split; reflexivity.
Qed.

Lemma validateTemperature_button_witness :
  let f := mkTempForm (Plain "") "validation-message" None true in
  generateDisabled (validateTemperature (Some "hypothermia") (Some (341 # 10)) f) = false /\
  generateDisabled (validateTemperature (Some "hyperthermia") (Some (365 # 10)) f) = true.
Proof.
  intros f. split.
  - apply (validateTemperature_button "hypothermia" (341 # 10) f); [discriminate|].
    left. split; reflexivity.
  - apply (validateTemperature_button "hyperthermia" (365 # 10) f);
      [discriminate | discriminate | discriminate].
Defined.

Lemma Qden_Qred_integer (z : Z) : Qden (Qred (inject_Z z)) = 1%positive.
Proof.
  pose proof (Qred_correct (inject_Z z)) as E.
  pose proof (gcd_Qred (inject_Z z)) as G.
  destruct (Qred (inject_Z z)) as [n d]. unfold Qeq in E. cbn in *.
  rewrite Z.mul_1_r in E. subst n.
  assert (H : Z.gcd (z * Z.pos d) (Z.pos d) = Z.pos d).
  { rewrite Z.gcd_comm, (Z.mul_comm z). apply Z.gcd_mul_diag_l. lia. }
  rewrite H in G. congruence.
Qed.

Lemma number_text_integer (x : Q) (z : Z) :
  x == inject_Z z -> number_text x = number_text (inject_Z z).
Proof.
  intros E. unfold number_text. rewrite (Qred_complete _ _ E).
  rewrite Qden_Qred_integer. reflexivity.
Qed.

(** X16.  What [generateAnomaly] sends for a temperature anomaly.  A payload
    is built only for a temperature that is a number other than 0 and an
    even number of minutes; it then carries the threshold of its type (35
    for hypothermia, 37.5 otherwise) with the temperature on the anomalous
    side of it, and half the minutes as [duration_readings], which the
    anomaly card prints back as the minutes entered.  Whatever
    [validateTemperature] accepts is accepted here too, except 0, which
    the validation accepts for hypothermia and this check rejects as
    missing. *)
Theorem tempPayload_checked :
  forall (ty : string) (temperature : option Q) (durationMinutes : option Z)
         (sev : string),
    (forall p, tempPayload ty temperature durationMinutes sev = Payload p ->
       exists t minutes,
         temperature = Some t /\ durationMinutes = Some minutes /\
         ~ t == 0 /\ Z.rem minutes 2 = 0%Z /\
         Simulate.temperature p = t /\
         (ty = "hypothermia" -> threshold p = 35 /\ t < 35) /\
         (ty = "hyperthermia" -> threshold p = 75 # 2 /\ 75 # 2 < t) /\
         duration_readings p * 2 == inject_Z minutes /\
         Anomalies.duration_text (Num (duration_readings p))
           = number_text (inject_Z minutes)) /\
    (forall t minutes f,
       temperature = Some t -> durationMinutes = Some minutes ->
       generateDisabled (validateTemperature (Some ty) temperature f) = false ->
       ~ t == 0 -> Z.rem minutes 2 = 0%Z ->
       exists p, tempPayload ty temperature durationMinutes sev = Payload p) /\
    (forall f,
       generateDisabled (validateTemperature (Some "hypothermia") (Some 0) f) = false /\
       tempPayload "hypothermia" (Some 0) durationMinutes sev
         = Error "Temperatura richiesta").
Proof.
  intros ty temperature durationMinutes sev. split; [|split].
  - intros p Hp. unfold tempPayload in Hp.
    destruct temperature as [t |]; [|discriminate].
    destruct (Qeq_bool t 0) eqn:E0; [discriminate|].
    destruct (String.eqb ty "hypothermia" && Qle_bool 35 t)%bool eqn:E1; [discriminate|].
    destruct (String.eqb ty "hyperthermia" && Qle_bool t (75 # 2))%bool eqn:E2; [discriminate|].
    destruct durationMinutes as [minutes |]; [|discriminate].
    destruct (Z.eqb_spec (Z.rem minutes 2) 0) as [Em | Em]; [|discriminate].
    cbn [negb] in Hp. injection Hp as <-.
    exists t, minutes. cbn [Simulate.temperature threshold duration_readings].
    assert (Ed : inject_Z minutes / 2 * 2 == inject_Z minutes) by field.
    split; [reflexivity|]. split; [reflexivity|]. split.
    { intros H. apply Qeq_bool_iff in H. congruence. }
    split; [exact Em|]. split; [reflexivity|]. split; [|split; [|split]].
    + intros ->. cbn [String.eqb Ascii.eqb Bool.eqb andb] in E1 |- *.
      split; [reflexivity|]. apply Qle_bool_false_lt. exact E1.
    + intros ->. cbn [String.eqb Ascii.eqb Bool.eqb andb] in E2 |- *.
      split; [reflexivity|]. apply Qle_bool_false_lt. exact E2.
    + exact Ed.
    + unfold Anomalies.duration_text. apply number_text_integer. exact Ed.
  - intros t minutes f -> -> Hv Hz Hm.
    assert (Hok : (ty = "hypothermia" /\ t < 35) \/ (ty = "hyperthermia" /\ 75 # 2 < t)
                  \/ (ty <> "hypothermia" /\ ty <> "hyperthermia")).
    { destruct (String.eqb_spec ty "") as [-> | Hne].
      - right. right. split; discriminate.
      - apply (validateTemperature_button ty t f Hne) in Hv. tauto. }
    clear Hv.
    unfold tempPayload.
    assert (E0 : Qeq_bool t 0 = false).
    { destruct (Qeq_bool t 0) eqn:E; [|reflexivity].
      apply Qeq_bool_iff in E. contradiction. }
    rewrite E0.
    destruct Hok as [[-> Hlt] | [[-> Hlt] | [H1 H2]]].
    + cbn [String.eqb Ascii.eqb Bool.eqb andb].
      rewrite (proj2 (Qle_bool_false_lt _ _) Hlt), Hm. cbn [Z.eqb negb]. eauto.
    + cbn [String.eqb Ascii.eqb Bool.eqb andb].
      rewrite (proj2 (Qle_bool_false_lt _ _) Hlt), Hm. cbn [Z.eqb negb]. eauto.
    + destruct (String.eqb_spec ty "hypothermia"); [contradiction|].
      destruct (String.eqb_spec ty "hyperthermia"); [contradiction|].
      cbn [andb]. rewrite Hm. cbn [Z.eqb negb]. eauto.
  - intros f. split; reflexivity.
Qed.

Lemma tempPayload_checked_witness :
  exists p, tempPayload "hyperthermia" (Some (391 # 10)) (Some 6%Z) "auto" = Payload p /\
            duration_readings p * 2 == inject_Z 6.
Proof.
  destruct (tempPayload_checked "hyperthermia" (Some (391 # 10)) (Some 6%Z) "auto")
    as (Hsound & Hcomplete & _).
  destruct (Hcomplete (391 # 10) 6%Z (mkTempForm (Plain "") "" None true))
    as (p & Hp); try reflexivity; try discriminate.
  exists p. split; [exact Hp|].
  destruct (Hsound p Hp) as (t & minutes & _ & Hm & _ & _ & _ & _ & _ & Hd & _).
  injection Hm as <-. exact Hd.
Defined.

End SimulateForm.

(* ===================================================================== *)
(** * The connection error notification *)
(* ===================================================================== *)

Section ConnectionError.

Import DeviceStatus.

Local Open Scope nat_scope.
Local Open Scope list_scope.

Ltac flag_goals :=
  repeat split; try assumption; try (intros; congruence); try (cbn; lia);
  try (let k := fresh "k" in let Hk := fresh "Hk" in
       intros k Hk _; injection Hk as <-;
       apply in_or_app; right; left; reflexivity).

Lemma updateDeviceStatus_ok (connected : bool) (s : State) :
  flags_ok s -> flags_ok (updateDeviceStatus connected s).
Proof.
  intros (H1 & H2 & H3 & H4). unfold updateDeviceStatus, flags_ok.
  destruct connected.
  - cbn [connectionErrorShown set_badgeText].
    destruct (connectionErrorShown s) eqn:Es.
    + unfold removeConnectionErrorNotification.
      cbn [errorNode set_badgeText].
      destruct (errorNode s) as [n |] eqn:En; cbn; flag_goals.
    + cbn. rewrite Es. flag_goals.
      all: try (intros n Hn _; apply H4; [exact Hn | reflexivity]).
  - cbn [connectionErrorShown connectionErrorCooldown set_badgeText].
    destruct (connectionErrorShown s) eqn:Es; cbn [negb andb].
    + cbn. rewrite Es. flag_goals.
    + destruct (connectionErrorCooldown s) eqn:Ec; cbn [negb andb].
      * cbn. rewrite Es, Ec. flag_goals.
        all: try (intros n Hn _; apply H4; [exact Hn | reflexivity]).
      * unfold showConnectionErrorNotification. cbn [errorNode set_badgeText].
        destruct (errorNode s) as [n |]; cbn; rewrite ?Ec; flag_goals.
Qed.

Lemma closeConnectionError_ok (s : State) :
  flags_ok s -> flags_ok (closeConnectionError s).
Proof.
  intros (H1 & H2 & H3 & H4).
  unfold closeConnectionError, removeConnectionErrorNotification, flags_ok.
  cbn [errorNode set_flags].
  destruct (errorNode s) as [n |] eqn:En; cbn; flag_goals.
Qed.

Lemma removalTimeout_ok (s : State) :
  flags_ok s -> flags_ok (handle RemovalTimeout s).
Proof.
  intros Hok. cbn [handle].
  destruct (removals s) as [| n rest] eqn:Er; [exact Hok|].
  destruct Hok as (H1 & H2 & H3 & H4). rewrite Er in H4.
  unfold removalTimeout, flags_ok. cbn [errorNode].
  destruct (errorNode s) as [k |] eqn:En.
  - destruct (Nat.eqb_spec k n) as [-> | Hne]; cbn.
    + flag_goals.
    + flag_goals.
      all: try (intros j Hj Hs; injection Hj as <-;
                destruct (H4 k eq_refl Hs) as [E | Hin]; [congruence | exact Hin]).
  - cbn. flag_goals.
Qed.

Lemma cooldownTimeout_ok (s : State) :
  flags_ok s -> flags_ok (handle CooldownTimeout s).
Proof.
  intros Hok. cbn [handle].
  destruct (cooldowns s) as [| k] eqn:Ek; [exact Hok|].
  destruct Hok as (H1 & H2 & H3 & H4).
  unfold cooldownTimeout, flags_ok.
  cbn [badgeText connectionErrorShown connectionErrorCooldown set_flags].
  destruct (includes "Disconnected" (badgeText s)) eqn:Ei; cbn [andb].
  - destruct (connectionErrorShown s) eqn:Es; cbn [negb].
    + cbn. rewrite ?Es, ?Ei. flag_goals. all: try (intros; lia).
    + unfold showConnectionErrorNotification. cbn [errorNode set_flags].
      destruct (errorNode s) as [n |]; cbn; rewrite ?Ei; flag_goals.
      all: try (intros; lia).
  - cbn. rewrite ?Ei. flag_goals.
    all: try (intros; lia).
    all: try (intros Hs; rewrite (H2 Hs) in Ei; discriminate).
Qed.

Lemma handle_flags_ok (ev : Event) (s : State) :
  flags_ok s -> flags_ok (handle ev s).
Proof.
  intros Hok. destruct ev as [c | c | | |].
  - cbn [handle]. apply updateDeviceStatus_ok. exact Hok.
  - apply updateDeviceStatus_ok, Hok.
  - apply closeConnectionError_ok, Hok.
  - apply removalTimeout_ok, Hok.
  - apply cooldownTimeout_ok, Hok.
Qed.

Lemma run_flags_ok (evs : list Event) :
  forall s, flags_ok s -> flags_ok (run evs s).
Proof.
  induction evs as [| ev evs IH]; intros s H; cbn [run]; [exact H|].
  apply IH, handle_flags_ok, H.
Qed.

Lemma initial_flags_ok (text : string) : flags_ok (initial text).
Proof. unfold flags_ok. cbn. repeat split; discriminate. Qed.

(** X17.  The flags of the connection error over every run of status
    events, close clicks and timeouts, whatever the badge shows at the
    start: "shown" and "cooldown" are never both on; the error is flagged
    as shown only while the badge reads Disconnected; while the cooldown is
    on, its timeout is pending, so it ends; and an error element that is
    still in the page after it was dismissed or after a reconnect has its
    removal pending. *)
Theorem connection_error_flags :
  forall (text : string) (evs : list Event),
    let s := run evs (initial text) in
    (connectionErrorShown s = true -> connectionErrorCooldown s = false) /\
    (connectionErrorShown s = true -> includes "Disconnected" (badgeText s) = true) /\
    (connectionErrorCooldown s = true -> 0 < cooldowns s) /\
    (forall n, errorNode s = Some n -> connectionErrorShown s = false ->
               In n (removals s)).
Proof.
  intros text evs. exact (run_flags_ok evs (initial text) (initial_flags_ok text)).
Qed.

Lemma connection_error_flags_witness :
  let s := run [PollStatus false; CloseError; PollStatus false] (initial "Idle") in
  connectionErrorCooldown s = true /\ connectionErrorShown s = false /\
  In 0 (removals s).
Proof.
  intros s.
  destruct (connection_error_flags "Idle" [PollStatus false; CloseError; PollStatus false])
    as (_ & _ & _ & H4).
  split; [reflexivity|]. split; [reflexivity|].
  apply H4; reflexivity.
Defined.

Lemma connection_error_shown_off (text : string) (evs : list Event) :
  connectionErrorCooldown (run evs (initial text)) = true ->
  connectionErrorShown (run evs (initial text)) = false.
Proof.
  intros Hc.
  destruct (run_flags_ok evs (initial text) (initial_flags_ok text)) as (H1 & _).
  destruct (connectionErrorShown (run evs (initial text))); [|reflexivity].
  rewrite (H1 eq_refl) in Hc. discriminate.
Qed.

Lemma connection_error_flags_at (text : string) (evs : list Event) :
  flags_ok (run evs (initial text)).
Proof. exact (run_flags_ok evs (initial text) (initial_flags_ok text)). Qed.

Lemma disconnected_while_quiet (k : nat) :
  forall s,
    (connectionErrorShown s = true \/ connectionErrorCooldown s = true) ->
    let s' := run (repeat (PollStatus false) k) s in
    connectionErrorShown s' = connectionErrorShown s /\
    connectionErrorCooldown s' = connectionErrorCooldown s /\
    errorNode s' = errorNode s /\ removals s' = removals s /\
    cooldowns s' = cooldowns s.
Proof.
  induction k as [| k IH]; intros s Hs; cbn [repeat run].
  - repeat split.
  - assert (E : handle (PollStatus false) s = set_badgeText "Disconnected" s).
    { cbn [handle]. unfold updateDeviceStatus.
      cbn [connectionErrorShown connectionErrorCooldown set_badgeText].
      destruct Hs as [-> | ->]; [reflexivity|].
      rewrite andb_false_r. reflexivity. }
    rewrite E. destruct (IH (set_badgeText "Disconnected" s) Hs) as (A & B & C & D & F).
    cbv zeta in *. rewrite A, B, C, D, F. repeat split.
Qed.

(** X18.  After the user has closed the connection error, disconnected
    statuses do not bring it back while the cooldown lasts: however many
    arrive, the error stays unflagged, the cooldown stays on, and no
    element is added to the page.  A connected status ends the cooldown and
    clears the flag, and the disconnected status after it flags the error
    again at once. *)
Theorem cooldown_suppresses_error :
  forall (text : string) (evs : list Event) (k : nat),
    let s := run evs (initial text) in
    connectionErrorCooldown s = true ->
    let s' := run (repeat (PollStatus false) k) s in
    (connectionErrorShown s' = false /\ connectionErrorCooldown s' = true /\
     errorNode s' = errorNode s) /\
    (connectionErrorShown (handle (PollStatus true) s') = false /\
     connectionErrorCooldown (handle (PollStatus true) s') = false) /\
    connectionErrorShown (run [PollStatus true; PollStatus false] s') = true.
Proof.
  intros text evs k s Hc s'.
  pose proof (connection_error_shown_off text evs Hc) as Hs. fold s in Hs.
  destruct (disconnected_while_quiet k s (or_intror Hc)) as (A & B & C & _).
  fold s' in A, B, C. rewrite Hs in A. rewrite Hc in B.
  split; [repeat split; assumption|].
  assert (E : connectionErrorShown (handle (PollStatus true) s') = false /\
              connectionErrorCooldown (handle (PollStatus true) s') = false).
  { cbn [handle]. unfold updateDeviceStatus.
    cbn [connectionErrorShown set_badgeText]. rewrite A. cbn.
    split; first [exact A | reflexivity]. }
  split; [exact E|].
  cbn [run]. destruct E as [E1 E2].
  set (s1 := handle (PollStatus true) s') in *.
  cbn [handle]. unfold updateDeviceStatus.
  cbn [connectionErrorShown connectionErrorCooldown set_badgeText].
  rewrite E1, E2. cbn [negb andb].
  unfold showConnectionErrorNotification. cbn [errorNode set_badgeText].
  destruct (errorNode s1); reflexivity.
Qed.

Lemma cooldown_suppresses_error_witness :
  let s := run [PollStatus false; CloseError] (initial "Idle") in
  let s' := run (repeat (PollStatus false) 3) s in
  connectionErrorShown s' = false /\ connectionErrorCooldown s' = true /\
  errorNode s' = errorNode s.
Proof.
  intros s s'.
  apply (cooldown_suppresses_error "Idle" [PollStatus false; CloseError] 3).
  reflexivity.
Defined.

Lemma reshown_fields (s : State) (n : nat) :
  connectionErrorShown s = true -> errorNode s = Some n -> removals s = [] ->
  connectionErrorShown (run [PollStatus true; PollStatus false; RemovalTimeout] s)
    = true /\
  errorNode (run [PollStatus true; PollStatus false; RemovalTimeout] s) = None.
Proof.
  destruct s as [dc sh cd bt en rm cs nx]. cbn. intros -> -> ->.
  cbn. rewrite Nat.eqb_refl. split; reflexivity.
Qed.

(** X19.  A disconnect that follows a reconnect before the 300 ms removal
    timeout has run finds the old error element still in the page: no new
    element is made and the error is flagged as shown.  When the timeout
    then runs, the element is removed, and from then on the error is
    flagged as shown without being in the page; further disconnected
    statuses do not put it back. *)
Theorem error_lost_when_reshown_while_closing :
  forall (text : string) (evs : list Event) (n k : nat),
    let s := run evs (initial text) in
    connectionErrorShown s = true -> errorNode s = Some n -> removals s = [] ->
    let s' := run [PollStatus true; PollStatus false; RemovalTimeout] s in
    connectionErrorShown s' = true /\ errorNode s' = None /\
    connectionErrorShown (run (repeat (PollStatus false) k) s') = true /\
    errorNode (run (repeat (PollStatus false) k) s') = None.
Proof.
  intros text evs n k s Hs Hn Hr s'.
  destruct (connection_error_flags_at text evs) as (H1 & _). fold s in H1.
  pose proof (H1 Hs) as Hc.
  assert (E : connectionErrorShown s' = true /\ errorNode s' = None).
  { subst s'. apply (reshown_fields s n); assumption. }
  destruct E as [E1 E2]. split; [exact E1|]. split; [exact E2|].
  destruct (disconnected_while_quiet k s' (or_introl E1)) as (A & _ & C & _).
  cbv zeta in A, C. rewrite A, C. split; assumption.
Qed.

Lemma error_lost_when_reshown_while_closing_witness :
  let s := run [PollStatus false] (initial "Idle") in
  let s' := run [PollStatus true; PollStatus false; RemovalTimeout] s in
  connectionErrorShown s' = true /\ errorNode s' = None /\
  connectionErrorShown (run (repeat (PollStatus false) 2) s') = true /\
  errorNode (run (repeat (PollStatus false) 2) s') = None.
Proof.
  intros s s'.
  apply (error_lost_when_reshown_while_closing "Idle" [PollStatus false] 0 2);
    reflexivity.
Defined.

End ConnectionError.

(* ===================================================================== *)
(** * The debug console *)
(* ===================================================================== *)

Section DebugConsole.

Import Js DebugLog.

Local Open Scope nat_scope.
Local Open Scope list_scope.

Lemma updateDebugLogCount_fields (s : State) :
  debugLogs (updateDebugLogCount s) = debugLogs s /\
  filterCategory (updateDebugLogCount s) = filterCategory s /\
  filterLevel (updateDebugLogCount s) = filterLevel s /\
  consoleLines (updateDebugLogCount s) = consoleLines s /\
  listeners (updateDebugLogCount s) = listeners s /\
  countLabel (updateDebugLogCount s)
    = match countLabel s with
      | Some _ => Some (count_text (List.length (debugLogs s)))
      | None => None
      end.
Proof.
  unfold updateDebugLogCount. destruct (countLabel s) eqn:E; cbn; rewrite ?E;
    repeat split.
Qed.

Lemma passes_filters (s s' : State) (e : LogEntry) :
  filterCategory s' = filterCategory s -> filterLevel s' = filterLevel s ->
  passes s' e = passes s e.
Proof. intros Hc Hl. unfold passes. rewrite Hc, Hl. reflexivity. Qed.

(** One call of [addDebugLogToConsole] on a page with the console. *)
Lemma addDebugLogToConsole_fields (e : LogEntry) (s : State) (lines : list Line) :
  consoleLines s = Some lines ->
  let s' := addDebugLogToConsole e s in
  filterCategory s' = filterCategory s /\ filterLevel s' = filterLevel s /\
  listeners s' = listeners s /\
  debugLogs s' = debugLogs s ++ (if passes s e then [e] else []) /\
  consoleLines s' = Some (lines ++ (if passes s e then [line_of e] else [])) /\
  (countLabel s' = None <-> countLabel s = None).
Proof.
  intros Hl. unfold addDebugLogToConsole. rewrite Hl.
  destruct (passes s e); cbn [negb].
  - match goal with
    | |- context [updateDebugLogCount ?x] =>
        destruct (updateDebugLogCount_fields x) as (A & B & C & D & E & F)
    end.
    cbv zeta. rewrite A, B, C, D, E, F. cbn.
    repeat split; try discriminate; destruct (countLabel s); congruence.
  - cbv zeta. rewrite !app_nil_r. repeat split; trivial.
Qed.

(** A run of calls over the entries [l]. *)
Lemma add_all_fields (l : list LogEntry) :
  forall (s : State) (lines : list Line),
    consoleLines s = Some lines ->
    let s' := fold_left (fun st log => addDebugLogToConsole log st) l s in
    filterCategory s' = filterCategory s /\ filterLevel s' = filterLevel s /\
    listeners s' = listeners s /\
    debugLogs s' = debugLogs s ++ filter (passes s) l /\
    consoleLines s' = Some (lines ++ map line_of (filter (passes s) l)) /\
    (countLabel s' = None <-> countLabel s = None).
Proof.
  induction l as [| e l IH]; intros s lines Hl; cbn [fold_left filter map].
  - rewrite !app_nil_r. repeat split; trivial.
  - destruct (addDebugLogToConsole_fields e s lines Hl) as (A & B & C & D & E & F).
    cbv zeta in *.
    destruct (IH (addDebugLogToConsole e s) _ E) as (A' & B' & C' & D' & E' & F').
    cbv zeta in *.
    rewrite A', B', C', D', E', A, B, C, D.
    assert (Hp : forall x, passes (addDebugLogToConsole e s) x = passes s x)
      by (intros x; apply passes_filters; assumption).
    rewrite (filter_ext _ _ Hp).
    destruct (passes s e); cbn [map app]; rewrite <- !app_assoc; cbn [app];
      repeat split; try tauto.
Qed.

(** X20.  Loading the logs counts every shown entry twice.  On a page with
    the console, a successful load of the entries [L] shows one line for
    each entry of [L] that passes the filters, in order, and nothing else;
    but since rendering appends each shown entry to [debugLogs] again,
    [debugLogs] ends as [L] followed by the passing entries, and the entry
    count shown is the length of [L] plus the number of lines.  A failed
    fetch or an unsuccessful answer changes nothing. *)
Theorem load_counts_shown_entries_twice :
  forall (L : list LogEntry) (s : State) (old : list Line),
    consoleLines s = Some old ->
    let s' := loadDebugLogs (Some (mkLogsResponse true L)) s in
    let shown := filter (passes s) L in
    consoleLines s' = Some (map line_of shown) /\
    debugLogs s' = L ++ shown /\
    (countLabel s <> None ->
     countLabel s' = Some (count_text (List.length L + List.length shown))) /\
    loadDebugLogs None s = s /\
    loadDebugLogs (Some (mkLogsResponse false L)) s = s.
Proof.
  intros L s old Hl s' shown. subst s'.
  unfold loadDebugLogs, renderDebugLogs.
  cbn [success logs consoleLines debugLogs filterCategory filterLevel countLabel
       listeners].
  rewrite Hl.
  match goal with
  | |- context [fold_left ?f L ?s0] =>
      destruct (add_all_fields L s0 [] eq_refl) as (A & B & C & D & E & F);
      set (s1 := fold_left f L s0) in *
  end.
  cbv zeta in *.
  cbn [debugLogs consoleLines filterCategory filterLevel countLabel app] in A, B, D, E, F.
  destruct (updateDebugLogCount_fields s1) as (A1 & _ & _ & D1 & _ & F1).
  assert (Hp : forall x,
             passes {| debugLogs := L; filterCategory := filterCategory s;
                       filterLevel := filterLevel s; consoleLines := Some [];
                       countLabel := countLabel s; listeners := listeners s |} x
             = passes s x) by (intros x; apply passes_filters; reflexivity).
  rewrite (filter_ext _ _ Hp) in D, E. fold shown in D, E.
  rewrite D1, A1, E, D.
  split; [reflexivity|]. split; [reflexivity|]. split; [|split; reflexivity].
  intros Hc. rewrite F1.
  destruct (countLabel s1) eqn:Ec.
  - rewrite D, length_app. reflexivity.
  - exfalso. apply Hc, F. reflexivity.
Qed.

Lemma load_counts_shown_entries_twice_witness :
  let L := [ mkLogEntry (Str "2025-01-15T10:30:00") "Dashboard" "INFO" "started";
             mkLogEntry (Str "2025-01-15T10:30:05") "Serial Port" "ERROR" "timeout" ] in
  let s' := loadDebugLogs (Some (mkLogsResponse true L)) initial in
  option_map (@List.length Line) (consoleLines s') = Some 2 /\
  List.length (debugLogs s') = 4 /\
  countLabel s' = Some "(4 entries)".
Proof.
  intros L s'.
  destruct (load_counts_shown_entries_twice L initial [] eq_refl)
    as (Hlines & Hlogs & Hcount & _).
  fold s' in Hlines, Hlogs, Hcount.
  rewrite Hlines, Hlogs, Hcount; [|discriminate].
  repeat split.
Defined.

Lemma listeners_fields (e : LogEntry) (k : nat) :
  forall (s : State) (lines : list Line),
    consoleLines s = Some lines ->
    let s' := fold_left (fun st _ => addDebugLogToConsole e st) (repeat tt k) s in
    filterCategory s' = filterCategory s /\ filterLevel s' = filterLevel s /\
    listeners s' = listeners s /\
    debugLogs s' = debugLogs s ++ (if passes s e then repeat e k else []) /\
    consoleLines s'
      = Some (lines ++ (if passes s e then repeat (line_of e) k else [])).
Proof.
  induction k as [| k IH]; intros s lines Hl; cbn [repeat fold_left].
  - destruct (passes s e); rewrite !app_nil_r; repeat split; trivial.
  - destruct (addDebugLogToConsole_fields e s lines Hl) as (A & B & C & D & E & _).
    cbv zeta in *.
    destruct (IH (addDebugLogToConsole e s) _ E) as (A' & B' & C' & D' & E').
    cbv zeta in *.
    rewrite A', B', C', D', E', A, B, C, D.
    rewrite (passes_filters s (addDebugLogToConsole e s) e A B).
    destruct (passes s e); cbn [app]; rewrite <- ?app_assoc; cbn [app];
      repeat split.
Qed.

(** X21.  Every visit of the debug view adds a [system_log] listener, and a
    live entry is added once per listener: after [k] visits an entry that
    passes the filters appears as [k] lines and [k] entries of [debugLogs],
    and one that does not pass leaves lines and entries as they are. *)
Theorem live_entry_added_once_per_visit :
  forall (e : LogEntry) (k : nat) (s : State) (lines : list Line),
    consoleLines s = Some lines -> listeners s = 0 ->
    let visited := Nat.iter k showDebugMode s in
    let s' := system_log e visited in
    (passes s e = true ->
     debugLogs s' = debugLogs s ++ repeat e k /\
     consoleLines s' = Some (lines ++ repeat (line_of e) k)) /\
    (passes s e = false ->
     debugLogs s' = debugLogs s /\ consoleLines s' = Some lines).
Proof.
  intros e k s lines Hl Hz visited s'.
  assert (Hv : debugLogs visited = debugLogs s /\
               filterCategory visited = filterCategory s /\
               filterLevel visited = filterLevel s /\
               consoleLines visited = consoleLines s /\
               listeners visited = k + listeners s).
  { unfold visited. clear s' visited. induction k as [| k IH].
    - repeat split.
    - destruct IH as (A & B & C & D & E).
      change (Nat.iter (S k) showDebugMode s)
        with (showDebugMode (Nat.iter k showDebugMode s)).
      set (x := Nat.iter k showDebugMode s) in *.
      unfold showDebugMode.
      cbn [debugLogs filterCategory filterLevel consoleLines listeners].
      split; [exact A|]. split; [exact B|]. split; [exact C|].
      split; [exact D|]. rewrite E. reflexivity. }
  destruct Hv as (A & B & C & D & E). rewrite Hz, Nat.add_0_r in E.
  assert (Hl' : consoleLines visited = Some lines) by congruence.
  destruct (listeners_fields e k visited lines Hl') as (_ & _ & _ & D' & E').
  cbv zeta in D', E'. unfold s', system_log. rewrite E, D', E', A.
  rewrite (passes_filters s visited e B C).
  split; intros ->; rewrite ?app_nil_r; split; reflexivity.
Qed.

Lemma live_entry_added_once_per_visit_witness :
  let e := mkLogEntry (Str "2025-01-15T10:30:00") "Dashboard" "INFO" "started" in
  debugLogs (system_log e (Nat.iter 3 showDebugMode initial)) = [] ++ repeat e 3.
Proof.
  intros e.
  destruct (live_entry_added_once_per_visit e 3 initial [] eq_refl eq_refl)
    as [Hpass _].
  apply Hpass. reflexivity.
Defined.

End DebugConsole.

(* ===================================================================== *)
(** * The list of anomaly cards *)
(* ===================================================================== *)

Section AnomalyCards.

Import Js Anomalies AnomalyList.

Local Open Scope list_scope.

Variable timeValue : Value -> option Z.

Lemma insert_perm (x : Anomaly) (l : list Anomaly) :
  Permutation (insert timeValue x l) (x :: l).
Proof.
  induction l as [|y l IH]; cbn [insert].
  - apply Permutation_refl.
  - destruct (0 <? compareFn timeValue y x).
    + apply Permutation_refl.
    + eapply Permutation_trans; [apply perm_skip; exact IH|apply perm_swap].
Qed.

Lemma sort_from_perm (l acc : list Anomaly) :
  Permutation (fold_left (fun sorted x => insert timeValue x sorted) l acc)
              (acc ++ l).
Proof.
  revert acc. induction l as [|x l IH]; intros acc; cbn [fold_left].
  - rewrite app_nil_r. apply Permutation_refl.
  - eapply Permutation_trans; [apply IH|].
    eapply Permutation_trans;
      [apply Permutation_app_tail; apply insert_perm|].
    cbn [app]. apply Permutation_middle.
Qed.

Lemma sort_perm (l : list Anomaly) : Permutation (sort timeValue l) l.
Proof. unfold sort. apply (sort_from_perm l []). Qed.

Lemma insert_dated (x : Anomaly) (l : list Anomaly) :
  timeValue (timestamp x) <> None ->
  Forall (fun a => timeValue (timestamp a) <> None) l ->
  Forall (fun a => timeValue (timestamp a) <> None) (insert timeValue x l).
Proof.
  intros Hx Hl.
  eapply Permutation_Forall;
    [apply Permutation_sym; apply insert_perm|].
  constructor; assumption.
Qed.

Lemma insert_sorted (x : Anomaly) (l : list Anomaly) :
  timeValue (timestamp x) <> None ->
  Forall (fun a => timeValue (timestamp a) <> None) l ->
  Sorted (newer_or_equal timeValue) l ->
  Sorted (newer_or_equal timeValue) (insert timeValue x l).
Proof.
  intros Hx Hl Hs. induction l as [|y l IH]; cbn [insert].
  - repeat constructor.
  - inversion Hl as [|? ? Hy Hl']; subst.
    inversion Hs as [|? ? Hs' Hhd]; subst.
    assert (Hcmp : (0 <? compareFn timeValue y x) = true
                   -> newer_or_equal timeValue x y).
    { unfold compareFn, newer_or_equal.
      destruct (timeValue (timestamp x)) as [tx|]; [|congruence].
      destruct (timeValue (timestamp y)) as [ty|]; [|congruence].
      intros H. apply Z.ltb_lt in H. lia. }
    assert (Hcmp' : (0 <? compareFn timeValue y x) = false
                    -> newer_or_equal timeValue y x).
    { unfold compareFn, newer_or_equal.
      destruct (timeValue (timestamp x)) as [tx|]; [|congruence].
      destruct (timeValue (timestamp y)) as [ty|]; [|congruence].
      intros H. apply Z.ltb_ge in H. lia. }
    destruct (0 <? compareFn timeValue y x) eqn:E.
    + constructor; [exact Hs|]. constructor. apply Hcmp. reflexivity.
    + constructor; [apply IH; assumption|].
      destruct l as [|z l]; cbn [insert].
      * constructor. apply Hcmp'. reflexivity.
      * destruct (0 <? compareFn timeValue z x).
        -- constructor. apply Hcmp'. reflexivity.
        -- inversion Hhd; subst. constructor. assumption.
Qed.

Lemma sort_from_sorted (l acc : list Anomaly) :
  Forall (fun a => timeValue (timestamp a) <> None) l ->
  Forall (fun a => timeValue (timestamp a) <> None) acc ->
  Sorted (newer_or_equal timeValue) acc ->
  Sorted (newer_or_equal timeValue)
    (fold_left (fun sorted x => insert timeValue x sorted) l acc).
Proof.
  revert acc. induction l as [|x l IH]; intros acc Hl Ha Hs; cbn [fold_left].
  - exact Hs.
  - inversion Hl; subst. apply IH.
    + assumption.
    + apply insert_dated; assumption.
    + apply insert_sorted; assumption.
Qed.

Lemma createAnomalyCard_header (a : Anomaly) (index : nat) (card : Card) :
  createAnomalyCard a index = Normal card -> header_type card = type a.
Proof.
  unfold createAnomalyCard.
  destruct (if String.eqb (type a) "ECG" then _ else _) as [color class].
  destruct (if String.eqb (type a) "TEMP" then _ else _) as [ms|];
    cbn [bind]; [|discriminate].
  intros H. injection H as <-. reflexivity.
Qed.

Lemma appendCards_completes (l : list Anomaly) (index : nat) :
  Forall (fun a => RenderSpec.missing_or_text (severity a) = true) l ->
  exists cards, appendCards index l = (cards, true)
                /\ map header_type cards = map type l.
Proof.
  revert index. induction l as [|a l IH]; intros index Hl; cbn [appendCards].
  - exists []. split; reflexivity.
  - inversion Hl as [|? ? Ha Hl']; subst.
    destruct (createAnomalyCard_completes a index Ha) as (card & Ec).
    rewrite Ec. destruct (IH (S index) Hl') as (cards & E & Hh). rewrite E.
    exists (card :: cards). split; [reflexivity|].
    cbn [map]. rewrite Hh, (createAnomalyCard_header _ _ _ Ec). reflexivity.
Qed.

Lemma combined_well_formed (filter : string) (data : AnomaliesData) :
  Forall (well_formed timeValue) (ecg data ++ piezo data ++ temp data) ->
  Forall (well_formed timeValue) (combined filter data).
Proof.
  intros H. apply Forall_app in H. destruct H as (He & H).
  apply Forall_app in H. destruct H as (Hp & Ht).
  assert (Hmap : forall t l, Forall (well_formed timeValue) l ->
                 Forall (well_formed timeValue) (map (tagged t) l)).
  { intros t l Hl. apply Forall_map. eapply Forall_impl; [|exact Hl].
    intros a Ha. exact Ha. }
  unfold combined.
  apply Forall_app; split; [|apply Forall_app; split];
    match goal with
    | |- Forall _ (if ?b then _ else _) => destruct b; [apply Hmap; assumption|constructor]
    end.
Qed.

Lemma combined_types (filter : string) (data : AnomaliesData) :
  filter <> "all" ->
  Forall (fun a => type a = upper filter) (combined filter data).
Proof.
  intros Hall. unfold combined.
  apply String.eqb_neq in Hall. rewrite Hall. cbn [orb].
  assert (Hmap : forall t l, t = upper filter ->
                 Forall (fun a => type a = upper filter) (map (tagged t) l)).
  { intros t l ->. apply Forall_map. apply Forall_forall. intros; reflexivity. }
  apply Forall_app; split; [|apply Forall_app; split];
    match goal with
    | |- Forall _ (if String.eqb filter ?k then _ else _) =>
        destruct (String.eqb_spec filter k) as [->|];
          [apply Hmap; reflexivity|constructor]
    end.
Qed.

Lemma combined_unknown_filter (filter : string) (data : AnomaliesData) :
  filter <> "all" -> filter <> "ecg" -> filter <> "piezo" -> filter <> "temp" ->
  combined filter data = [].
Proof.
  intros H1 H2 H3 H4. unfold combined.
  apply String.eqb_neq in H1, H2, H3, H4. rewrite H1, H2, H3, H4.
  reflexivity.
Qed.

(** X22.  The anomaly list shows the filtered anomalies, newest first.  When
    every stored anomaly has a valid time stamp and a severity that is
    absent or a string, [renderAnomaliesList] appends one card per anomaly
    that the current filter selects (all of them, none lost or repeated), in
    an order in which no card is older than the next one, each card headed
    by the type set for its list.  Under a filter other than ['all'] every
    card is headed by the filter's name in upper case, and with nothing
    selected the list holds the empty-state text and no card. *)
Theorem anomalies_listed_newest_first
    (currentAnomalyFilter : string) (data : AnomaliesData) :
  Forall (well_formed timeValue) (ecg data ++ piezo data ++ temp data) ->
  let shown := sort timeValue (combined currentAnomalyFilter data) in
  Permutation shown (combined currentAnomalyFilter data) /\
  Sorted (newer_or_equal timeValue) shown /\
  (currentAnomalyFilter <> "all" ->
   Forall (fun a => type a = upper currentAnomalyFilter) shown) /\
  (shown = [] ->
   renderAnomaliesList timeValue currentAnomalyFilter data = EmptyState) /\
  (shown <> [] ->
   exists cards,
     renderAnomaliesList timeValue currentAnomalyFilter data = Cards cards true
     /\ map header_type cards = map type shown).
Proof.
  intros Hwf shown.
  pose proof (combined_well_formed currentAnomalyFilter _ Hwf) as Hc.
  pose proof (sort_perm (combined currentAnomalyFilter data)) as Hperm.
  fold shown in Hperm.
  split; [exact Hperm|].
  split.
  { unfold shown, sort. apply sort_from_sorted.
    - eapply Forall_impl; [|exact Hc]. intros a Ha. exact (proj1 Ha).
    - constructor.
    - constructor. }
  split.
  { intros Hall. eapply Permutation_Forall;
      [apply Permutation_sym; exact Hperm|].
    apply combined_types. exact Hall. }
  split.
  { intros E. unfold renderAnomaliesList. fold shown. rewrite E. reflexivity. }
  intros Hne. unfold renderAnomaliesList. fold shown.
  assert (Hsev : Forall (fun a => RenderSpec.missing_or_text (severity a) = true)
                        shown).
  { eapply Permutation_Forall; [apply Permutation_sym; exact Hperm|].
    eapply Forall_impl; [|exact Hc]. intros a Ha. exact (proj2 Ha). }
  destruct (appendCards_completes shown 0 Hsev) as (cards & E & Hh).
  destruct shown as [|a l]; [congruence|].
  rewrite E. exists cards. split; [reflexivity|exact Hh].
Qed.

End AnomalyCards.

Lemma anomalies_listed_newest_first_witness :
  let data := AnomalyList.mkData
                [AnomalyList.at_ms 10; AnomalyList.at_ms 30] []
                [AnomalyList.at_ms 20] in
  map Anomalies.type
      (AnomalyList.sort AnomalyList.numeric_time (AnomalyList.combined "all" data))
  = ["ECG"; "TEMP"; "ECG"] /\
  exists cards,
    AnomalyList.renderAnomaliesList AnomalyList.numeric_time "all" data
    = AnomalyList.Cards cards true
    /\ map Anomalies.header_type cards = ["ECG"; "TEMP"; "ECG"].
Proof.
  intros data.
  assert (Hwf : Forall (AnomalyList.well_formed AnomalyList.numeric_time)
                  (AnomalyList.ecg data ++ AnomalyList.piezo data
                   ++ AnomalyList.temp data)%list).
  { repeat constructor; discriminate. }
  pose proof (anomalies_listed_newest_first AnomalyList.numeric_time
                "all" data Hwf) as H.
  cbv zeta in H. destruct H as (_ & _ & _ & _ & H).
  split; [vm_compute; reflexivity|].
  destruct H as (cards & E & Hh); [vm_compute; discriminate|].
  exists cards. split; [exact E|]. rewrite Hh. vm_compute. reflexivity.
Defined.

(* ===================================================================== *)
(** * The severity label *)
(* ===================================================================== *)

Section SeverityLabel.

Import Js Anomalies.

Lemma upper_lower_ascii (c : ascii) : upper_ascii (lower_ascii c) = upper_ascii c.
Proof. destruct c as [[] [] [] [] [] [] [] []]; vm_compute; reflexivity. Qed.

Lemma upper_lower (s : string) : upper (lower s) = upper s.
Proof.
  induction s as [|c s IH]; cbn [upper lower]; [reflexivity|].
  rewrite upper_lower_ascii, IH. reflexivity.
Qed.

Lemma lower_upper_ascii (c : ascii) : lower_ascii (upper_ascii c) = lower_ascii c.
Proof. destruct c as [[] [] [] [] [] [] [] []]; vm_compute; reflexivity. Qed.

Lemma lower_upper (s : string) : lower (upper s) = lower s.
Proof.
  induction s as [|c s IH]; cbn [upper lower]; [reflexivity|].
  rewrite lower_upper_ascii, IH. reflexivity.
Qed.

(** X23.  The severity label does not depend on the case of the letters:
    two severity strings that are equal in lower case get the same label
    from [translateSeverity]; so ['MILD'], ['Mild'] and ['mild'] all read
    LIEVE, and a string that has no translation is shown in upper case
    however it was written.  No string makes the function throw. *)
Theorem translateSeverity_ignores_case :
  forall s s' : string,
    lower s = lower s' ->
    translateSeverity (Str s) = translateSeverity (Str s') /\
    translateSeverity (Str (upper s)) = translateSeverity (Str s) /\
    translateSeverity (Str s) <> Throws /\
    (lower s = "mild" -> translateSeverity (Str s') = Normal (Plain "LIEVE")) /\
    (translateSeverity (Str s) = Normal (Plain (upper s')) \/
     translateSeverity (Str s) = Normal (Plain "SCONOSCIUTA") \/
     In (lower s) ["mild"; "moderate"; "severe"; "constructor"; "__proto__"]).
Proof.
  intros s s' H.
  assert (Hu : upper s = upper s').
  { rewrite <- (upper_lower s), <- (upper_lower s'), H. reflexivity. }
  split; [|split; [|split; [|split]]].
  - unfold translateSeverity. rewrite H, Hu. reflexivity.
  - unfold translateSeverity.
    rewrite lower_upper, <- (upper_lower (upper s)), lower_upper, upper_lower.
    reflexivity.
  - unfold translateSeverity.
    repeat match goal with
           | |- context [if ?b then _ else _] => destruct b
           end; discriminate.
  - intros Hm. unfold translateSeverity. rewrite <- H, Hm. reflexivity.
  - unfold translateSeverity. rewrite <- Hu.
    destruct (String.eqb_spec (lower s) "mild") as [->|_];
      [right; right; cbn; tauto|].
    destruct (String.eqb_spec (lower s) "moderate") as [->|_];
      [right; right; cbn; tauto|].
    destruct (String.eqb_spec (lower s) "severe") as [->|_];
      [right; right; cbn; tauto|].
    destruct (String.eqb_spec (lower s) "constructor") as [->|_];
      [right; right; cbn; tauto|].
    destruct (String.eqb_spec (lower s) "__proto__") as [->|_];
      [right; right; cbn; tauto|].
    cbn [orb]. destruct (negb (String.eqb (upper s) "")); [left|right; left];
      reflexivity.
Qed.

End SeverityLabel.

Lemma translateSeverity_ignores_case_witness :
  Anomalies.translateSeverity (Js.Str "MiLd")
    = Anomalies.translateSeverity (Js.Str "mild") /\
  Anomalies.translateSeverity (Js.Str "MiLd") = Js.Normal (Js.Plain "LIEVE").
Proof.
  destruct (translateSeverity_ignores_case "mild" "MiLd" eq_refl)
    as (H1 & _ & _ & H4 & _).
  split; [symmetry; exact H1|]. apply H4. reflexivity.
Defined.
